(** * GitPulse: the repository locator, the status extractor and the health
      scorer of [gitpulse.py], embedded as Rocq functions.

    Python [int] is [Z]; [str] is [string], a character being a code point
    below 256; a list is a [list]; a dataclass is a [Record] whose fields
    keep their source names.  The external [git] process is an oracle given
    as an argument, and every query issued is appended to a log. *)

From Stdlib Require Import ZArith List String Ascii Bool Lia.
From Stdlib Require Import DecimalString Sorting.Sorted Permutation.
From Stdlib Require Import OrderedTypeEx.
From Equations Require Import Equations.
Import ListNotations.

Local Open Scope string_scope.
Local Open Scope Z_scope.

(** ** Python string primitives used by the source *)

Module Py.

(** [str.isspace] on one character: TAB..CR, FS..US, space, NEL, NBSP. *)
Definition isspace (c : ascii) : bool :=
  let n := N_of_ascii c in
  ((9 <=? n) && (n <=? 13) || (28 <=? n) && (n <=? 32)
   || (n =? 133) || (n =? 160))%N.

Fixpoint lstrip (s : string) : string :=
  match s with
  | String c r => if isspace c then lstrip r else s
  | EmptyString => EmptyString
  end.

(** [rstrip] keeps a character when something other than white space
    follows it, or when it is not white space itself. *)
Fixpoint rstrip (s : string) : string :=
  match s with
  | EmptyString => EmptyString
  | String c r =>
      match rstrip r with
      | EmptyString => if isspace c then EmptyString else String c EmptyString
      | r' => String c r'
      end
  end.

(** [s.strip()] *)
Definition strip (s : string) : string := rstrip (lstrip s).

(** Truth value of a [str]: non-empty. *)
Definition truthy (s : string) : bool :=
  match s with EmptyString => false | _ => true end.

(** [s.split(c)] for a one-character separator: never an empty list. *)
Fixpoint split_char (c : ascii) (s : string) : list string :=
  match s with
  | EmptyString => [EmptyString]
  | String a r =>
      if Ascii.eqb a c then EmptyString :: split_char c r
      else match split_char c r with
           | w :: ws => String a w :: ws
           | [] => [String a EmptyString]
           end
  end.

(** [s.split()]: the maximal runs of characters that are not white space. *)
Fixpoint split_ws_aux (cur : option string) (s : string) : list string :=
  match s with
  | EmptyString => match cur with Some w => [w] | None => [] end
  | String a r =>
      if isspace a
      then match cur with
           | Some w => w :: split_ws_aux None r
           | None => split_ws_aux None r
           end
      else match cur with
           | Some w => split_ws_aux (Some (w ++ String a EmptyString)) r
           | None => split_ws_aux (Some (String a EmptyString)) r
           end
  end.

Definition split_ws (s : string) : list string := split_ws_aux None s.

(** [s.find(sep)] as the text before and after the first occurrence. *)
Fixpoint partition (sep : string) (s : string) : option (string * string) :=
  if String.prefix sep s
  then Some (EmptyString, String.substring (String.length sep)
                            (String.length s - String.length sep) s)
  else match s with
       | EmptyString => None
       | String a r =>
           match partition sep r with
           | Some (b, e) => Some (String a b, e)
           | None => None
           end
       end.

(** [s.split(sep, 1)] for a non-empty separator. *)
Definition split_once (sep : string) (s : string) : list string :=
  match partition sep s with
  | Some (b, e) => [b; e]
  | None => [s]
  end.

(** [s.split(sep)] for a non-empty separator; [fuel] bounds the number of
    pieces and [String.length s] is always enough. *)
Fixpoint split_str_aux (fuel : nat) (sep : string) (s : string) : list string :=
  match fuel with
  | O => [s]
  | S f =>
      match partition sep s with
      | Some (b, e) => b :: split_str_aux f sep e
      | None => [s]
      end
  end.

Definition split_str (sep : string) (s : string) : list string :=
  split_str_aux (String.length s) sep s.

(** [s[:n]] *)
Definition slice_to (n : nat) (s : string) : string := String.substring 0 n s.

(** [s[i]], [None] standing for IndexError. *)
Definition index (s : string) (i : nat) : option ascii := String.get i s.

(** [s.startswith(p)] *)
Definition startswith (p s : string) : bool := String.prefix p s.

Definition digit_val (c : ascii) : option Z :=
  let n := N_of_ascii c in
  if ((48 <=? n) && (n <=? 57))%N then Some (Z.of_N n - 48) else None.

(** Digits of a decimal literal after the sign: digits, with single
    underscores allowed between two digits.  [acc] is the value read so far
    and [prev] tells whether the previous character was a digit. *)
Fixpoint int_digits (acc : Z) (prev : bool) (s : string) : option Z :=
  match s with
  | EmptyString => if prev then Some acc else None
  | String c r =>
      match digit_val c with
      | Some d => int_digits (10 * acc + d) true r
      | None =>
          if (Ascii.eqb c "_" && prev)%bool
          then match r with
               | String c' _ =>
                   match digit_val c' with
                   | Some _ => int_digits acc false r
                   | None => None
                   end
               | EmptyString => None
               end
          else None
      end
  end.

(** [sys.get_int_max_str_digits()], at its default. *)
Definition max_str_digits : Z := 4300.

(** The number of digit characters of a literal; underscores do not count,
    leading zeros do. *)
Fixpoint count_digits (s : string) : Z :=
  match s with
  | EmptyString => 0
  | String c r =>
      match digit_val c with
      | Some _ => 1 + count_digits r
      | None => count_digits r
      end
  end.

(** A decimal literal after its sign: a well-formed literal of more than
    [max_str_digits] digits is refused, with ValueError as a malformed one
    is. *)
Definition int_literal (r : string) : option Z :=
  match int_digits 0 false r with
  | Some n => if count_digits r >? max_str_digits then None else Some n
  | None => None
  end.

(** [int(s)] in base ten, [None] standing for ValueError.  The value has
    arbitrary precision, the text at most [max_str_digits] digits. *)
Definition int (s : string) : option Z :=
  match strip s with
  | String "-" r => option_map Z.opp (int_literal r)
  | String "+" r => int_literal r
  | r => int_literal r
  end.

(** [str(n)], the text an f-string puts for an [int]. *)
Definition str_of_int (n : Z) : string := NilZero.string_of_int (Z.to_int n).

(** [len(s)] *)
Definition len (s : string) : Z := Z.of_nat (String.length s).

End Py.

(** ** Data classes *)

(** [RepoStatus]: detailed status of a single git repository. *)
Record RepoStatus := mkRepoStatus {
  name : string;
  path : string;
  current_branch : string;
  staged_count : Z;
  modified_count : Z;
  untracked_count : Z;
  deleted_count : Z;
  conflict_count : Z;
  stash_count : Z;
  ahead : Z;
  behind : Z;
  has_remote : bool;
  remote_url : string;
  last_commit_date : string;
  last_commit_age_days : Z;
  last_commit_message : string;
  total_commits : Z;
  branch_count : Z;
  tag_count : Z;
  is_dirty : bool;
  is_detached : bool;
  health_score : Z;
  health_grade : string;
  issues : list string;
  error : string
}.

(** [RepoStatus(name=n, path=p)]: every other field at its default. *)
Definition new_RepoStatus (n p : string) : RepoStatus :=
  {| name := n; path := p; current_branch := "";
     staged_count := 0; modified_count := 0; untracked_count := 0;
     deleted_count := 0; conflict_count := 0; stash_count := 0;
     ahead := 0; behind := 0; has_remote := false; remote_url := "";
     last_commit_date := ""; last_commit_age_days := 0;
     last_commit_message := ""; total_commits := 0; branch_count := 0;
     tag_count := 0; is_dirty := false; is_detached := false;
     health_score := 100; health_grade := "A"; issues := []; error := "" |}.

(** Attribute assignment [status.f = v], one setter per assigned field. *)
Definition set_current_branch (v : string) (s : RepoStatus) : RepoStatus :=
  {| name := name s; path := path s; current_branch := v;
     staged_count := staged_count s; modified_count := modified_count s;
     untracked_count := untracked_count s; deleted_count := deleted_count s;
     conflict_count := conflict_count s; stash_count := stash_count s;
     ahead := ahead s; behind := behind s; has_remote := has_remote s;
     remote_url := remote_url s; last_commit_date := last_commit_date s;
     last_commit_age_days := last_commit_age_days s;
     last_commit_message := last_commit_message s;
     total_commits := total_commits s; branch_count := branch_count s;
     tag_count := tag_count s; is_dirty := is_dirty s;
     is_detached := is_detached s; health_score := health_score s;
     health_grade := health_grade s; issues := issues s; error := error s |}.
Definition set_staged_count (v : Z) (s : RepoStatus) : RepoStatus :=
  {| name := name s; path := path s; current_branch := current_branch s;
     staged_count := v; modified_count := modified_count s;
     untracked_count := untracked_count s; deleted_count := deleted_count s;
     conflict_count := conflict_count s; stash_count := stash_count s;
     ahead := ahead s; behind := behind s; has_remote := has_remote s;
     remote_url := remote_url s; last_commit_date := last_commit_date s;
     last_commit_age_days := last_commit_age_days s;
     last_commit_message := last_commit_message s;
     total_commits := total_commits s; branch_count := branch_count s;
     tag_count := tag_count s; is_dirty := is_dirty s;
     is_detached := is_detached s; health_score := health_score s;
     health_grade := health_grade s; issues := issues s; error := error s |}.
Definition set_modified_count (v : Z) (s : RepoStatus) : RepoStatus :=
  {| name := name s; path := path s; current_branch := current_branch s;
     staged_count := staged_count s; modified_count := v;
     untracked_count := untracked_count s; deleted_count := deleted_count s;
     conflict_count := conflict_count s; stash_count := stash_count s;
     ahead := ahead s; behind := behind s; has_remote := has_remote s;
     remote_url := remote_url s; last_commit_date := last_commit_date s;
     last_commit_age_days := last_commit_age_days s;
     last_commit_message := last_commit_message s;
     total_commits := total_commits s; branch_count := branch_count s;
     tag_count := tag_count s; is_dirty := is_dirty s;
     is_detached := is_detached s; health_score := health_score s;
     health_grade := health_grade s; issues := issues s; error := error s |}.
Definition set_untracked_count (v : Z) (s : RepoStatus) : RepoStatus :=
  {| name := name s; path := path s; current_branch := current_branch s;
     staged_count := staged_count s; modified_count := modified_count s;
     untracked_count := v; deleted_count := deleted_count s;
     conflict_count := conflict_count s; stash_count := stash_count s;
     ahead := ahead s; behind := behind s; has_remote := has_remote s;
     remote_url := remote_url s; last_commit_date := last_commit_date s;
     last_commit_age_days := last_commit_age_days s;
     last_commit_message := last_commit_message s;
     total_commits := total_commits s; branch_count := branch_count s;
     tag_count := tag_count s; is_dirty := is_dirty s;
     is_detached := is_detached s; health_score := health_score s;
     health_grade := health_grade s; issues := issues s; error := error s |}.
Definition set_deleted_count (v : Z) (s : RepoStatus) : RepoStatus :=
  {| name := name s; path := path s; current_branch := current_branch s;
     staged_count := staged_count s; modified_count := modified_count s;
     untracked_count := untracked_count s; deleted_count := v;
     conflict_count := conflict_count s; stash_count := stash_count s;
     ahead := ahead s; behind := behind s; has_remote := has_remote s;
     remote_url := remote_url s; last_commit_date := last_commit_date s;
     last_commit_age_days := last_commit_age_days s;
     last_commit_message := last_commit_message s;
     total_commits := total_commits s; branch_count := branch_count s;
     tag_count := tag_count s; is_dirty := is_dirty s;
     is_detached := is_detached s; health_score := health_score s;
     health_grade := health_grade s; issues := issues s; error := error s |}.
Definition set_conflict_count (v : Z) (s : RepoStatus) : RepoStatus :=
  {| name := name s; path := path s; current_branch := current_branch s;
     staged_count := staged_count s; modified_count := modified_count s;
     untracked_count := untracked_count s; deleted_count := deleted_count s;
     conflict_count := v; stash_count := stash_count s; ahead := ahead s;
     behind := behind s; has_remote := has_remote s;
     remote_url := remote_url s; last_commit_date := last_commit_date s;
     last_commit_age_days := last_commit_age_days s;
     last_commit_message := last_commit_message s;
     total_commits := total_commits s; branch_count := branch_count s;
     tag_count := tag_count s; is_dirty := is_dirty s;
     is_detached := is_detached s; health_score := health_score s;
     health_grade := health_grade s; issues := issues s; error := error s |}.
Definition set_stash_count (v : Z) (s : RepoStatus) : RepoStatus :=
  {| name := name s; path := path s; current_branch := current_branch s;
     staged_count := staged_count s; modified_count := modified_count s;
     untracked_count := untracked_count s; deleted_count := deleted_count s;
     conflict_count := conflict_count s; stash_count := v; ahead := ahead s;
     behind := behind s; has_remote := has_remote s;
     remote_url := remote_url s; last_commit_date := last_commit_date s;
     last_commit_age_days := last_commit_age_days s;
     last_commit_message := last_commit_message s;
     total_commits := total_commits s; branch_count := branch_count s;
     tag_count := tag_count s; is_dirty := is_dirty s;
     is_detached := is_detached s; health_score := health_score s;
     health_grade := health_grade s; issues := issues s; error := error s |}.
Definition set_ahead (v : Z) (s : RepoStatus) : RepoStatus :=
  {| name := name s; path := path s; current_branch := current_branch s;
     staged_count := staged_count s; modified_count := modified_count s;
     untracked_count := untracked_count s; deleted_count := deleted_count s;
     conflict_count := conflict_count s; stash_count := stash_count s;
     ahead := v; behind := behind s; has_remote := has_remote s;
     remote_url := remote_url s; last_commit_date := last_commit_date s;
     last_commit_age_days := last_commit_age_days s;
     last_commit_message := last_commit_message s;
     total_commits := total_commits s; branch_count := branch_count s;
     tag_count := tag_count s; is_dirty := is_dirty s;
     is_detached := is_detached s; health_score := health_score s;
     health_grade := health_grade s; issues := issues s; error := error s |}.
Definition set_behind (v : Z) (s : RepoStatus) : RepoStatus :=
  {| name := name s; path := path s; current_branch := current_branch s;
     staged_count := staged_count s; modified_count := modified_count s;
     untracked_count := untracked_count s; deleted_count := deleted_count s;
     conflict_count := conflict_count s; stash_count := stash_count s;
     ahead := ahead s; behind := v; has_remote := has_remote s;
     remote_url := remote_url s; last_commit_date := last_commit_date s;
     last_commit_age_days := last_commit_age_days s;
     last_commit_message := last_commit_message s;
     total_commits := total_commits s; branch_count := branch_count s;
     tag_count := tag_count s; is_dirty := is_dirty s;
     is_detached := is_detached s; health_score := health_score s;
     health_grade := health_grade s; issues := issues s; error := error s |}.
Definition set_has_remote (v : bool) (s : RepoStatus) : RepoStatus :=
  {| name := name s; path := path s; current_branch := current_branch s;
     staged_count := staged_count s; modified_count := modified_count s;
     untracked_count := untracked_count s; deleted_count := deleted_count s;
     conflict_count := conflict_count s; stash_count := stash_count s;
     ahead := ahead s; behind := behind s; has_remote := v;
     remote_url := remote_url s; last_commit_date := last_commit_date s;
     last_commit_age_days := last_commit_age_days s;
     last_commit_message := last_commit_message s;
     total_commits := total_commits s; branch_count := branch_count s;
     tag_count := tag_count s; is_dirty := is_dirty s;
     is_detached := is_detached s; health_score := health_score s;
     health_grade := health_grade s; issues := issues s; error := error s |}.
Definition set_remote_url (v : string) (s : RepoStatus) : RepoStatus :=
  {| name := name s; path := path s; current_branch := current_branch s;
     staged_count := staged_count s; modified_count := modified_count s;
     untracked_count := untracked_count s; deleted_count := deleted_count s;
     conflict_count := conflict_count s; stash_count := stash_count s;
     ahead := ahead s; behind := behind s; has_remote := has_remote s;
     remote_url := v; last_commit_date := last_commit_date s;
     last_commit_age_days := last_commit_age_days s;
     last_commit_message := last_commit_message s;
     total_commits := total_commits s; branch_count := branch_count s;
     tag_count := tag_count s; is_dirty := is_dirty s;
     is_detached := is_detached s; health_score := health_score s;
     health_grade := health_grade s; issues := issues s; error := error s |}.
Definition set_last_commit_date (v : string) (s : RepoStatus) : RepoStatus :=
  {| name := name s; path := path s; current_branch := current_branch s;
     staged_count := staged_count s; modified_count := modified_count s;
     untracked_count := untracked_count s; deleted_count := deleted_count s;
     conflict_count := conflict_count s; stash_count := stash_count s;
     ahead := ahead s; behind := behind s; has_remote := has_remote s;
     remote_url := remote_url s; last_commit_date := v;
     last_commit_age_days := last_commit_age_days s;
     last_commit_message := last_commit_message s;
     total_commits := total_commits s; branch_count := branch_count s;
     tag_count := tag_count s; is_dirty := is_dirty s;
     is_detached := is_detached s; health_score := health_score s;
     health_grade := health_grade s; issues := issues s; error := error s |}.
Definition set_last_commit_age_days (v : Z) (s : RepoStatus) : RepoStatus :=
  {| name := name s; path := path s; current_branch := current_branch s;
     staged_count := staged_count s; modified_count := modified_count s;
     untracked_count := untracked_count s; deleted_count := deleted_count s;
     conflict_count := conflict_count s; stash_count := stash_count s;
     ahead := ahead s; behind := behind s; has_remote := has_remote s;
     remote_url := remote_url s; last_commit_date := last_commit_date s;
     last_commit_age_days := v; last_commit_message := last_commit_message s;
     total_commits := total_commits s; branch_count := branch_count s;
     tag_count := tag_count s; is_dirty := is_dirty s;
     is_detached := is_detached s; health_score := health_score s;
     health_grade := health_grade s; issues := issues s; error := error s |}.
Definition set_last_commit_message (v : string) (s : RepoStatus) : RepoStatus :=
  {| name := name s; path := path s; current_branch := current_branch s;
     staged_count := staged_count s; modified_count := modified_count s;
     untracked_count := untracked_count s; deleted_count := deleted_count s;
     conflict_count := conflict_count s; stash_count := stash_count s;
     ahead := ahead s; behind := behind s; has_remote := has_remote s;
     remote_url := remote_url s; last_commit_date := last_commit_date s;
     last_commit_age_days := last_commit_age_days s;
     last_commit_message := v; total_commits := total_commits s;
     branch_count := branch_count s; tag_count := tag_count s;
     is_dirty := is_dirty s; is_detached := is_detached s;
     health_score := health_score s; health_grade := health_grade s;
     issues := issues s; error := error s |}.
Definition set_total_commits (v : Z) (s : RepoStatus) : RepoStatus :=
  {| name := name s; path := path s; current_branch := current_branch s;
     staged_count := staged_count s; modified_count := modified_count s;
     untracked_count := untracked_count s; deleted_count := deleted_count s;
     conflict_count := conflict_count s; stash_count := stash_count s;
     ahead := ahead s; behind := behind s; has_remote := has_remote s;
     remote_url := remote_url s; last_commit_date := last_commit_date s;
     last_commit_age_days := last_commit_age_days s;
     last_commit_message := last_commit_message s; total_commits := v;
     branch_count := branch_count s; tag_count := tag_count s;
     is_dirty := is_dirty s; is_detached := is_detached s;
     health_score := health_score s; health_grade := health_grade s;
     issues := issues s; error := error s |}.
Definition set_branch_count (v : Z) (s : RepoStatus) : RepoStatus :=
  {| name := name s; path := path s; current_branch := current_branch s;
     staged_count := staged_count s; modified_count := modified_count s;
     untracked_count := untracked_count s; deleted_count := deleted_count s;
     conflict_count := conflict_count s; stash_count := stash_count s;
     ahead := ahead s; behind := behind s; has_remote := has_remote s;
     remote_url := remote_url s; last_commit_date := last_commit_date s;
     last_commit_age_days := last_commit_age_days s;
     last_commit_message := last_commit_message s;
     total_commits := total_commits s; branch_count := v;
     tag_count := tag_count s; is_dirty := is_dirty s;
     is_detached := is_detached s; health_score := health_score s;
     health_grade := health_grade s; issues := issues s; error := error s |}.
Definition set_tag_count (v : Z) (s : RepoStatus) : RepoStatus :=
  {| name := name s; path := path s; current_branch := current_branch s;
     staged_count := staged_count s; modified_count := modified_count s;
     untracked_count := untracked_count s; deleted_count := deleted_count s;
     conflict_count := conflict_count s; stash_count := stash_count s;
     ahead := ahead s; behind := behind s; has_remote := has_remote s;
     remote_url := remote_url s; last_commit_date := last_commit_date s;
     last_commit_age_days := last_commit_age_days s;
     last_commit_message := last_commit_message s;
     total_commits := total_commits s; branch_count := branch_count s;
     tag_count := v; is_dirty := is_dirty s; is_detached := is_detached s;
     health_score := health_score s; health_grade := health_grade s;
     issues := issues s; error := error s |}.
Definition set_is_dirty (v : bool) (s : RepoStatus) : RepoStatus :=
  {| name := name s; path := path s; current_branch := current_branch s;
     staged_count := staged_count s; modified_count := modified_count s;
     untracked_count := untracked_count s; deleted_count := deleted_count s;
     conflict_count := conflict_count s; stash_count := stash_count s;
     ahead := ahead s; behind := behind s; has_remote := has_remote s;
     remote_url := remote_url s; last_commit_date := last_commit_date s;
     last_commit_age_days := last_commit_age_days s;
     last_commit_message := last_commit_message s;
     total_commits := total_commits s; branch_count := branch_count s;
     tag_count := tag_count s; is_dirty := v; is_detached := is_detached s;
     health_score := health_score s; health_grade := health_grade s;
     issues := issues s; error := error s |}.
Definition set_is_detached (v : bool) (s : RepoStatus) : RepoStatus :=
  {| name := name s; path := path s; current_branch := current_branch s;
     staged_count := staged_count s; modified_count := modified_count s;
     untracked_count := untracked_count s; deleted_count := deleted_count s;
     conflict_count := conflict_count s; stash_count := stash_count s;
     ahead := ahead s; behind := behind s; has_remote := has_remote s;
     remote_url := remote_url s; last_commit_date := last_commit_date s;
     last_commit_age_days := last_commit_age_days s;
     last_commit_message := last_commit_message s;
     total_commits := total_commits s; branch_count := branch_count s;
     tag_count := tag_count s; is_dirty := is_dirty s; is_detached := v;
     health_score := health_score s; health_grade := health_grade s;
     issues := issues s; error := error s |}.
Definition set_health_score (v : Z) (s : RepoStatus) : RepoStatus :=
  {| name := name s; path := path s; current_branch := current_branch s;
     staged_count := staged_count s; modified_count := modified_count s;
     untracked_count := untracked_count s; deleted_count := deleted_count s;
     conflict_count := conflict_count s; stash_count := stash_count s;
     ahead := ahead s; behind := behind s; has_remote := has_remote s;
     remote_url := remote_url s; last_commit_date := last_commit_date s;
     last_commit_age_days := last_commit_age_days s;
     last_commit_message := last_commit_message s;
     total_commits := total_commits s; branch_count := branch_count s;
     tag_count := tag_count s; is_dirty := is_dirty s;
     is_detached := is_detached s; health_score := v;
     health_grade := health_grade s; issues := issues s; error := error s |}.
Definition set_health_grade (v : string) (s : RepoStatus) : RepoStatus :=
  {| name := name s; path := path s; current_branch := current_branch s;
     staged_count := staged_count s; modified_count := modified_count s;
     untracked_count := untracked_count s; deleted_count := deleted_count s;
     conflict_count := conflict_count s; stash_count := stash_count s;
     ahead := ahead s; behind := behind s; has_remote := has_remote s;
     remote_url := remote_url s; last_commit_date := last_commit_date s;
     last_commit_age_days := last_commit_age_days s;
     last_commit_message := last_commit_message s;
     total_commits := total_commits s; branch_count := branch_count s;
     tag_count := tag_count s; is_dirty := is_dirty s;
     is_detached := is_detached s; health_score := health_score s;
     health_grade := v; issues := issues s; error := error s |}.
Definition set_issues (v : list string) (s : RepoStatus) : RepoStatus :=
  {| name := name s; path := path s; current_branch := current_branch s;
     staged_count := staged_count s; modified_count := modified_count s;
     untracked_count := untracked_count s; deleted_count := deleted_count s;
     conflict_count := conflict_count s; stash_count := stash_count s;
     ahead := ahead s; behind := behind s; has_remote := has_remote s;
     remote_url := remote_url s; last_commit_date := last_commit_date s;
     last_commit_age_days := last_commit_age_days s;
     last_commit_message := last_commit_message s;
     total_commits := total_commits s; branch_count := branch_count s;
     tag_count := tag_count s; is_dirty := is_dirty s;
     is_detached := is_detached s; health_score := health_score s;
     health_grade := health_grade s; issues := v; error := error s |}.
Definition set_error (v : string) (s : RepoStatus) : RepoStatus :=
  {| name := name s; path := path s; current_branch := current_branch s;
     staged_count := staged_count s; modified_count := modified_count s;
     untracked_count := untracked_count s; deleted_count := deleted_count s;
     conflict_count := conflict_count s; stash_count := stash_count s;
     ahead := ahead s; behind := behind s; has_remote := has_remote s;
     remote_url := remote_url s; last_commit_date := last_commit_date s;
     last_commit_age_days := last_commit_age_days s;
     last_commit_message := last_commit_message s;
     total_commits := total_commits s; branch_count := branch_count s;
     tag_count := tag_count s; is_dirty := is_dirty s;
     is_detached := is_detached s; health_score := health_score s;
     health_grade := health_grade s; issues := issues s; error := v |}.


(** [ScanResult]: result of scanning a directory for git repositories. *)
Record ScanResult := mkScanResult {
  root_dir : string;
  total_repos : Z;
  healthy_count : Z;
  warning_count : Z;
  critical_count : Z;
  error_count : Z;
  repos : list RepoStatus
}.

(** ** Health scorer: [GitPulse._calculate_health] *)

(** One [if cond: score -= k; issues.append(msg)] statement, acting on the
    pair of the two local variables. *)
Definition deduct (cond : bool) (k : Z) (msg : string)
    (acc : Z * list string) : Z * list string :=
  if cond then (fst acc - k, (snd acc ++ [msg])%list) else acc.

Definition grade_of (score : Z) : string :=
  if score >=? 90 then "A"
  else if score >=? 80 then "B"
  else if score >=? 70 then "C"
  else if score >=? 60 then "D"
  else "F".

Definition calculate_health (status : RepoStatus) : Z * string * list string :=
  let acc := (100, []) in
  let acc := deduct (negb (has_remote status)) 15 "No remote configured" acc in
  let acc :=
    deduct ((staged_count status >? 0) || (modified_count status >? 0)) 10
      (Py.str_of_int (staged_count status + modified_count status)
       ++ " uncommitted change(s)") acc in
  let acc :=
    deduct (untracked_count status >? 0) 5
      (Py.str_of_int (untracked_count status) ++ " untracked file(s)") acc in
  let acc :=
    deduct (deleted_count status >? 0) 5
      (Py.str_of_int (deleted_count status) ++ " deleted file(s)") acc in
  let acc :=
    deduct (behind status >? 0) 10
      (Py.str_of_int (behind status) ++ " commit(s) behind remote") acc in
  let acc :=
    deduct ((ahead status >? 0) && (ahead status >? 5)) 5
      (Py.str_of_int (ahead status) ++ " unpushed commit(s)") acc in
  let acc :=
    if last_commit_age_days status >? 90 then
      deduct true 20
        ("Very stale: " ++ Py.str_of_int (last_commit_age_days status)
         ++ " days since last commit") acc
    else
      deduct (last_commit_age_days status >? 30) 10
        ("Stale: " ++ Py.str_of_int (last_commit_age_days status)
         ++ " days since last commit") acc in
  let acc := deduct (is_detached status) 5 "Detached HEAD state" acc in
  let acc :=
    deduct (conflict_count status >? 0) 20
      (Py.str_of_int (conflict_count status) ++ " merge conflict(s)") acc in
  let acc := deduct (total_commits status =? 0) 30 "No commits yet" acc in
  let acc :=
    deduct (stash_count status >? 0) 3
      (Py.str_of_int (stash_count status) ++ " stash(es) pending") acc in
  let score := Z.max 0 (fst acc) in
  (score, grade_of score, snd acc).

(** ** Paths *)

(** An absolute [pathlib.Path], as the list of its components below [/]. *)
Definition Path := list string.

(** [str(p)] *)
Definition path_str (p : Path) : string := "/" ++ String.concat "/" p.

(** [p.name]: the last component, empty for the file-system root. *)
Definition path_name (p : Path) : string := last p "".

(** [p / n] *)
Definition path_join (p : Path) (n : string) : Path := (p ++ [n])%list.

(** ** [datetime] and [timedelta], as far as the source uses them *)

(** A [timedelta], normalised as the library keeps it:
    [0 <= seconds < 86400] and [0 <= microseconds < 1000000]. *)
Record timedelta := mkTimedelta {
  days : Z;
  seconds : Z;
  microseconds : Z
}.

(** [timedelta(d, s, us)]: the constructor carries the excess upwards with
    floor division, so that [days] alone takes the sign. *)
Definition timedelta_new (d s us : Z) : timedelta :=
  let s := s + us / 1000000 in
  let us := us mod 1000000 in
  let d := d + s / 86400 in
  let s := s mod 86400 in
  {| days := d; seconds := s; microseconds := us |}.

Definition timedelta_add (a b : timedelta) : timedelta :=
  timedelta_new (days a + days b) (seconds a + seconds b)
    (microseconds a + microseconds b).

Definition timedelta_sub (a b : timedelta) : timedelta :=
  timedelta_new (days a - days b) (seconds a - seconds b)
    (microseconds a - microseconds b).

Definition timedelta_eqb (a b : timedelta) : bool :=
  (days a =? days b) && (seconds a =? seconds b)
  && (microseconds a =? microseconds b).

(** A [datetime]: the calendar fields and [tzinfo], kept as the offset from
    UTC it stands for ([None] for a naive value). *)
Record datetime := mkDatetime {
  year : Z;
  month : Z;
  day : Z;
  hour : Z;
  minute : Z;
  second : Z;
  microsecond : Z;
  tzinfo : option timedelta
}.

(** [timezone.utc] *)
Definition utc : timedelta := timedelta_new 0 0 0.

(** [dt.replace(tzinfo=tz)] *)
Definition replace_tzinfo (tz : option timedelta) (dt : datetime) : datetime :=
  {| year := year dt; month := month dt; day := day dt; hour := hour dt;
     minute := minute dt; second := second dt;
     microsecond := microsecond dt; tzinfo := tz |}.

Definition is_leap (y : Z) : bool :=
  (y mod 4 =? 0) && (negb (y mod 100 =? 0) || (y mod 400 =? 0)).

Definition days_before_year (y : Z) : Z :=
  let y := y - 1 in y * 365 + y / 4 - y / 100 + y / 400.

(** Days of the year before the first day of month [m]. *)
Definition days_before_month (y m : Z) : Z :=
  nth (Z.to_nat m) [0; 0; 31; 59; 90; 120; 151; 181; 212; 243; 273; 304; 334] 0
  + (if (m >? 2) && is_leap y then 1 else 0).

(** [dt.toordinal()]: day 1 is 0001-01-01. *)
Definition toordinal (dt : datetime) : Z :=
  days_before_year (year dt) + days_before_month (year dt) (month dt) + day dt.

(** [a - b] on two [datetime]s; [None] stands for the TypeError raised when
    exactly one of them is naive. *)
Definition datetime_sub (a b : datetime) : option timedelta :=
  let secs1 := second a + minute a * 60 + hour a * 3600 in
  let secs2 := second b + minute b * 60 + hour b * 3600 in
  let base := timedelta_new (toordinal a - toordinal b) (secs1 - secs2)
                (microsecond a - microsecond b) in
  match tzinfo a, tzinfo b with
  | None, None => Some base
  | Some myoff, Some otoff =>
      if timedelta_eqb myoff otoff then Some base
      else Some (timedelta_sub (timedelta_add base otoff) myoff)
  | _, _ => None
  end.

(** ** The command runner and the monad of the extractor *)

(** What [subprocess.run] does with a command line. *)
Inductive proc_outcome :=
| Completed (stdout stderr : string) (returncode : Z)
| TimeoutExpired
| FileNotFoundError
| OtherException (message : string).

(** The commands run so far, oldest first. *)
Definition Log := list (list string).

(** A computation that runs commands: it extends the log and either returns
    a value or ends in an exception nobody caught ([None]). *)
Definition Run (A : Type) : Type := Log -> option A * Log.

Definition ret {A} (a : A) : Run A := fun log => (Some a, log).

Definition bind {A B} (c : Run A) (k : A -> Run B) : Run B :=
  fun log =>
    match c log with
    | (Some a, log') => k a log'
    | (None, log') => (None, log')
    end.

(** An operation that may raise (an index out of range). *)
Definition lift {A} (o : option A) : Run A := fun log => (o, log).

Declare Scope run_scope.
Delimit Scope run_scope with run.
Notation "x <- c ;; k" := (bind c (fun x => k))
  (at level 61, c at next level, right associativity) : run_scope.
Notation "' pat <- c ;; k" := (bind c (fun x => match x with pat => k end))
  (at level 61, pat pattern, c at next level, right associativity) : run_scope.
Local Open Scope run_scope.

Definition LF : ascii := "010"%char.

(** [for x in xs: body], threading the object the body mutates. *)
Fixpoint for_each {A S} (xs : list A) (body : A -> S -> Run S) (s : S) : Run S :=
  match xs with
  | [] => ret s
  | x :: xs' => s' <- body x s ;; for_each xs' body s'
  end.

(** Everything outside the program: the [git] executable behind
    [subprocess.run], the clock behind [datetime.now(timezone.utc)] (its
    reading may depend on the commands run so far), and the library parser
    [datetime.fromisoformat] ([None] standing for ValueError). *)
Record World := mkWorld {
  subprocess_run : list string -> proc_outcome;
  utcnow : Log -> datetime;
  fromisoformat : string -> option datetime
}.

Section Extractor.

Variable w : World.

(** The command line [_run_git] builds. *)
Definition git_cmd (repo_path : Path) (args : list string) : list string :=
  (["git"; "-C"; path_str repo_path] ++ args)%list.

(** What [_run_git] returns: the captured texts stripped, or the stand-ins
    for the three exceptions it catches. *)
Definition run_git_result (repo_path : Path) (args : list string)
    : string * string * Z :=
  match subprocess_run w (git_cmd repo_path args) with
  | Completed out err rc => (Py.strip out, Py.strip err, rc)
  | TimeoutExpired => ("", "Command timed out", 1)
  | FileNotFoundError => ("", "git not found in PATH", 127)
  | OtherException e => ("", e, 1)
  end.

(** [GitPulse._run_git]: runs the command and never raises. *)
Definition run_git (repo_path : Path) (args : list string)
    : Run (string * string * Z) :=
  fun log =>
    (Some (run_git_result repo_path args),
     (log ++ [git_cmd repo_path args])%list).

(** The value of [datetime.now(timezone.utc)] once the commands of [log]
    have run: the clock's reading, carrying the UTC offset. *)
Definition now_utc (log : Log) : datetime :=
  replace_tzinfo (Some utc) (utcnow w log).

(** [datetime.now(timezone.utc)] *)
Definition datetime_now_utc : Run datetime :=
  fun log => (Some (now_utc log), log).

(** The body of the loop over the lines of [git status --porcelain=v1]. *)
Definition classify_line (line : string) (status : RepoStatus)
    : Run RepoStatus :=
  if Py.len line >=? 2 then
    x <- lift (Py.index line 0) ;;
    y <- lift (Py.index line 1) ;;
    if (x =? "?")%char && (y =? "?")%char then
      ret (set_untracked_count (untracked_count status + 1) status)
    else if (x =? "U")%char || (y =? "U")%char
            || (x =? "A")%char && (y =? "A")%char
            || (x =? "D")%char && (y =? "D")%char then
      ret (set_conflict_count (conflict_count status + 1) status)
    else
      let status :=
        if existsb (Ascii.eqb x) ["A"; "M"; "R"; "C"]%char
        then set_staged_count (staged_count status + 1) status else status in
      let status :=
        if (x =? "D")%char
        then set_deleted_count (deleted_count status + 1) status else status in
      let status :=
        if (y =? "M")%char
        then set_modified_count (modified_count status + 1) status else status in
      let status :=
        if (y =? "D")%char
        then set_deleted_count (deleted_count status + 1) status else status in
      ret status
  else ret status.

(** The working-tree parser: the loop over [stdout.split("\n")]. *)
Definition parse_porcelain (stdout : string) (status : RepoStatus)
    : Run RepoStatus :=
  for_each (Py.split_char LF stdout) classify_line status.

(** The [try] block that turns an ISO date into an age in days; the value
    is [None] when ValueError or TypeError was caught, and the field is
    then left alone.  The same block serves branches. *)
Definition commit_age_days (text : string) : Run (option Z) :=
  match fromisoformat w text with
  | None => ret None
  | Some commit_dt =>
      now <- datetime_now_utc ;;
      let commit_dt :=
        match tzinfo commit_dt with
        | None => replace_tzinfo (Some utc) commit_dt
        | Some _ => commit_dt
        end in
      match datetime_sub now commit_dt with
      | None => ret None
      | Some delta => ret (Some (days delta))
      end
  end.

(** Number of lines that are not blank: [len([b for b in ... if b.strip()])]. *)
Definition count_lines (stdout : string) : Z :=
  Z.of_nat (List.length
    (filter (fun b => Py.truthy (Py.strip b)) (Py.split_char LF stdout))).

(** *** The steps of [GitPulse._get_repo_status], in source order *)

(** Current branch *)
Definition step_branch (repo_path : Path) (status : RepoStatus)
    : Run RepoStatus :=
  '(stdout, _, rc) <- run_git repo_path ["branch"; "--show-current"] ;;
  if (rc =? 0) && Py.truthy stdout then
    ret (set_current_branch stdout status)
  else
    '(stdout2, _, rc2) <- run_git repo_path ["rev-parse"; "--short"; "HEAD"] ;;
    if rc2 =? 0 then
      ret (set_is_detached true
             (set_current_branch ("(detached at " ++ stdout2 ++ ")") status))
    else
      ret (set_current_branch "(unknown)" status).

(** Porcelain status for file counts *)
Definition step_porcelain (repo_path : Path) (status : RepoStatus)
    : Run RepoStatus :=
  '(stdout, _, rc) <- run_git repo_path ["status"; "--porcelain=v1"] ;;
  if (rc =? 0) && Py.truthy stdout then parse_porcelain stdout status
  else ret status.

Definition step_dirty (status : RepoStatus) : Run RepoStatus :=
  ret (set_is_dirty
         ((staged_count status >? 0) || (modified_count status >? 0)
          || (untracked_count status >? 0) || (deleted_count status >? 0)
          || (conflict_count status >? 0)) status).

(** Remote info *)
Definition step_remote (repo_path : Path) (status : RepoStatus)
    : Run RepoStatus :=
  '(stdout, _, rc) <- run_git repo_path ["remote"; "-v"] ;;
  if (rc =? 0) && Py.truthy stdout then
    let status := set_has_remote true status in
    match Py.split_char LF stdout with
    | [] => ret status
    | line0 :: _ =>
        let parts := Py.split_ws line0 in
        if Z.of_nat (List.length parts) >=? 2 then
          url <- lift (nth_error parts 1) ;;
          ret (set_remote_url url status)
        else ret status
    end
  else ret (set_has_remote false status).

(** Ahead/behind *)
Definition step_ahead_behind (repo_path : Path) (status : RepoStatus)
    : Run RepoStatus :=
  if has_remote status && negb (is_detached status) then
    '(stdout, _, rc) <-
      run_git repo_path
        ["rev-list"; "--left-right"; "--count";
         current_branch status ++ "@{upstream}...HEAD"] ;;
    if (rc =? 0) && Py.truthy stdout then
      let parts := Py.split_ws stdout in
      if Z.of_nat (List.length parts) =? 2 then
        p0 <- lift (nth_error parts 0) ;;
        match Py.int p0 with
        | None => ret status
        | Some b =>
            let status := set_behind b status in
            p1 <- lift (nth_error parts 1) ;;
            match Py.int p1 with
            | None => ret status
            | Some a => ret (set_ahead a status)
            end
        end
      else ret status
    else ret status
  else ret status.

(** Last commit info *)
Definition step_last_commit (repo_path : Path) (status : RepoStatus)
    : Run RepoStatus :=
  '(stdout, _, rc) <- run_git repo_path ["log"; "-1"; "--format=%aI|||%s"] ;;
  if (rc =? 0) && Py.truthy stdout then
    let parts := Py.split_once "|||" stdout in
    if Z.of_nat (List.length parts) =? 2 then
      p0 <- lift (nth_error parts 0) ;;
      let status := set_last_commit_date p0 status in
      p1 <- lift (nth_error parts 1) ;;
      let status := set_last_commit_message (Py.slice_to 120 p1) status in
      age <- commit_age_days p0 ;;
      match age with
      | Some d => ret (set_last_commit_age_days d status)
      | None => ret status
      end
    else ret status
  else ret status.

(** Total commits *)
Definition step_total_commits (repo_path : Path) (status : RepoStatus)
    : Run RepoStatus :=
  '(stdout, _, rc) <- run_git repo_path ["rev-list"; "--count"; "HEAD"] ;;
  if (rc =? 0) && Py.truthy stdout then
    match Py.int stdout with
    | Some n => ret (set_total_commits n status)
    | None => ret status
    end
  else ret status.

(** Branch count *)
Definition step_branch_count (repo_path : Path) (status : RepoStatus)
    : Run RepoStatus :=
  '(stdout, _, rc) <- run_git repo_path ["branch"; "--list"] ;;
  if (rc =? 0) && Py.truthy stdout
  then ret (set_branch_count (count_lines stdout) status)
  else ret status.

(** Tag count *)
Definition step_tag_count (repo_path : Path) (status : RepoStatus)
    : Run RepoStatus :=
  '(stdout, _, rc) <- run_git repo_path ["tag"; "--list"] ;;
  if (rc =? 0) && Py.truthy stdout
  then ret (set_tag_count (count_lines stdout) status)
  else ret status.

(** Stash count *)
Definition step_stash_count (repo_path : Path) (status : RepoStatus)
    : Run RepoStatus :=
  '(stdout, _, rc) <- run_git repo_path ["stash"; "list"] ;;
  if (rc =? 0) && Py.truthy stdout
  then ret (set_stash_count (count_lines stdout) status)
  else ret status.

(** Calculate health *)
Definition step_health (status : RepoStatus) : Run RepoStatus :=
  let '(score, grade, iss) := calculate_health status in
  ret (set_issues iss (set_health_grade grade (set_health_score score status))).

(** [GitPulse._get_repo_status] *)
Definition get_repo_status (repo_path : Path) : Run RepoStatus :=
  let status := new_RepoStatus (path_name repo_path) (path_str repo_path) in
  (* Check git is working in this repo *)
  '(_, stderr, rc) <- run_git repo_path ["rev-parse"; "--git-dir"] ;;
  if negb (rc =? 0) then
    ret (set_health_grade "F"
           (set_health_score 0
              (set_error ("Not a valid git repo: " ++ stderr) status)))
  else
    status <- step_branch repo_path status ;;
    status <- step_porcelain repo_path status ;;
    status <- step_dirty status ;;
    status <- step_remote repo_path status ;;
    status <- step_ahead_behind repo_path status ;;
    status <- step_last_commit repo_path status ;;
    status <- step_total_commits repo_path status ;;
    status <- step_branch_count repo_path status ;;
    status <- step_tag_count repo_path status ;;
    status <- step_stash_count repo_path status ;;
    step_health status.

End Extractor.

(** ** Repository locator: [GitPulse._find_repos] *)

(** What the locator sees of the file system below the directory it is
    given: a file; a directory with its entries in the order the system
    lists them, where [listable = false] makes [iterdir] raise
    PermissionError (or another OSError); a directory without search
    permission, in which nothing can be examined: [stat] on any path below
    it raises PermissionError; and an entry on which [stat] itself fails
    with an OSError that [exists()] and [is_dir()] pass on (they only turn
    ENOENT, ENOTDIR, EBADF and ELOOP into [False]). *)
#[warning="-register-all"]
Inductive node :=
| File
| Dir (listable : bool) (entries : list (string * node))
| NoSearch (entries : list (string * node))
| StatError.

(** [entry.is_dir()], where it returns. *)
Definition is_dir (n : node) : bool :=
  match n with
  | Dir _ _ | NoSearch _ => true
  | File | StatError => false
  end.

(** [stat] on the node raises, and so do [exists()] and [is_dir()]. *)
Definition stat_fails (n : node) : bool :=
  match n with
  | StatError => true
  | File | Dir _ _ | NoSearch _ => false
  end.

(** [git_dir.exists() and git_dir.is_dir()] for [git_dir = root / ".git"] *)
Definition has_git_dir (entries : list (string * node)) : bool :=
  existsb (fun e => (fst e =? ".git")%string && is_dir (snd e)) entries.

(** [git_dir.exists()] raises. *)
Definition git_stat_fails (entries : list (string * node)) : bool :=
  existsb (fun e => (fst e =? ".git")%string && stat_fails (snd e)) entries.

(** The names never descended into. *)
Definition skip_names : list string :=
  ["node_modules"; "__pycache__"; "venv"; ".venv"; "env"; ".env"; "vendor";
   "build"; "dist"; "target"].

Definition in_skip_names (n : string) : bool :=
  existsb (String.eqb n) skip_names.

(** [sorted(root.iterdir())]: the entries share their parent, so that paths
    compare as their names do, character by character; the sort is stable. *)
Fixpoint insert_entry (e : string * node) (l : list (string * node))
    : list (string * node) :=
  match l with
  | [] => [e]
  | h :: t => if String.leb (fst e) (fst h) then e :: l else h :: insert_entry e t
  end.

Definition sorted_entries (l : list (string * node)) : list (string * node) :=
  fold_right insert_entry [] l.

(** The entries the [for] loop gets through: [entry.is_dir()] raises on the
    first entry whose [stat] fails, whatever its name, and the exception
    leaves the loop; the [except] clauses of the enclosing call swallow it
    and [repos] is returned as it stands. *)
Fixpoint reached (entries : list (string * node)) : list (string * node) :=
  match entries with
  | [] => []
  | e :: rest => if stat_fails (snd e) then [] else e :: reached rest
  end.

(** [_find_repos].  The source calls it on directories only; on the other
    nodes the value is what the body would give: on a file [iterdir]
    raises NotADirectoryError, on an entry whose [stat] fails and on a
    directory without search permission [git_dir.exists()] raises, and
    every one of these is an OSError, swallowed with [repos] still empty. *)
Equations? find_repos (max_depth : nat) (root : Path) (n : node) (depth : nat)
    : list Path by wf (S max_depth - depth)%nat lt :=
  find_repos max_depth root n depth with le_gt_dec depth max_depth => {
    | right _ => [] ;
    | left _ with n => {
        | File => [] ;
        | StatError => [] ;
        | NoSearch _ => [] ;
        | Dir listable entries =>
            if git_stat_fails entries then []
            else if has_git_dir entries then [root]
            else if negb listable then []
            else
              flat_map
                (fun entry =>
                   if is_dir (snd entry)
                      && negb (Py.startswith "." (fst entry))
                   then
                     if in_skip_names (fst entry) then []
                     else find_repos max_depth (path_join root (fst entry))
                            (snd entry) (S depth)
                   else [])
                (reached (sorted_entries entries)) } }.
Proof. destruct depth; lia. Qed.

(** ** Scan orchestrator: [GitPulse.scan] *)

(** The statements of the loop body that follow [result.repos.append]. *)
Definition count_bucket (repo_status : RepoStatus) (result : ScanResult)
    : ScanResult :=
  if Py.truthy (error repo_status) then
    {| root_dir := root_dir result; total_repos := total_repos result;
       healthy_count := healthy_count result;
       warning_count := warning_count result;
       critical_count := critical_count result;
       error_count := error_count result + 1; repos := repos result |}
  else if health_score repo_status >=? 80 then
    {| root_dir := root_dir result; total_repos := total_repos result;
       healthy_count := healthy_count result + 1;
       warning_count := warning_count result;
       critical_count := critical_count result;
       error_count := error_count result; repos := repos result |}
  else if health_score repo_status >=? 60 then
    {| root_dir := root_dir result; total_repos := total_repos result;
       healthy_count := healthy_count result;
       warning_count := warning_count result + 1;
       critical_count := critical_count result;
       error_count := error_count result; repos := repos result |}
  else
    {| root_dir := root_dir result; total_repos := total_repos result;
       healthy_count := healthy_count result;
       warning_count := warning_count result;
       critical_count := critical_count result + 1;
       error_count := error_count result; repos := repos result |}.

Definition append_repo (repo_status : RepoStatus) (result : ScanResult)
    : ScanResult :=
  {| root_dir := root_dir result; total_repos := total_repos result;
     healthy_count := healthy_count result;
     warning_count := warning_count result;
     critical_count := critical_count result;
     error_count := error_count result;
     repos := (repos result ++ [repo_status])%list |}.

(** The sort key [(r.health_score, r.name)], compared as tuples are. *)
Definition key_leb (a b : RepoStatus) : bool :=
  (health_score a <? health_score b)
  || (health_score a =? health_score b) && String.leb (name a) (name b).

(** [list.sort(key=...)]: stable. *)
Fixpoint insert_repo (r : RepoStatus) (l : list RepoStatus) : list RepoStatus :=
  match l with
  | [] => [r]
  | h :: t => if key_leb r h then r :: l else h :: insert_repo r t
  end.

Definition sort_repos (l : list RepoStatus) : list RepoStatus :=
  fold_right insert_repo [] l.

Section Orchestrator.

Variable w : World.
Variable max_depth : nat.

(** [scan], from the resolved [root] on; [at_root] is what the file system
    has there ([None]: nothing).  The two wall-clock fields of the result
    are left out. *)
Definition scan (root : Path) (at_root : option node) : Run ScanResult :=
  tree <- lift at_root ;;                      (* FileNotFoundError *)
  (* ValueError; or the OSError of [root.exists()] when [stat] fails *)
  _ <- lift (if is_dir tree then Some tt else None) ;;
  let result :=
    {| root_dir := path_str root; total_repos := 0; healthy_count := 0;
       warning_count := 0; critical_count := 0; error_count := 0;
       repos := [] |} in
  let repo_paths := find_repos max_depth root tree 0 in
  let result :=
    {| root_dir := root_dir result;
       total_repos := Z.of_nat (List.length repo_paths);
       healthy_count := healthy_count result;
       warning_count := warning_count result;
       critical_count := critical_count result;
       error_count := error_count result; repos := repos result |} in
  result <-
    for_each repo_paths
      (fun rp result =>
         repo_status <- get_repo_status w rp ;;
         ret (count_bucket repo_status (append_repo repo_status result)))
      result ;;
  (* Sort by health score (worst first for attention) *)
  ret {| root_dir := root_dir result; total_repos := total_repos result;
         healthy_count := healthy_count result;
         warning_count := warning_count result;
         critical_count := critical_count result;
         error_count := error_count result;
         repos := sort_repos (repos result) |}.

End Orchestrator.

(** ** Branch analyzer: [GitPulse.get_branches] *)

Module BranchInfo.

(** [BranchInfo]: information about a single git branch. *)
Record t := mk {
  name : string;
  is_current : bool;
  last_commit_date : string;
  last_commit_age_days : Z;
  ahead : Z;
  behind : Z;
  tracking : string
}.

End BranchInfo.

(** The longest prefix made of decimal digits: what [(\d+)] captures. *)
Fixpoint take_digits (s : string) : string :=
  match s with
  | String c r =>
      match Py.digit_val c with
      | Some _ => String c (take_digits r)
      | None => EmptyString
      end
  | EmptyString => EmptyString
  end.

(** [re.search(kw + r"(\d+)", s)]: group 1 of the leftmost match. *)
Fixpoint re_search_number (kw : string) (s : string) : option string :=
  let here :=
    if String.prefix kw s then
      match take_digits (String.substring (String.length kw)
                           (String.length s - String.length kw) s) with
      | EmptyString => None
      | d => Some d
      end
    else None in
  match here with
  | Some d => Some d
  | None =>
      match s with
      | EmptyString => None
      | String _ r => re_search_number kw r
      end
  end.

Section BranchAnalyzer.

Variable w : World.

(** [parts[i].strip() if len(parts) > i else ""] *)
Definition part_or_empty (parts : list string) (i : nat) : Run string :=
  if Z.of_nat (List.length parts) >? Z.of_nat i then
    p <- lift (nth_error parts i) ;; ret (Py.strip p)
  else ret "".

(** The body of the loop over the lines of the branch listing. *)
Definition branch_of_line (path : Path) (line : string)
    (branches : list BranchInfo.t) : Run (list BranchInfo.t) :=
  let parts := Py.split_str "|||" line in
  if Z.of_nat (List.length parts) >=? 2 then
    p0 <- lift (nth_error parts 0) ;;
    let is_current := (Py.strip p0 =? "*")%string in
    p1 <- lift (nth_error parts 1) ;;
    let name := Py.strip p1 in
    tracking <- part_or_empty parts 2 ;;
    track_info <- part_or_empty parts 3 ;;
    (* Parse ahead/behind from track info *)
    '(ahead, behind) <-
      (if Py.truthy track_info then
         ahead <-
           match re_search_number "ahead " track_info with
           | Some g => lift (Py.int g)
           | None => ret 0
           end ;;
         behind <-
           match re_search_number "behind " track_info with
           | Some g => lift (Py.int g)
           | None => ret 0
           end ;;
         ret (ahead, behind)
       else ret (0, 0)) ;;
    (* Get last commit date for branch *)
    '(stdout2, _, rc2) <- run_git w path ["log"; "-1"; "--format=%aI"; name] ;;
    '(date, age) <-
      (if (rc2 =? 0) && Py.truthy stdout2 then
         age <- commit_age_days w stdout2 ;;
         ret (stdout2, match age with Some d => d | None => 0 end)
       else ret ("", 0)) ;;
    ret (branches ++
         [{| BranchInfo.name := name; BranchInfo.is_current := is_current;
             BranchInfo.last_commit_date := date;
             BranchInfo.last_commit_age_days := age;
             BranchInfo.ahead := ahead; BranchInfo.behind := behind;
             BranchInfo.tracking := tracking |}])%list
  else ret branches.

(** [get_branches], from the resolved [path] on; [path_exists] is
    [path.exists()]. *)
Definition get_branches (path : Path) (path_exists : bool)
    : Run (list BranchInfo.t) :=
  _ <- lift (if path_exists then Some tt else None) ;;  (* FileNotFoundError *)
  '(stdout, _, rc) <-
    run_git w path
      ["branch"; "-vv"; "--format";
       "%(HEAD)|||%(refname:short)|||%(upstream:short)|||%(upstream:track)"] ;;
  if negb (rc =? 0) || negb (Py.truthy stdout) then ret []
  else for_each (Py.split_char LF stdout) (branch_of_line path) [].

End BranchAnalyzer.

(** ** The public queries built on the scan *)

Section PublicApi.

Variable w : World.
Variable max_depth : nat.

(** [GitPulse.get_status], from the resolved path on; [path_exists] is
    [path.exists()]. *)
Definition get_status (repo_path : Path) (path_exists : bool)
    : Run RepoStatus :=
  _ <- lift (if path_exists then Some tt else None) ;;  (* FileNotFoundError *)
  get_repo_status w repo_path.

(** [GitPulse.find_dirty] *)
Definition find_dirty (root : Path) (at_root : option node)
    : Run (list RepoStatus) :=
  result <- scan w max_depth root at_root ;;
  ret (filter is_dirty (repos result)).

(** [GitPulse.find_stale]: the check on [days] comes before the scan. *)
Definition find_stale (root : Path) (at_root : option node) (days : Z)
    : Run (list RepoStatus) :=
  _ <- lift (if days <? 1 then None else Some tt) ;;       (* ValueError *)
  result <- scan w max_depth root at_root ;;
  ret (filter (fun r => last_commit_age_days r >? days) (repos result)).

(** [GitPulse.find_unsynced] *)
Definition find_unsynced (root : Path) (at_root : option node)
    : Run (list RepoStatus) :=
  result <- scan w max_depth root at_root ;;
  ret (filter (fun r => (ahead r >? 0) || (behind r >? 0)) (repos result)).

(** [GitPulse.find_no_remote] *)
Definition find_no_remote (root : Path) (at_root : option node)
    : Run (list RepoStatus) :=
  result <- scan w max_depth root at_root ;;
  ret (filter (fun r => negb (has_remote r)) (repos result)).

End PublicApi.

(** ** A concrete world, for running the model on examples *)

(** [datetime.fromisoformat] on the strings that [git log --format=%aI]
    prints, [YYYY-MM-DDTHH:MM:SS+HH:MM], and on the same without an offset;
    on these it returns what the library parser returns, and it rejects
    every other string. *)
Module StrictIso.

Fixpoint read_digits (n : nat) (acc : Z) (s : string) : option (Z * string) :=
  match n with
  | O => Some (acc, s)
  | S n' =>
      match s with
      | String c r =>
          match Py.digit_val c with
          | Some d => read_digits n' (10 * acc + d) r
          | None => None
          end
      | EmptyString => None
      end
  end.

Definition expect (c : ascii) (s : string) : option string :=
  match s with
  | String a r => if Ascii.eqb a c then Some r else None
  | EmptyString => None
  end.

Definition days_in_month (y m : Z) : Z :=
  if (m =? 2) && is_leap y then 29
  else nth (Z.to_nat m) [0; 31; 28; 31; 30; 31; 30; 31; 31; 30; 31; 30; 31] 0.

Notation "' pat <-- c ; k" :=
  (match c with Some pat => k | None => None end)
  (at level 61, pat pattern, c at next level, right associativity).

Definition read_offset (s : string) : option (option timedelta) :=
  match s with
  | EmptyString => Some None
  | String c r =>
      if Ascii.eqb c "+" || Ascii.eqb c "-" then
        '(hh, r) <-- read_digits 2 0 r ;
        'r <-- expect ":" r ;
        '(mm, r) <-- read_digits 2 0 r ;
        match r with
        | EmptyString =>
            if (hh <=? 23) && (mm <=? 59) then
              let secs := hh * 3600 + mm * 60 in
              Some (Some (timedelta_new 0
                            (if Ascii.eqb c "-" then - secs else secs) 0))
            else None
        | _ => None
        end
      else None
  end.

Definition parse (s : string) : option datetime :=
  '(y, r) <-- read_digits 4 0 s ;
  'r <-- expect "-" r ;
  '(m, r) <-- read_digits 2 0 r ;
  'r <-- expect "-" r ;
  '(d, r) <-- read_digits 2 0 r ;
  'r <-- expect "T" r ;
  '(hh, r) <-- read_digits 2 0 r ;
  'r <-- expect ":" r ;
  '(mi, r) <-- read_digits 2 0 r ;
  'r <-- expect ":" r ;
  '(ss, r) <-- read_digits 2 0 r ;
  'tz <-- read_offset r ;
  if (1 <=? y) && (1 <=? m) && (m <=? 12) && (1 <=? d)
     && (d <=? days_in_month y m) && (hh <=? 23) && (mi <=? 59) && (ss <=? 59)
  then Some {| year := y; month := m; day := d; hour := hh; minute := mi;
               second := ss; microsecond := 0; tzinfo := tz |}
  else None.

End StrictIso.

(** A [git] that answers from a table of (arguments after [git -C path],
    standard output); every listed query exits with 0 and every other one
    with 128 and a message on standard error. *)
Definition git_table (answers : list (list string * string))
    (cmd : list string) : proc_outcome :=
  match find (fun a => if list_eq_dec string_dec (fst a) (skipn 3 cmd)
                       then true else false) answers with
  | Some a => Completed (snd a) "" 0
  | None => Completed "" "fatal: not a git repository" 128
  end.

(** The world of the examples: the clock stands at 2026-01-01T00:00:00 UTC. *)
Definition sample_world (answers : list (list string * string)) : World :=
  {| subprocess_run := git_table answers;
     utcnow := fun _ =>
       {| year := 2026; month := 1; day := 1; hour := 0; minute := 0;
          second := 0; microsecond := 0; tzinfo := None |};
     fromisoformat := StrictIso.parse |}.

(** The answers of a repository on branch [main] with one remote, ten
    commits, two branches, no tag and no stash; the working-tree listing,
    the output of the ahead/behind query and that of the last-commit query
    are left open. *)
Definition repo_answers (porcelain ahead_behind last_commit : string)
    : list (list string * string) :=
  [(["rev-parse"; "--git-dir"], ".git
");
   (["branch"; "--show-current"], "main
");
   (["status"; "--porcelain=v1"], porcelain);
   (["remote"; "-v"], "origin	https://example.org/r.git (fetch)
origin	https://example.org/r.git (push)
");
   (["rev-list"; "--left-right"; "--count"; "main@{upstream}...HEAD"],
    ahead_behind);
   (["log"; "-1"; "--format=%aI|||%s"], last_commit);
   (["rev-list"; "--count"; "HEAD"], "10
");
   (["branch"; "--list"], "* main
  dev
");
   (["tag"; "--list"], "");
   (["stash"; "list"], "")].

Definition sample_path : Path := ["home"; "u"; "proj"].

(** A status on which every penalty of the table is triggered. *)
Definition worst_status : RepoStatus :=
  {| name := "w"; path := "/w"; current_branch := "(detached at abc1234)";
     staged_count := 1; modified_count := 10; untracked_count := 20;
     deleted_count := 5; conflict_count := 3; stash_count := 2;
     ahead := 8; behind := 4; has_remote := false; remote_url := "";
     last_commit_date := ""; last_commit_age_days := 365;
     last_commit_message := ""; total_commits := 0; branch_count := 0;
     tag_count := 0; is_dirty := true; is_detached := true;
     health_score := 100; health_grade := "A"; issues := []; error := "" |}.

(** A repository: a listable directory that holds the marker directory. *)
Definition repo_dir (more : list (string * node)) : node :=
  Dir true ((".git", Dir true []) :: more).

(** A tree with repositories at depths 1, 2 and 4, one below another
    repository, one under a skip-listed name, one under a dot name and one
    in a directory that cannot be listed. *)
Definition sample_tree : node :=
  Dir true
    [("zeta", repo_dir []);
     ("notes.txt", File);
     ("alpha",
      Dir true
        [("sub", repo_dir [("inner", repo_dir [])]);
         ("node_modules", Dir true [("dep", repo_dir [])]);
         ("locked", Dir false [("x", repo_dir [])]);
         ("deep", Dir true [("d2", Dir true [("d3", repo_dir [])])]);
         ("app", repo_dir [])]);
     (".cache", Dir true [("tmp", repo_dir [])])].

(** A tree with failures: under [alpha] a skip-listed name, a directory
    that cannot be listed and one without search permission that holds the
    marker; under [work] an entry whose [stat] fails, between two
    repositories. *)
Definition faulty_tree : node :=
  Dir true
    [("zeta", repo_dir []);
     ("work",
      Dir true [("c", repo_dir []); ("b", StatError); ("a", repo_dir [])]);
     ("alpha",
      Dir true
        [("sealed", NoSearch [(".git", Dir true [])]);
         ("node_modules", Dir true [("dep", repo_dir [])]);
         ("locked", Dir false [("x", repo_dir [])]);
         ("app", repo_dir [])]);
     (".cache", Dir true [("tmp", repo_dir [])])].

(** ** The scoring table of the specification *)

(** The rows of the table for one status, in the order of evaluation:
    whether the rule is triggered, its penalty and its issue text.  The
    stale row is the [else] of the very-stale row. *)
Definition scoring_rows (s : RepoStatus) : list (bool * Z * string) :=
  [ (negb (has_remote s), 15, "No remote configured");
    ((staged_count s >? 0) || (modified_count s >? 0), 10,
     Py.str_of_int (staged_count s + modified_count s)
     ++ " uncommitted change(s)");
    (untracked_count s >? 0, 5,
     Py.str_of_int (untracked_count s) ++ " untracked file(s)");
    (deleted_count s >? 0, 5,
     Py.str_of_int (deleted_count s) ++ " deleted file(s)");
    (behind s >? 0, 10,
     Py.str_of_int (behind s) ++ " commit(s) behind remote");
    (ahead s >? 5, 5, Py.str_of_int (ahead s) ++ " unpushed commit(s)");
    (last_commit_age_days s >? 90, 20,
     "Very stale: " ++ Py.str_of_int (last_commit_age_days s)
     ++ " days since last commit");
    (negb (last_commit_age_days s >? 90) && (last_commit_age_days s >? 30), 10,
     "Stale: " ++ Py.str_of_int (last_commit_age_days s)
     ++ " days since last commit");
    (is_detached s, 5, "Detached HEAD state");
    (conflict_count s >? 0, 20,
     Py.str_of_int (conflict_count s) ++ " merge conflict(s)");
    (total_commits s =? 0, 30, "No commits yet");
    (stash_count s >? 0, 3,
     Py.str_of_int (stash_count s) ++ " stash(es) pending") ].

Definition row_fires (r : bool * Z * string) : bool := fst (fst r).
Definition row_penalty (r : bool * Z * string) : Z := snd (fst r).
Definition row_issue (r : bool * Z * string) : string := snd r.

Definition triggered (s : RepoStatus) : list (bool * Z * string) :=
  filter row_fires (scoring_rows s).

Definition penalty_sum (s : RepoStatus) : Z :=
  fold_right Z.add 0 (map row_penalty (triggered s)).

Definition issue_texts (s : RepoStatus) : list string :=
  map row_issue (triggered s).

(** Every rule that can fire together with the others does: all but the
    stale row, which the very-stale row excludes. *)
Definition every_penalty (s : RepoStatus) : bool :=
  negb (has_remote s)
  && ((staged_count s >? 0) || (modified_count s >? 0))
  && (untracked_count s >? 0) && (deleted_count s >? 0) && (behind s >? 0)
  && (ahead s >? 5) && (last_commit_age_days s >? 90) && is_detached s
  && (conflict_count s >? 0) && (total_commits s =? 0) && (stash_count s >? 0).

(** ** The buckets of a scan, as the specification words them *)

Definition errored (r : RepoStatus) : bool := Py.truthy (error r).

Definition is_healthy (r : RepoStatus) : bool :=
  negb (errored r) && (80 <=? health_score r).

Definition is_warning (r : RepoStatus) : bool :=
  negb (errored r) && (60 <=? health_score r) && (health_score r <? 80).

Definition is_critical (r : RepoStatus) : bool :=
  negb (errored r) && (health_score r <? 60).

(** Number of the elements of [l] that satisfy [f]. *)
Definition count {A} (f : A -> bool) (l : list A) : Z :=
  Z.of_nat (List.length (filter f l)).

(** The four counters count the four buckets of [repos], which holds [n]
    records, and [total_repos] is still [total]. *)
Definition counted (total : Z) (n : nat) (result : ScanResult) : Prop :=
  total_repos result = total
  /\ List.length (repos result) = n
  /\ healthy_count result = count is_healthy (repos result)
  /\ warning_count result = count is_warning (repos result)
  /\ critical_count result = count is_critical (repos result)
  /\ error_count result = count errored (repos result).

(** ** Where the locator finds a repository, as the specification words it *)

(** The skip-list. *)
Definition skip_list : list string :=
  ["node_modules"; "__pycache__"; "venv"; ".venv"; "env"; ".env"; "vendor";
   "build"; "dist"; "target"].

(** A name the walk descends into: it does not start with a dot and is not
    on the skip-list. *)
Definition descends (nm : string) : bool :=
  negb (Py.startswith "." nm) && negb (existsb (String.eqb nm) skip_list).

(** The entries of a directory. *)
Definition entries_of (n : node) : list (string * node) :=
  match n with
  | Dir _ entries | NoSearch entries => entries
  | File | StatError => []
  end.

(** [claimed n names], the original wording: following [names] down from
    the directory [n] leads to a directory that contains the marker
    directory, through listable directories that do not contain it and by
    names the walk descends into. *)
Inductive claimed : node -> list string -> Prop :=
| claimed_here n g :
    In (".git", g) (entries_of n) -> is_dir g = true ->
    claimed n []
| claimed_below entries nm child rest :
    (forall g, In (".git", g) entries -> is_dir g = false) ->
    In (nm, child) entries ->
    is_dir child = true ->
    descends nm = true ->
    claimed child rest ->
    claimed (Dir true entries) (nm :: rest).

(** [located n names]: following [names] down from the directory [n] leads
    to a directory in which the marker directory is seen, through listable
    directories in which it is seen not to be, by names the walk descends
    into, each of them before, in the order of names, every entry of its
    directory whose [stat] fails. *)
Inductive located : node -> list string -> Prop :=
| located_here listable entries g :
    In (".git", g) entries -> is_dir g = true ->
    (forall g', In (".git", g') entries -> stat_fails g' = false) ->
    located (Dir listable entries) []
| located_below entries nm child rest :
    (forall g, In (".git", g) entries ->
               is_dir g = false /\ stat_fails g = false) ->
    In (nm, child) entries ->
    is_dir child = true ->
    descends nm = true ->
    (forall e, In e entries -> stat_fails (snd e) = true ->
               String.ltb nm (fst e) = true) ->
    located child rest ->
    located (Dir true entries) (nm :: rest).

(** [walked n names]: the way the walk itself takes from [n] to a path it
    returns. *)
Inductive walked : node -> list string -> Prop :=
| walked_here listable entries :
    git_stat_fails entries = false ->
    has_git_dir entries = true ->
    walked (Dir listable entries) []
| walked_below entries nm child rest :
    git_stat_fails entries = false ->
    has_git_dir entries = false ->
    In (nm, child) (reached (sorted_entries entries)) ->
    is_dir child = true ->
    descends nm = true ->
    walked child rest ->
    walked (Dir true entries) (nm :: rest).

(** Lexicographic order on paths, names compared as strings are. *)
Fixpoint path_lt (a b : Path) : Prop :=
  match a, b with
  | _, [] => False
  | [], _ :: _ => True
  | x :: a', y :: b' => String.ltb x y = true \/ (x = y /\ path_lt a' b')
  end.

Fixpoint nodupb (l : list string) : bool :=
  match l with
  | [] => true
  | x :: r => negb (existsb (String.eqb x) r) && nodupb r
  end.

(** The names of a directory are pairwise distinct, at every level. *)
Fixpoint unique_names (n : node) : bool :=
  match n with
  | File | StatError => true
  | Dir _ entries | NoSearch entries =>
      nodupb (map fst entries)
      && forallb (fun e => unique_names (snd e)) entries
  end.

(** ** Elapsed time, as the specification words it *)

(** A [timedelta] in microseconds. *)
Definition td_micros (t : timedelta) : Z :=
  (days t * 86400 + seconds t) * 1000000 + microseconds t.

(** The instant a [datetime] denotes, in microseconds of UTC since the
    start of day 0; a value without offset is read as UTC. *)
Definition utc_micros (dt : datetime) : Z :=
  (toordinal dt * 86400 + (second dt + minute dt * 60 + hour dt * 3600))
  * 1000000 + microsecond dt
  - match tzinfo dt with Some off => td_micros off | None => 0 end.

(** Whole days from [commit] to [now], rounded towards minus infinity. *)
Definition elapsed_days (now commit : datetime) : Z :=
  (utc_micros now - utc_micros commit) / 86400000000.

(** ** The status-code classification of the specification *)

(** Increments of the five working-tree counters. *)
Record counts := mkCounts {
  c_staged : Z;
  c_modified : Z;
  c_untracked : Z;
  c_deleted : Z;
  c_conflict : Z
}.

Definition counts_zero : counts := mkCounts 0 0 0 0 0.

Definition counts_add (a b : counts) : counts :=
  mkCounts (c_staged a + c_staged b) (c_modified a + c_modified b)
    (c_untracked a + c_untracked b) (c_deleted a + c_deleted b)
    (c_conflict a + c_conflict b).

Definition status_counts (s : RepoStatus) : counts :=
  mkCounts (staged_count s) (modified_count s) (untracked_count s)
    (deleted_count s) (conflict_count s).

Definition b2z (b : bool) : Z := if b then 1 else 0.

(** What one two-character status code adds to the counters. *)
Definition classification (x y : ascii) : counts :=
  if (x =? "?")%char && (y =? "?")%char then mkCounts 0 0 1 0 0
  else if (x =? "U")%char || (y =? "U")%char
          || (x =? "A")%char && (y =? "A")%char
          || (x =? "D")%char && (y =? "D")%char then mkCounts 0 0 0 0 1
  else
    mkCounts
      (b2z ((x =? "A")%char || (x =? "M")%char || (x =? "R")%char
            || (x =? "C")%char))
      (b2z (y =? "M")%char)
      0
      (b2z (x =? "D")%char + b2z (y =? "D")%char)
      0.

(** What one line of the listing adds: nothing when it has fewer than two
    characters. *)
Definition line_delta (line : string) : counts :=
  match line with
  | String x (String y _) => classification x y
  | _ => counts_zero
  end.

Definition sum_counts (l : list counts) : counts :=
  fold_right counts_add counts_zero l.

(** [s] with its five counters increased by [d], nothing else touched. *)
Definition add_counts (d : counts) (s : RepoStatus) : RepoStatus :=
  set_conflict_count (conflict_count s + c_conflict d)
    (set_deleted_count (deleted_count s + c_deleted d)
       (set_untracked_count (untracked_count s + c_untracked d)
          (set_modified_count (modified_count s + c_modified d)
             (set_staged_count (staged_count s + c_staged d) s)))).

(** [s] with its five counters put to zero: everything but the counters. *)
Definition clear_counts (s : RepoStatus) : RepoStatus :=
  set_conflict_count 0
    (set_deleted_count 0
       (set_untracked_count 0 (set_modified_count 0 (set_staged_count 0 s)))).

(** No classification rule applies to the status characters [x], [y]. *)
Definition no_rule (x y : ascii) : Prop :=
  ~ (x = "?" /\ y = "?")%char
  /\ ~ (x = "U" \/ y = "U" \/ (x = "A" /\ y = "A") \/ (x = "D" /\ y = "D"))%char
  /\ ~ In x ["A"; "M"; "R"; "C"]%char
  /\ x <> "D"%char /\ y <> "M"%char /\ y <> "D"%char.

(** [after] is [before] plus one exactly when [P] holds. *)
Definition incremented_iff (P : Prop) (before after : Z) : Prop :=
  (P -> after = before + 1) /\ (~ P -> after = before).

(** ** The queries of the extractor and its result in closed form *)

(** The ahead/behind query: [git -C path rev-list --left-right ...]. *)
Definition is_ahead_behind_query (cmd : list string) : bool :=
  match cmd with
  | _ :: _ :: _ :: "rev-list" :: "--left-right" :: _ => true
  | _ => false
  end.

(** The arguments of the ahead/behind query for a branch. *)
Definition ahead_behind_args (branch : string) : list string :=
  ["rev-list"; "--left-right"; "--count"; branch ++ "@{upstream}...HEAD"].

(** The status a successful extraction assembles, from the values the
    queries gave. *)
Definition extracted (p : Path) (cb : string) (detached : bool) (dc : counts)
    (remote : bool) (url : string) (b a : Z) (date msg : string) (age : Z)
    (commits branches tags stashes : Z) : RepoStatus :=
  let s :=
    {| name := path_name p; path := path_str p; current_branch := cb;
       staged_count := c_staged dc; modified_count := c_modified dc;
       untracked_count := c_untracked dc; deleted_count := c_deleted dc;
       conflict_count := c_conflict dc; stash_count := stashes;
       ahead := a; behind := b; has_remote := remote; remote_url := url;
       last_commit_date := date; last_commit_age_days := age;
       last_commit_message := msg; total_commits := commits;
       branch_count := branches; tag_count := tags;
       is_dirty := (c_staged dc >? 0) || (c_modified dc >? 0)
                   || (c_untracked dc >? 0) || (c_deleted dc >? 0)
                   || (c_conflict dc >? 0);
       is_detached := detached; health_score := 100; health_grade := "A";
       issues := []; error := "" |} in
  set_issues (snd (calculate_health s))
    (set_health_grade (snd (fst (calculate_health s)))
       (set_health_score (fst (fst (calculate_health s))) s)).

(** The status returned when the validity check fails. *)
Definition invalid_repo (p : Path) (stderr : string) : RepoStatus :=
  {| name := path_name p; path := path_str p; current_branch := "";
     staged_count := 0; modified_count := 0; untracked_count := 0;
     deleted_count := 0; conflict_count := 0; stash_count := 0;
     ahead := 0; behind := 0; has_remote := false; remote_url := "";
     last_commit_date := ""; last_commit_age_days := 0;
     last_commit_message := ""; total_commits := 0; branch_count := 0;
     tag_count := 0; is_dirty := false; is_detached := false;
     health_score := 0; health_grade := "F"; issues := [];
     error := "Not a valid git repo: " ++ stderr |}.

(** How the counters [b] (behind) and [a] (ahead) after the ahead/behind
    step relate to the counters [b0], [a0] before it and to the output
    [out] and exit code [rc] of the query. *)
Definition ahead_behind_rel (out : string) (rc : Z) (b0 a0 b a : Z) : Prop :=
  (forall f0 f1 n0 n1,
      rc = 0 -> Py.split_ws out = [f0; f1] ->
      Py.int f0 = Some n0 -> Py.int f1 = Some n1 -> b = n0 /\ a = n1)
  /\ (rc <> 0 \/ List.length (Py.split_ws out) <> 2%nat -> b = b0 /\ a = a0)
  /\ (forall f0 f1,
        Py.split_ws out = [f0; f1] -> Py.int f0 = None -> b = b0 /\ a = a0)
  /\ (forall f0 f1 n0,
        rc = 0 -> Py.split_ws out = [f0; f1] ->
        Py.int f0 = Some n0 -> Py.int f1 = None -> b = n0 /\ a = a0).

(** What the extractor and the branch analyzer record about the last
    commit: no date and age 0 when the query gave nothing to parse, age 0
    when the date does not parse, and otherwise the whole days elapsed from
    the commit to the clock's reading at some point of the run, negative
    exactly when the commit is later than that reading. *)
Definition age_recorded (w : World) (date : string) (age : Z) : Prop :=
  (date = "" /\ age = 0)
  \/ (fromisoformat w date = None /\ age = 0)
  \/ exists dt l1,
       fromisoformat w date = Some dt
       /\ age = elapsed_days (now_utc w l1) dt
       /\ (0 <= age <-> utc_micros dt <= utc_micros (now_utc w l1)).

(** All five increments are non-negative. *)
Definition counts_nonneg (c : counts) : Prop :=
  0 <= c_staged c /\ 0 <= c_modified c /\ 0 <= c_untracked c
  /\ 0 <= c_deleted c /\ 0 <= c_conflict c.

(** ** What the other properties are stated with *)

(** The argument lists of the queries the extractor runs whatever the
    repository; the ahead/behind query, which names the branch, comes on
    top. *)
Definition fixed_queries : list (list string) :=
  [["rev-parse"; "--git-dir"];
   ["branch"; "--show-current"];
   ["rev-parse"; "--short"; "HEAD"];
   ["status"; "--porcelain=v1"];
   ["remote"; "-v"];
   ["log"; "-1"; "--format=%aI|||%s"];
   ["rev-list"; "--count"; "HEAD"];
   ["branch"; "--list"];
   ["tag"; "--list"];
   ["stash"; "list"]].

(** [cmd] is one of the extractor's read-only queries on [p]. *)
Definition extractor_query (p : Path) (cmd : list string) : Prop :=
  exists args,
    cmd = git_cmd p args
    /\ (In args fixed_queries \/ exists branch, args = ahead_behind_args branch).

(** What holds of every record the extractor returns, whatever git
    answered. *)
Definition sound_status (st : RepoStatus) : Prop :=
  (0 <= staged_count st /\ 0 <= modified_count st /\ 0 <= untracked_count st
   /\ 0 <= deleted_count st /\ 0 <= conflict_count st)
  /\ is_dirty st
     = ((staged_count st >? 0) || (modified_count st >? 0)
        || (untracked_count st >? 0) || (deleted_count st >? 0)
        || (conflict_count st >? 0))
  /\ (has_remote st && negb (is_detached st) = false ->
      behind st = 0 /\ ahead st = 0)
  /\ (error st = "" ->
      (health_score st, health_grade st, issues st) = calculate_health st)
  /\ (error st <> "" ->
      has_remote st = false /\ is_dirty st = false /\ health_score st = 0
      /\ last_commit_age_days st = 0).

(** The order of the sort key [(health_score, name)]. *)
Definition key_le (a b : RepoStatus) : Prop :=
  health_score a < health_score b
  \/ (health_score a = health_score b /\ String.leb (name a) (name b) = true).

(** The penalty a rule contributes: [k] when it fires, nothing otherwise. *)
Definition pen (fires : bool) (k : Z) : Z := if fires then k else 0.

(** ** What the branch analyzer converts *)

(** The count after [kw] in the track information, if there is one, has at
    most 4300 digits. *)
Definition count_fits (kw t : string) : bool :=
  match re_search_number kw t with
  | Some g => Z.of_nat (String.length g) <=? 4300
  | None => true
  end.

(** Both counts of a line of the branch listing, if it has a fourth field
    with counts, have at most 4300 digits. *)
Definition counts_convert (line : string) : bool :=
  match nth_error (Py.split_str "|||" line) 3 with
  | Some t => count_fits "ahead " (Py.strip t) && count_fits "behind " (Py.strip t)
  | None => true
  end.

(** The arguments of the branch listing query. *)
Definition branch_listing_args : list string :=
  ["branch"; "-vv"; "--format";
   "%(HEAD)|||%(refname:short)|||%(upstream:short)|||%(upstream:track)"].

(** The lines of the branch listing that [get_branches] goes through: none
    when the query fails or prints nothing. *)
Definition branch_listing (w : World) (path : Path) : list string :=
  let out := fst (fst (run_git_result w path branch_listing_args)) in
  let rc := snd (run_git_result w path branch_listing_args) in
  if negb (rc =? 0) || negb (Py.truthy out) then [] else Py.split_char LF out.

(** What holds of a branch record: counts that are not negative, a name
    without surrounding white space, and an age as specified. *)
Definition sound_branch (w : World) (br : BranchInfo.t) : Prop :=
  0 <= BranchInfo.ahead br /\ 0 <= BranchInfo.behind br
  /\ Py.strip (BranchInfo.name br) = BranchInfo.name br
  /\ age_recorded w (BranchInfo.last_commit_date br)
       (BranchInfo.last_commit_age_days br).

(** The [git log] query [get_branches] runs for a branch. *)
Definition branch_log_cmd (path : Path) (br : BranchInfo.t) : list string :=
  git_cmd path ["log"; "-1"; "--format=%aI"; BranchInfo.name br].

(** * Properties *)

(** ** Health scorer *)

Lemma deduct_rows (rows : list (bool * Z * string)) (z : Z) (l : list string) :
  fold_left (fun acc r => deduct (row_fires r) (row_penalty r) (row_issue r) acc)
    rows (z, l)
  = (z - fold_right Z.add 0 (map row_penalty (filter row_fires rows)),
     (l ++ map row_issue (filter row_fires rows))%list).
Proof.
  revert z l.
  induction rows as [|[[c k] m] rows IH]; intros z l; simpl.
  - now rewrite Z.sub_0_r, app_nil_r.
  - unfold deduct, row_fires at 1; simpl.
    destruct c; simpl; rewrite IH; [|reflexivity].
    unfold row_penalty, row_issue; simpl.
    rewrite <- app_assoc. simpl. f_equal. lia.
Qed.

Lemma ahead_guard (a : Z) : (a >? 0) && (a >? 5) = (a >? 5).
Proof.
  destruct (Z.gtb_spec a 5), (Z.gtb_spec a 0); simpl; trivial; lia.
Qed.

(** The chain of [if] statements is the table read from top to bottom. *)
Lemma calculate_health_table (s : RepoStatus) :
  calculate_health s =
  (Z.max 0 (100 - penalty_sum s),
   grade_of (Z.max 0 (100 - penalty_sum s)), issue_texts s).
Proof.
  pose proof (deduct_rows (scoring_rows s) 100 []) as H.
  unfold penalty_sum, issue_texts, triggered.
  apply (f_equal fst) in H as Hscore. apply (f_equal snd) in H as Hiss.
  cbn [fst snd app] in Hscore, Hiss. rewrite <- Hscore, <- Hiss.
  unfold calculate_health. rewrite ahead_guard.
  cbn [scoring_rows fold_left row_fires row_penalty row_issue fst snd].
  destruct (last_commit_age_days s >? 90); reflexivity.
Qed.

Lemma sum_triggered (rows : list (bool * Z * string)) :
  fold_right Z.add 0 (map row_penalty (filter row_fires rows))
  = fold_right (fun r a => pen (row_fires r) (row_penalty r) + a) 0 rows.
Proof.
  induction rows as [|r rows IH]; simpl; [reflexivity|].
  destruct (row_fires r); simpl; rewrite IH; reflexivity.
Qed.

Lemma pen_bounds (c : bool) (k : Z) : 0 <= k -> 0 <= pen c k <= k.
Proof. destruct c; simpl; lia. Qed.

(** The sum of the triggered penalties, rule by rule; age contributes 20,
    10 or nothing, never 30. *)
Lemma penalty_sum_rules (s : RepoStatus) :
  penalty_sum s =
    pen (negb (has_remote s)) 15
    + pen ((staged_count s >? 0) || (modified_count s >? 0)) 10
    + pen (untracked_count s >? 0) 5
    + pen (deleted_count s >? 0) 5
    + pen (behind s >? 0) 10
    + pen (ahead s >? 5) 5
    + (if last_commit_age_days s >? 90 then 20
       else if last_commit_age_days s >? 30 then 10 else 0)
    + pen (is_detached s) 5
    + pen (conflict_count s >? 0) 20
    + pen (total_commits s =? 0) 30
    + pen (stash_count s >? 0) 3.
Proof.
  unfold penalty_sum, triggered. rewrite sum_triggered.
  cbn [scoring_rows fold_right row_fires row_penalty fst snd].
  destruct (last_commit_age_days s >? 90), (last_commit_age_days s >? 30);
    cbn [negb andb pen]; lia.
Qed.

Lemma penalty_sum_range (s : RepoStatus) : 0 <= penalty_sum s <= 128.
Proof.
  rewrite penalty_sum_rules.
  pose proof (pen_bounds (negb (has_remote s)) 15).
  pose proof (pen_bounds ((staged_count s >? 0) || (modified_count s >? 0)) 10).
  pose proof (pen_bounds (untracked_count s >? 0) 5).
  pose proof (pen_bounds (deleted_count s >? 0) 5).
  pose proof (pen_bounds (behind s >? 0) 10).
  pose proof (pen_bounds (ahead s >? 5) 5).
  pose proof (pen_bounds (is_detached s) 5).
  pose proof (pen_bounds (conflict_count s >? 0) 20).
  pose proof (pen_bounds (total_commits s =? 0) 30).
  pose proof (pen_bounds (stash_count s >? 0) 3).
  destruct (last_commit_age_days s >? 90), (last_commit_age_days s >? 30); lia.
Qed.

Lemma grade_of_bands (score : Z) :
  (grade_of score = "A" <-> 90 <= score)
  /\ (grade_of score = "B" <-> 80 <= score < 90)
  /\ (grade_of score = "C" <-> 70 <= score < 80)
  /\ (grade_of score = "D" <-> 60 <= score < 70)
  /\ (grade_of score = "F" <-> score < 60).
Proof.
  unfold grade_of.
  destruct (Z.geb_spec score 90), (Z.geb_spec score 80),
    (Z.geb_spec score 70), (Z.geb_spec score 60);
    repeat split; intros; try lia; try discriminate; reflexivity.
Qed.

Lemma every_penalty_sum (s : RepoStatus) :
  every_penalty s = true -> penalty_sum s = 128.
Proof.
  unfold every_penalty. rewrite penalty_sum_rules.
  repeat rewrite andb_true_iff. intros H.
  decompose [and] H; clear H.
  repeat match goal with E : _ = true |- _ => rewrite E; clear E end.
  reflexivity.
Qed.

(** C1.  For every status record the scorer returns
    [max 0 (100 - sum of the triggered penalties)], the rules being those of
    the table in its order (stale and very stale never together: age
    contributes 20 above 90 days, else 10 above 30); the issues are the
    texts of the triggered rules in that order; the score lies in [0, 100],
    it is 0 with grade F when every penalty is triggered, and the grade
    follows the bands 90 / 80 / 70 / 60. *)
Theorem calculate_health_spec (s : RepoStatus) :
  let '(score, grade, iss) := calculate_health s in
  score = Z.max 0 (100 - penalty_sum s)
  /\ penalty_sum s =
       pen (negb (has_remote s)) 15
       + pen ((staged_count s >? 0) || (modified_count s >? 0)) 10
       + pen (untracked_count s >? 0) 5
       + pen (deleted_count s >? 0) 5
       + pen (behind s >? 0) 10
       + pen (ahead s >? 5) 5
       + (if last_commit_age_days s >? 90 then 20
          else if last_commit_age_days s >? 30 then 10 else 0)
       + pen (is_detached s) 5
       + pen (conflict_count s >? 0) 20
       + pen (total_commits s =? 0) 30
       + pen (stash_count s >? 0) 3
  /\ iss = issue_texts s
  /\ 0 <= score <= 100
  /\ (every_penalty s = true -> score = 0 /\ grade = "F")
  /\ (grade = "A" <-> 90 <= score)
  /\ (grade = "B" <-> 80 <= score < 90)
  /\ (grade = "C" <-> 70 <= score < 80)
  /\ (grade = "D" <-> 60 <= score < 70)
  /\ (grade = "F" <-> score < 60).
Proof.
  rewrite calculate_health_table.
  pose proof (penalty_sum_range s) as R.
  split; [reflexivity|].
  split; [apply penalty_sum_rules|].
  split; [reflexivity|].
  split; [lia|].
  split.
  - intros E. apply every_penalty_sum in E. rewrite E. split; reflexivity.
  - apply grade_of_bands.
Qed.

Lemma pen_zero (c : bool) (k : Z) : 0 < k -> pen c k = 0 -> c = false.
Proof. destruct c; simpl; [lia | reflexivity]. Qed.

(** A score of 100 with no issue: exactly the statuses on which no rule of
    the table fires. *)
Lemma perfect_score_iff (s : RepoStatus) :
  fst (fst (calculate_health s)) = 100 /\ snd (calculate_health s) = []
  <-> has_remote s = true
      /\ staged_count s <= 0 /\ modified_count s <= 0
      /\ untracked_count s <= 0 /\ deleted_count s <= 0
      /\ behind s <= 0 /\ ahead s <= 5
      /\ last_commit_age_days s <= 30
      /\ is_detached s = false
      /\ conflict_count s <= 0
      /\ total_commits s <> 0
      /\ stash_count s <= 0.
Proof.
  rewrite calculate_health_table; cbn [fst snd].
  split.
  - intros [Hscore _].
    pose proof (penalty_sum_range s) as R.
    assert (Hsum : penalty_sum s = 0) by lia. clear Hscore R.
    rewrite penalty_sum_rules in Hsum.
    pose proof (pen_bounds (negb (has_remote s)) 15 ltac:(lia)) as B1.
    pose proof (pen_bounds ((staged_count s >? 0) || (modified_count s >? 0)) 10
                  ltac:(lia)) as B2.
    pose proof (pen_bounds (untracked_count s >? 0) 5 ltac:(lia)) as B3.
    pose proof (pen_bounds (deleted_count s >? 0) 5 ltac:(lia)) as B4.
    pose proof (pen_bounds (behind s >? 0) 10 ltac:(lia)) as B5.
    pose proof (pen_bounds (ahead s >? 5) 5 ltac:(lia)) as B6.
    pose proof (pen_bounds (is_detached s) 5 ltac:(lia)) as B7.
    pose proof (pen_bounds (conflict_count s >? 0) 20 ltac:(lia)) as B8.
    pose proof (pen_bounds (total_commits s =? 0) 30 ltac:(lia)) as B9.
    pose proof (pen_bounds (stash_count s >? 0) 3 ltac:(lia)) as B10.
    assert (A : (if last_commit_age_days s >? 90 then 20
                 else if last_commit_age_days s >? 30 then 10 else 0) = 0).
    { destruct (last_commit_age_days s >? 90), (last_commit_age_days s >? 30);
        lia. }
    assert (E1 : pen (negb (has_remote s)) 15 = 0) by lia.
    assert (E2 : pen ((staged_count s >? 0) || (modified_count s >? 0)) 10 = 0)
      by lia.
    assert (E3 : pen (untracked_count s >? 0) 5 = 0) by lia.
    assert (E4 : pen (deleted_count s >? 0) 5 = 0) by lia.
    assert (E5 : pen (behind s >? 0) 10 = 0) by lia.
    assert (E6 : pen (ahead s >? 5) 5 = 0) by lia.
    assert (E7 : pen (is_detached s) 5 = 0) by lia.
    assert (E8 : pen (conflict_count s >? 0) 20 = 0) by lia.
    assert (E9 : pen (total_commits s =? 0) 30 = 0) by lia.
    assert (E10 : pen (stash_count s >? 0) 3 = 0) by lia.
    clear Hsum B1 B2 B3 B4 B5 B6 B7 B8 B9 B10.
    apply pen_zero in E1, E2, E3, E4, E5, E6, E7, E8, E9, E10; try lia.
    apply negb_false_iff in E1. apply orb_false_iff in E2 as [E2 E2'].
    apply Z.eqb_neq in E9.
    destruct (Z.gtb_spec (last_commit_age_days s) 90);
      destruct (Z.gtb_spec (last_commit_age_days s) 30); try lia.
    repeat match goal with
           | H : (_ >? _) = false |- _ => rewrite Z.gtb_ltb, Z.ltb_ge in H
           end.
    repeat split; assumption || lia.
  - intros (H1 & H2 & H3 & H4 & H5 & H6 & H7 & H8 & H9 & H10 & H11 & H12).
    assert (G : forall x k, x <= k -> (x >? k) = false)
      by (intros; rewrite Z.gtb_ltb; apply Z.ltb_ge; lia).
    unfold penalty_sum, issue_texts, triggered, scoring_rows.
    rewrite H1, H9, !G by lia.
    apply Z.eqb_neq in H11. rewrite H11. simpl. split; reflexivity.
Qed.

(** ** Working-tree parser *)

Lemma add_counts_zero (s : RepoStatus) : add_counts counts_zero s = s.
Proof.
  destruct s; unfold add_counts; simpl. now rewrite !Z.add_0_r.
Qed.

Lemma add_counts_add (a b : counts) (s : RepoStatus) :
  add_counts b (add_counts a s) = add_counts (counts_add a b) s.
Proof.
  destruct s, a, b; unfold add_counts; simpl. now rewrite !Z.add_assoc.
Qed.

Lemma status_counts_add (d : counts) (s : RepoStatus) :
  status_counts (add_counts d s) = counts_add (status_counts s) d.
Proof. destruct s; reflexivity. Qed.

(** One turn of the loop adds the increments of its line and runs no
    command. *)
Lemma classify_line_run (line : string) (s : RepoStatus) (l : Log) :
  classify_line line s l = (Some (add_counts (line_delta line) s), l).
Proof.
  destruct line as [|x [|y rest]]; try (now rewrite add_counts_zero).
  unfold classify_line, Py.len, Py.index, line_delta, classification.
  replace (Z.of_nat (String.length (String x (String y rest))) >=? 2)
    with true by (symmetry; apply Z.geb_le; simpl String.length; lia).
  unfold bind, lift, ret, b2z; cbn [String.get existsb].
  repeat match goal with
         | |- context [Ascii.eqb ?a ?c] =>
             destruct (Ascii.eqb a c); cbn [andb orb]
         end;
    destruct s; unfold add_counts; cbn; rewrite ?Z.add_0_r; reflexivity.
Qed.

Lemma clear_add_counts (d : counts) (s : RepoStatus) :
  clear_counts (add_counts d s) = clear_counts s.
Proof. destruct s; reflexivity. Qed.

(** The whole loop adds the increments of all the lines. *)
Lemma for_each_classify (lines : list string) (s : RepoStatus) (l : Log) :
  for_each lines classify_line s l
  = (Some (add_counts (sum_counts (map line_delta lines)) s), l).
Proof.
  revert s; induction lines as [|line lines IH]; intros s; simpl.
  - unfold ret. now rewrite add_counts_zero.
  - unfold bind. rewrite classify_line_run, IH, add_counts_add. reflexivity.
Qed.

Lemma parse_porcelain_run (text : string) (s : RepoStatus) (l : Log) :
  parse_porcelain text s l
  = (Some (add_counts (sum_counts (map line_delta (Py.split_char LF text))) s),
     l).
Proof. apply for_each_classify. Qed.

Ltac split_chars :=
  repeat match goal with
         | |- context [Ascii.eqb ?a ?c] =>
             destruct (Ascii.eqb_spec a c); cbn [andb orb]
         end.

(** The loop body of the parser, on the line it is handed.  A line whose
    first two characters are [x] and [y] changes nothing but the five
    counters, and changes them so: [??] adds one to untracked;
    otherwise [U] in either place, [AA] or [DD] adds one to conflict;
    otherwise staged grows by one exactly when [x] is one of A, M, R, C,
    modified exactly when [y] is M, deleted exactly when [x] or [y] is D,
    each independently of the others. *)
Theorem classify_line_spec (x y : ascii) (rest : string) (s : RepoStatus)
    (l : Log) :
  exists s',
    classify_line (String x (String y rest)) s l = (Some s', l)
    /\ clear_counts s' = clear_counts s
    /\ ((x = "?" /\ y = "?")%char ->
        untracked_count s' = untracked_count s + 1
        /\ staged_count s' = staged_count s
        /\ modified_count s' = modified_count s
        /\ deleted_count s' = deleted_count s
        /\ conflict_count s' = conflict_count s)
    /\ (~ (x = "?" /\ y = "?")%char ->
        (x = "U" \/ y = "U" \/ (x = "A" /\ y = "A") \/ (x = "D" /\ y = "D"))%char ->
        conflict_count s' = conflict_count s + 1
        /\ staged_count s' = staged_count s
        /\ modified_count s' = modified_count s
        /\ untracked_count s' = untracked_count s
        /\ deleted_count s' = deleted_count s)
    /\ (~ (x = "?" /\ y = "?")%char ->
        ~ (x = "U" \/ y = "U" \/ (x = "A" /\ y = "A") \/ (x = "D" /\ y = "D"))%char ->
        incremented_iff (In x ["A"; "M"; "R"; "C"]%char)
          (staged_count s) (staged_count s')
        /\ incremented_iff (y = "M"%char) (modified_count s) (modified_count s')
        /\ incremented_iff (x = "D"%char \/ y = "D"%char)
             (deleted_count s) (deleted_count s')
        /\ untracked_count s' = untracked_count s
        /\ conflict_count s' = conflict_count s).
Proof.
  exists (add_counts (line_delta (String x (String y rest))) s).
  split; [apply classify_line_run|].
  split; [apply clear_add_counts|].
  destruct s; unfold incremented_iff, add_counts, line_delta, classification, b2z;
    cbn [staged_count modified_count untracked_count deleted_count
         conflict_count set_staged_count set_modified_count
         set_untracked_count set_deleted_count set_conflict_count In].
  split_chars; cbn [c_staged c_modified c_untracked c_deleted c_conflict];
    repeat split; intros; subst;
    try lia; try congruence; try tauto;
    try (exfalso; intuition congruence).
Qed.

Lemma line_delta_no_rule (x y : ascii) (rest : string) :
  no_rule x y -> line_delta (String x (String y rest)) = counts_zero.
Proof.
  unfold no_rule, line_delta, classification, b2z; cbn [In].
  intros (H1 & H2 & H3 & H4 & H5 & H6).
  split_chars; subst; try reflexivity; exfalso; intuition congruence.
Qed.

(** C10.  The parser is total: on every text it returns a status, raises
    nothing and runs no command, and so does the loop body on every line.  A
    line shorter than two characters leaves the status as it was, and so
    does a longer line to which no rule applies, such as one that starts
    with a blank followed by [A]. *)
Theorem parse_porcelain_total (text : string) (s : RepoStatus) (l : Log) :
  (exists s', parse_porcelain text s l = (Some s', l))
  /\ (forall line, exists s', classify_line line s l = (Some s', l))
  /\ (forall line, (String.length line < 2)%nat ->
        classify_line line s l = (Some s, l))
  /\ (forall x y rest, no_rule x y ->
        classify_line (String x (String y rest)) s l = (Some s, l))
  /\ (forall rest, classify_line (String " " (String "A" rest)) s l = (Some s, l)).
Proof.
  split; [eexists; apply parse_porcelain_run|].
  split; [intros line; eexists; apply classify_line_run|].
  split; [|split].
  - intros line Hlen. rewrite classify_line_run.
    destruct line as [|x [|y rest]]; simpl in Hlen; try lia;
      simpl; now rewrite add_counts_zero.
  - intros x y rest H. rewrite classify_line_run, line_delta_no_rule by exact H.
    now rewrite add_counts_zero.
  - intros rest. rewrite classify_line_run. simpl. now rewrite add_counts_zero.
Qed.

(** The parser on a listing with an empty line, a one-character line and a
    line no rule applies to. *)
Lemma parse_porcelain_total_witness :
  parse_porcelain " A x

M
?? y" (new_RepoStatus "r" "/r") []
  = (Some (set_untracked_count 1 (new_RepoStatus "r" "/r")), [])
  /\ classify_line "M" (new_RepoStatus "r" "/r") []
     = (Some (new_RepoStatus "r" "/r"), [])
  /\ classify_line " A x" (new_RepoStatus "r" "/r") []
     = (Some (new_RepoStatus "r" "/r"), []).
Proof.
  destruct (parse_porcelain_total " A x

M
?? y" (new_RepoStatus "r" "/r") []) as (_ & _ & Hshort & _ & Hblank).
  split; [reflexivity|].
  split; [apply Hshort; simpl; lia | apply Hblank].
Defined.

(** ** Age of the last commit *)

Lemma td_micros_new (d s us : Z) :
  td_micros (timedelta_new d s us) = (d * 86400 + s) * 1000000 + us.
Proof.
  unfold td_micros, timedelta_new; simpl.
  pose proof (Z.div_mod us 1000000 ltac:(lia)).
  pose proof (Z.div_mod (s + us / 1000000) 86400 ltac:(lia)).
  lia.
Qed.

Lemma days_new (d s us : Z) :
  days (timedelta_new d s us) = ((d * 86400 + s) * 1000000 + us) / 86400000000.
Proof.
  unfold timedelta_new; simpl.
  replace 86400000000 with (1000000 * 86400) by reflexivity.
  rewrite <- Z.div_div by lia.
  rewrite Z.div_add_l by lia.
  replace (d * 86400 + s + us / 1000000)
    with (d * 86400 + (s + us / 1000000)) by lia.
  rewrite Z.div_add_l by lia. reflexivity.
Qed.

Lemma td_micros_add (a b : timedelta) :
  td_micros (timedelta_add a b) = td_micros a + td_micros b.
Proof.
  unfold timedelta_add. rewrite td_micros_new. unfold td_micros. lia.
Qed.

Lemma days_sub (a b : timedelta) :
  days (timedelta_sub a b) = (td_micros a - td_micros b) / 86400000000.
Proof.
  unfold timedelta_sub. rewrite days_new. unfold td_micros. f_equal. lia.
Qed.

Lemma timedelta_eqb_micros (a b : timedelta) :
  timedelta_eqb a b = true -> td_micros a = td_micros b.
Proof.
  unfold timedelta_eqb, td_micros. rewrite !andb_true_iff, !Z.eqb_eq.
  intros [[-> ->] ->]. reflexivity.
Qed.

(** Subtracting two values that both carry an offset never raises, and the
    [days] of the difference are the elapsed whole days. *)
Lemma datetime_sub_aware (a b : datetime) (oa ob : timedelta) :
  tzinfo a = Some oa -> tzinfo b = Some ob ->
  exists delta, datetime_sub a b = Some delta
                /\ days delta = elapsed_days a b.
Proof.
  intros Ha Hb. unfold datetime_sub, elapsed_days, utc_micros.
  rewrite Ha, Hb.
  destruct (timedelta_eqb oa ob) eqn:E; eexists; (split; [reflexivity|]).
  - apply timedelta_eqb_micros in E. rewrite days_new. f_equal. lia.
  - rewrite days_sub, td_micros_add, td_micros_new. f_equal. lia.
Qed.

Lemma elapsed_days_sign (now commit : datetime) :
  0 <= elapsed_days now commit <-> utc_micros commit <= utc_micros now.
Proof.
  unfold elapsed_days.
  pose proof (Z.div_mod (utc_micros now - utc_micros commit) 86400000000
                ltac:(lia)) as H.
  pose proof (Z.mod_pos_bound (utc_micros now - utc_micros commit) 86400000000
                ltac:(lia)) as B.
  split; intros; nia.
Qed.

Section AgeOfCommit.

Variable w : World.

Lemma utc_micros_replace_naive (dt : datetime) :
  tzinfo dt = None -> utc_micros (replace_tzinfo (Some utc) dt) = utc_micros dt.
Proof. unfold utc_micros, toordinal; simpl. intros ->. reflexivity. Qed.

(** The [try] block never raises: it yields the elapsed whole days when the
    text parses, and nothing otherwise. *)
Lemma commit_age_days_run (text : string) (l : Log) :
  commit_age_days w text l
  = (Some (option_map (elapsed_days (now_utc w l)) (fromisoformat w text)), l).
Proof.
  unfold commit_age_days.
  destruct (fromisoformat w text) as [dt|]; [|reflexivity].
  unfold bind, datetime_now_utc, ret. simpl option_map.
  destruct (tzinfo dt) as [off|] eqn:Etz.
  - destruct (datetime_sub_aware (now_utc w l) dt utc off eq_refl Etz)
      as (delta & -> & ->). reflexivity.
  - destruct (datetime_sub_aware (now_utc w l) (replace_tzinfo (Some utc) dt)
                utc utc eq_refl eq_refl) as (delta & -> & ->).
    unfold elapsed_days. now rewrite utc_micros_replace_naive.
Qed.

End AgeOfCommit.

(** ** Status extractor, step by step *)

Lemma bind_run {A B} (c : Run A) (k : A -> Run B) (l l' : Log) (a : A) :
  c l = (Some a, l') -> bind c k l = k a l'.
Proof. unfold bind. now intros ->. Qed.

Lemma classification_nonneg (x y : ascii) : counts_nonneg (classification x y).
Proof.
  unfold classification, counts_nonneg, b2z.
  repeat match goal with
         | |- context [Ascii.eqb ?a ?c] =>
             destruct (Ascii.eqb a c); cbn [andb orb]
         end; simpl; lia.
Qed.

Lemma line_delta_nonneg (line : string) : counts_nonneg (line_delta line).
Proof.
  destruct line as [|x [|y rest]]; simpl;
    try apply classification_nonneg; unfold counts_nonneg; simpl; lia.
Qed.

Lemma sum_counts_nonneg (l : list counts) :
  Forall counts_nonneg l -> counts_nonneg (sum_counts l).
Proof.
  induction 1 as [|c l Hc _ IH]; simpl.
  - unfold counts_nonneg; simpl; lia.
  - unfold counts_nonneg in *; simpl; lia.
Qed.

Lemma count_lines_nonneg (text : string) : 0 <= count_lines text.
Proof. unfold count_lines. lia. Qed.

Lemma length_geb_2 {A} (x y : A) (l : list A) :
  (Z.of_nat (List.length (x :: y :: l)) >=? 2) = true.
Proof. apply Z.geb_le. simpl List.length. lia. Qed.

Lemma length_eqb_2 {A} (x y z : A) (l : list A) :
  (Z.of_nat (List.length (x :: y :: z :: l)) =? 2) = false.
Proof. apply Z.eqb_neq. simpl List.length. lia. Qed.

Section Steps.

Variable w : World.
Variable p : Path.

Tactic Notation "run_query" constr(args) "as" ident(out) ident(err) ident(rc) :=
  unfold bind at 1, run_git at 1;
  destruct (run_git_result w p args) as [[out err] rc];
  cbn beta iota.

Lemma step_branch_run (s : RepoStatus) (l : Log) :
  exists cb d cmds,
    step_branch w p s l
    = (Some (set_is_detached d (set_current_branch cb s)), (l ++ cmds)%list)
    /\ (cmds = [git_cmd p ["branch"; "--show-current"]]
        \/ cmds = [git_cmd p ["branch"; "--show-current"];
                   git_cmd p ["rev-parse"; "--short"; "HEAD"]]).
Proof.
  unfold step_branch.
  run_query ["branch"; "--show-current"] as out err rc.
  destruct ((rc =? 0) && Py.truthy out).
  - exists out, (is_detached s), [git_cmd p ["branch"; "--show-current"]].
    split; [destruct s; reflexivity | now left].
  - run_query ["rev-parse"; "--short"; "HEAD"] as out0 err0 rc0.
    destruct (rc0 =? 0).
    + exists ("(detached at " ++ out0 ++ ")"), true,
        [git_cmd p ["branch"; "--show-current"];
         git_cmd p ["rev-parse"; "--short"; "HEAD"]].
      split; [unfold ret; rewrite <- app_assoc; reflexivity | now right].
    + exists "(unknown)", (is_detached s),
        [git_cmd p ["branch"; "--show-current"];
         git_cmd p ["rev-parse"; "--short"; "HEAD"]].
      split; [unfold ret; rewrite <- app_assoc; destruct s; reflexivity
             | now right].
Qed.

Lemma step_porcelain_run (s : RepoStatus) (l : Log) :
  exists dc,
    step_porcelain w p s l
    = (Some (add_counts dc s),
       (l ++ [git_cmd p ["status"; "--porcelain=v1"]])%list)
    /\ counts_nonneg dc.
Proof.
  unfold step_porcelain.
  run_query ["status"; "--porcelain=v1"] as out err rc.
  destruct ((rc =? 0) && Py.truthy out).
  - eexists. split; [apply parse_porcelain_run|].
    apply sum_counts_nonneg, Forall_forall. intros c Hc.
    apply in_map_iff in Hc as (line & <- & _). apply line_delta_nonneg.
  - exists counts_zero. split; [now rewrite add_counts_zero|].
    unfold counts_nonneg; simpl; lia.
Qed.

Lemma rstrip_keep (c : ascii) (r : string) :
  Py.isspace c = false -> Py.rstrip (String c r) = String c (Py.rstrip r).
Proof. intros H. simpl. destruct (Py.rstrip r); [now rewrite H | reflexivity]. Qed.

Lemma rstrip_before (c : ascii) (r : string) :
  Py.rstrip r <> "" -> Py.rstrip (String c r) = String c (Py.rstrip r).
Proof. intros H. simpl. destruct (Py.rstrip r); [contradiction | reflexivity]. Qed.

Lemma not_space_not_LF (a : ascii) :
  Py.isspace a = false -> Ascii.eqb a LF = false.
Proof.
  intros H. destruct (Ascii.eqb_spec a LF) as [->|]; [|reflexivity].
  vm_compute in H. discriminate H.
Qed.

Lemma split_char_cons (sep a : ascii) (r : string) :
  Ascii.eqb a sep = false ->
  exists h t,
    Py.split_char sep r = h :: t
    /\ Py.split_char sep (String a r) = String a h :: t.
Proof.
  intros H. cbn [Py.split_char]. rewrite H.
  destruct (Py.split_char sep r) as [|h t] eqn:E.
  - destruct r as [|b r]; cbn [Py.split_char] in E; [discriminate E|].
    destruct (Ascii.eqb b sep); [discriminate E|].
    destruct (Py.split_char sep r); discriminate E.
  - now exists h, t.
Qed.

(** C2.  git writes a path that is modified, or deleted, in the working
    tree only with a blank first status character.  When such a line comes
    first in the listing, the runner, which strips the whole output, takes
    the blank away, and the parser reads the line one character short: it
    adds what the code made of [y] and a blank is worth, not what the code
    made of a blank and [y] is; for [ M path], one to staged and nothing to
    modified.  The other lines count as they stand. *)
Theorem porcelain_first_line_shift (y c : ascii) (tail err : string)
    (s : RepoStatus) (l : Log) :
  Py.isspace y = false -> Py.isspace c = false ->
  subprocess_run w (git_cmd p ["status"; "--porcelain=v1"])
  = Completed (String " " (String y (String " " (String c tail)))) err 0 ->
  (exists rest,
      hd "" (Py.split_char LF
               (String " " (String y (String " " (String c tail)))))
      = String " " (String y rest))
  /\ step_porcelain w p s l
     = (Some (add_counts
                (counts_add (classification y " ")
                   (sum_counts
                      (map line_delta
                         (tl (Py.split_char LF
                                (Py.strip
                                   (String " "
                                      (String y
                                         (String " " (String c tail))))))))))
                s),
        (l ++ [git_cmd p ["status"; "--porcelain=v1"]])%list)
  /\ classification "M" " " = mkCounts 1 0 0 0 0
  /\ classification " " "M" = mkCounts 0 1 0 0 0.
Proof.
  intros Hy Hc Hrun.
  pose proof (not_space_not_LF y Hy) as Hy'.
  pose proof (not_space_not_LF c Hc) as Hc'.
  split; [|split; [|split; reflexivity]].
  - destruct (split_char_cons LF y (String " " (String c tail)) Hy')
      as (h & t & _ & E).
    destruct (split_char_cons LF " " (String y (String " " (String c tail)))
                eq_refl) as (h' & t' & E1 & E2).
    rewrite E2. rewrite E in E1. injection E1 as <- <-.
    now exists h.
  - assert (Es : Py.strip (String " " (String y (String " " (String c tail))))
                 = String y (String " " (String c (Py.rstrip tail)))).
    { unfold Py.strip. cbn [Py.lstrip].
      change (Py.isspace " ") with true. cbn iota. rewrite Hy.
      rewrite (rstrip_keep y _ Hy).
      rewrite (rstrip_before " " (String c tail));
        rewrite (rstrip_keep c _ Hc); [reflexivity | discriminate]. }
    unfold step_porcelain, bind at 1, run_git at 1, run_git_result.
    rewrite Hrun, Es. cbn beta iota. cbn [Z.eqb andb Py.truthy].
    rewrite parse_porcelain_run. do 3 f_equal.
    destruct (split_char_cons LF c (Py.rstrip tail) Hc') as (h0 & t0 & _ & E0).
    destruct (split_char_cons LF " " (String c (Py.rstrip tail)) eq_refl)
      as (h1 & t1 & E1 & E1').
    destruct (split_char_cons LF y (String " " (String c (Py.rstrip tail))) Hy')
      as (h2 & t2 & E2 & E2').
    rewrite E2'. rewrite E1' in E2. injection E2 as <- <-.
    reflexivity.
Qed.

Lemma step_remote_run (s : RepoStatus) (l : Log) :
  exists hr url,
    step_remote w p s l
    = (Some (set_remote_url url (set_has_remote hr s)),
       (l ++ [git_cmd p ["remote"; "-v"]])%list).
Proof.
  unfold step_remote.
  run_query ["remote"; "-v"] as out err rc.
  destruct ((rc =? 0) && Py.truthy out);
    [|exists false, (remote_url s); destruct s; reflexivity].
  destruct (Py.split_char LF out) as [|line0 rest];
    [exists true, (remote_url s); destruct s; reflexivity|].
  destruct (Py.split_ws line0) as [|a [|b parts]];
    [exists true, (remote_url s); destruct s; reflexivity ..|].
  exists true, b. rewrite length_geb_2. reflexivity.
Qed.

Ltac ab_rel :=
  unfold ahead_behind_rel;
  try match goal with Hs : Py.split_ws _ = _ |- _ => rewrite Hs end;
  repeat split; intros;
  repeat match goal with H : _ \/ _ |- _ => destruct H end;
  unfold Py.split_ws in *; simpl in *; congruence.

Lemma step_ahead_behind_run (s : RepoStatus) (l : Log) :
  if has_remote s && negb (is_detached s) then
    exists b a,
      step_ahead_behind w p s l
      = (Some (set_ahead a (set_behind b s)),
         (l ++ [git_cmd p (ahead_behind_args (current_branch s))])%list)
      /\ ahead_behind_rel
           (fst (fst (run_git_result w p (ahead_behind_args (current_branch s)))))
           (snd (run_git_result w p (ahead_behind_args (current_branch s))))
           (behind s) (ahead s) b a
  else step_ahead_behind w p s l = (Some s, l).
Proof.
  unfold step_ahead_behind.
  destruct (has_remote s && negb (is_detached s)); [|reflexivity].
  fold (ahead_behind_args (current_branch s)).
  run_query (ahead_behind_args (current_branch s)) as out err rc.
  cbn [fst snd].
  destruct (Z.eqb_spec rc 0) as [Hrc|Hrc]; cbn [andb].
  2:{ exists (behind s), (ahead s).
      split; [destruct s; reflexivity | ab_rel]. }
  destruct out as [|c out']; cbn [Py.truthy].
  { exists (behind s), (ahead s).
    split; [destruct s; reflexivity | ab_rel]. }
  destruct (Py.split_ws (String c out')) as [|f0 [|f1 [|f2 rest]]] eqn:Hs;
    try rewrite length_eqb_2;
    try (exists (behind s), (ahead s);
         split; [destruct s; reflexivity | ab_rel]).
  unfold bind, lift; cbn [nth_error List.length Z.of_nat Z.eqb Pos.eqb
                          Pos.of_succ_nat Pos.succ].
  destruct (Py.int f0) as [n0|] eqn:H0.
  2:{ exists (behind s), (ahead s).
      split; [destruct s; reflexivity | ab_rel]. }
  destruct (Py.int f1) as [n1|] eqn:H1.
  - exists n0, n1. split; [reflexivity | ab_rel].
  - exists n0, (ahead s). split; [destruct s; reflexivity | ab_rel].
Qed.

Lemma step_last_commit_run (s : RepoStatus) (l : Log) :
  exists date msg age,
    step_last_commit w p s l
    = (Some (set_last_commit_age_days age
               (set_last_commit_message msg (set_last_commit_date date s))),
       (l ++ [git_cmd p ["log"; "-1"; "--format=%aI|||%s"]])%list)
    /\ ((date = last_commit_date s /\ age = last_commit_age_days s)
        \/ (fromisoformat w date = None /\ age = last_commit_age_days s)
        \/ exists dt,
             fromisoformat w date = Some dt
             /\ age = elapsed_days
                        (now_utc w
                           (l ++ [git_cmd p ["log"; "-1"; "--format=%aI|||%s"]])%list)
                        dt).
Proof.
  unfold step_last_commit.
  run_query ["log"; "-1"; "--format=%aI|||%s"] as out err rc.
  assert (Hsame : exists date msg age,
    (Some s, (l ++ [git_cmd p ["log"; "-1"; "--format=%aI|||%s"]])%list)
    = (Some (set_last_commit_age_days age
               (set_last_commit_message msg (set_last_commit_date date s))),
       (l ++ [git_cmd p ["log"; "-1"; "--format=%aI|||%s"]])%list)
    /\ ((date = last_commit_date s /\ age = last_commit_age_days s)
        \/ (fromisoformat w date = None /\ age = last_commit_age_days s)
        \/ exists dt,
             fromisoformat w date = Some dt
             /\ age = elapsed_days
                        (now_utc w
                           (l ++ [git_cmd p ["log"; "-1"; "--format=%aI|||%s"]])%list)
                        dt)).
  { exists (last_commit_date s), (last_commit_message s), (last_commit_age_days s).
    split; [destruct s; reflexivity | left; now split]. }
  destruct ((rc =? 0) && Py.truthy out); [|exact Hsame].
  destruct (Py.split_once "|||" out) as [|p0 [|p1 [|p2 rest]]];
    try exact Hsame; [|rewrite length_eqb_2; exact Hsame].
  unfold bind, lift; cbn [nth_error List.length Z.of_nat Z.eqb Pos.eqb
                          Pos.of_succ_nat Pos.succ].
  rewrite commit_age_days_run.
  destruct (fromisoformat w p0) as [dt|] eqn:Ep; cbn [option_map].
  - exists p0, (Py.slice_to 120 p1), (elapsed_days
      (now_utc w (l ++ [git_cmd p ["log"; "-1"; "--format=%aI|||%s"]])%list) dt).
    split; [reflexivity|]. right; right. exists dt.
    split; [exact Ep | reflexivity].
  - exists p0, (Py.slice_to 120 p1), (last_commit_age_days s).
    split; [destruct s; reflexivity | right; left; now split].
Qed.

Lemma step_total_commits_run (s : RepoStatus) (l : Log) :
  exists tc,
    step_total_commits w p s l
    = (Some (set_total_commits tc s),
       (l ++ [git_cmd p ["rev-list"; "--count"; "HEAD"]])%list).
Proof.
  unfold step_total_commits.
  run_query ["rev-list"; "--count"; "HEAD"] as out err rc.
  destruct ((rc =? 0) && Py.truthy out);
    [|exists (total_commits s); destruct s; reflexivity].
  destruct (Py.int out) as [n|];
    [exists n; reflexivity | exists (total_commits s); destruct s; reflexivity].
Qed.

Lemma step_branch_count_run (s : RepoStatus) (l : Log) :
  exists n,
    step_branch_count w p s l
    = (Some (set_branch_count n s), (l ++ [git_cmd p ["branch"; "--list"]])%list).
Proof.
  unfold step_branch_count.
  run_query ["branch"; "--list"] as out err rc.
  destruct ((rc =? 0) && Py.truthy out);
    [eexists; reflexivity | exists (branch_count s); destruct s; reflexivity].
Qed.

Lemma step_tag_count_run (s : RepoStatus) (l : Log) :
  exists n,
    step_tag_count w p s l
    = (Some (set_tag_count n s), (l ++ [git_cmd p ["tag"; "--list"]])%list).
Proof.
  unfold step_tag_count.
  run_query ["tag"; "--list"] as out err rc.
  destruct ((rc =? 0) && Py.truthy out);
    [eexists; reflexivity | exists (tag_count s); destruct s; reflexivity].
Qed.

Lemma step_stash_count_run (s : RepoStatus) (l : Log) :
  exists n,
    step_stash_count w p s l
    = (Some (set_stash_count n s), (l ++ [git_cmd p ["stash"; "list"]])%list)
    /\ (n = stash_count s \/ 0 <= n).
Proof.
  unfold step_stash_count.
  run_query ["stash"; "list"] as out err rc.
  destruct ((rc =? 0) && Py.truthy out).
  - eexists. split; [reflexivity|]. right. apply count_lines_nonneg.
  - exists (stash_count s). split; [destruct s; reflexivity | now left].
Qed.

End Steps.

(** ** Status extractor, as a whole *)

Section WholeExtractor.

Variable w : World.
Variable p : Path.

(** Every run of the extractor returns a status.  When the validity check
    passes, the status is assembled from the answers to the fixed battery of
    queries, the ahead/behind query being among them exactly when a remote
    was found and HEAD is not detached; when it fails, nothing else is
    asked. *)
Lemma get_repo_status_run (l : Log) :
  if snd (run_git_result w p ["rev-parse"; "--git-dir"]) =? 0 then
    exists cb d cmds dc hr url b a date msg age tc bc tg sc,
      get_repo_status w p l
      = (Some (extracted p cb d dc hr url b a date msg age tc bc tg sc),
         (l ++ git_cmd p ["rev-parse"; "--git-dir"] :: cmds
            ++ [git_cmd p ["status"; "--porcelain=v1"];
                git_cmd p ["remote"; "-v"]]
            ++ (if hr && negb d then [git_cmd p (ahead_behind_args cb)] else [])
            ++ [git_cmd p ["log"; "-1"; "--format=%aI|||%s"];
                git_cmd p ["rev-list"; "--count"; "HEAD"];
                git_cmd p ["branch"; "--list"];
                git_cmd p ["tag"; "--list"];
                git_cmd p ["stash"; "list"]])%list)
      /\ (cmds = [git_cmd p ["branch"; "--show-current"]]
          \/ cmds = [git_cmd p ["branch"; "--show-current"];
                     git_cmd p ["rev-parse"; "--short"; "HEAD"]])
      /\ counts_nonneg dc
      /\ 0 <= sc
      /\ (if hr && negb d then
            ahead_behind_rel
              (fst (fst (run_git_result w p (ahead_behind_args cb))))
              (snd (run_git_result w p (ahead_behind_args cb))) 0 0 b a
          else b = 0 /\ a = 0)
      /\ ((date = "" /\ age = 0)
          \/ (fromisoformat w date = None /\ age = 0)
          \/ exists dt l1,
               fromisoformat w date = Some dt
               /\ age = elapsed_days (now_utc w l1) dt)
  else
    get_repo_status w p l
    = (Some (invalid_repo p (snd (fst (run_git_result w p ["rev-parse"; "--git-dir"])))),
       (l ++ [git_cmd p ["rev-parse"; "--git-dir"]])%list).
Proof.
  assert (Hstart : forall k : string * string * Z -> Run RepoStatus,
             bind (run_git w p ["rev-parse"; "--git-dir"]) k l
             = k (run_git_result w p ["rev-parse"; "--git-dir"])
                 (l ++ [git_cmd p ["rev-parse"; "--git-dir"]])%list)
    by reflexivity.
  unfold get_repo_status. rewrite !Hstart. clear Hstart.
  destruct (run_git_result w p ["rev-parse"; "--git-dir"]) as [[o e] rc].
  cbn [fst snd]. destruct (rc =? 0); cbn [negb]; [|reflexivity].
  set (s0 := new_RepoStatus (path_name p) (path_str p)).
  set (l0 := (l ++ [git_cmd p ["rev-parse"; "--git-dir"]])%list).
  destruct (step_branch_run w p s0 l0) as (cb & d & cmds & E1 & Hcmds).
  rewrite (bind_run _ _ _ _ _ E1). clear E1.
  set (s1 := set_is_detached d (set_current_branch cb s0)).
  destruct (step_porcelain_run w p s1 (l0 ++ cmds)%list) as (dc & E2 & Hdc).
  rewrite (bind_run _ _ _ _ _ E2). clear E2.
  set (s2 := add_counts dc s1).
  unfold bind at 1, step_dirty at 1, ret at 1. cbn beta iota.
  match goal with |- context [bind (step_remote w p ?s) _ ?l'] =>
    set (s3 := s); set (l3 := l');
    destruct (step_remote_run w p s3 l3) as (hr & url & E3) end.
  rewrite (bind_run _ _ _ _ _ E3). clear E3.
  set (s4 := set_remote_url url (set_has_remote hr s3)).
  set (l4 := (l3 ++ [git_cmd p ["remote"; "-v"]])%list).
  assert (E4 : exists b a,
    step_ahead_behind w p s4 l4
    = (Some (set_ahead a (set_behind b s4)),
       (l4 ++ (if hr && negb d then [git_cmd p (ahead_behind_args cb)] else []))%list)
    /\ (if hr && negb d then
          ahead_behind_rel
            (fst (fst (run_git_result w p (ahead_behind_args cb))))
            (snd (run_git_result w p (ahead_behind_args cb))) 0 0 b a
        else b = 0 /\ a = 0)).
  { pose proof (step_ahead_behind_run w p s4 l4) as H.
    change (has_remote s4) with hr in H. change (is_detached s4) with d in H.
    change (current_branch s4) with cb in H.
    change (behind s4) with 0 in H. change (ahead s4) with 0 in H.
    destruct (hr && negb d).
    - destruct H as (b & a & H & Hrel). exists b, a. now split.
    - exists 0, 0. rewrite H, app_nil_r. now split. }
  destruct E4 as (b & a & E4 & Hab).
  rewrite (bind_run _ _ _ _ _ E4). clear E4.
  match goal with |- context [bind (step_last_commit w p ?s) _ ?l'] =>
    set (s5 := s); set (l5 := l');
    destruct (step_last_commit_run w p s5 l5) as (date & msg & age & E5 & Hage)
  end.
  rewrite (bind_run _ _ _ _ _ E5). clear E5.
  match goal with |- context [bind (step_total_commits w p ?s) _ ?l'] =>
    set (s6 := s); set (l6 := l');
    destruct (step_total_commits_run w p s6 l6) as (tc & E6) end.
  rewrite (bind_run _ _ _ _ _ E6). clear E6.
  match goal with |- context [bind (step_branch_count w p ?s) _ ?l'] =>
    set (s7 := s); set (l7 := l');
    destruct (step_branch_count_run w p s7 l7) as (bc & E7) end.
  rewrite (bind_run _ _ _ _ _ E7). clear E7.
  match goal with |- context [bind (step_tag_count w p ?s) _ ?l'] =>
    set (s8 := s); set (l8 := l');
    destruct (step_tag_count_run w p s8 l8) as (tg & E8) end.
  rewrite (bind_run _ _ _ _ _ E8). clear E8.
  match goal with |- context [bind (step_stash_count w p ?s) _ ?l'] =>
    set (s9 := s); set (l9 := l');
    destruct (step_stash_count_run w p s9 l9) as (sc & E9 & Hsc) end.
  rewrite (bind_run _ _ _ _ _ E9). clear E9.
  exists cb, d, cmds, dc, hr, url, b, a, date, msg, age, tc, bc, tg, sc.
  split; [|split; [exact Hcmds|split; [exact Hdc|split; [|split; [exact Hab|]]]]].
  - unfold step_health, ret.
    match goal with |- context [calculate_health ?s] =>
      change (calculate_health s) with
        (calculate_health
           {| name := path_name p; path := path_str p; current_branch := cb;
              staged_count := c_staged dc; modified_count := c_modified dc;
              untracked_count := c_untracked dc; deleted_count := c_deleted dc;
              conflict_count := c_conflict dc; stash_count := sc;
              ahead := a; behind := b; has_remote := hr; remote_url := url;
              last_commit_date := date; last_commit_age_days := age;
              last_commit_message := msg; total_commits := tc;
              branch_count := bc; tag_count := tg;
              is_dirty := (c_staged dc >? 0) || (c_modified dc >? 0)
                          || (c_untracked dc >? 0) || (c_deleted dc >? 0)
                          || (c_conflict dc >? 0);
              is_detached := d; health_score := 100; health_grade := "A";
              issues := []; error := "" |})
    end.
    unfold extracted.
    match goal with |- context [calculate_health ?s] =>
      destruct (calculate_health s) as [[score grade] iss] end.
    cbn [fst snd]. f_equal.
    subst l9 l8 l7 l6 l5 l4 l3 l0.
    destruct (hr && negb d); rewrite <- ?app_assoc; reflexivity.
  - change (stash_count s9) with 0 in Hsc. lia.
  - change (last_commit_age_days s5) with 0 in Hage.
    change (last_commit_date s5) with "" in Hage.
    destruct Hage as [[-> ->]|[[Hn ->]|(dt & Hdt & ->)]];
      [left; now split | right; left; now split |].
    right; right. exists dt. eexists. split; [exact Hdt | reflexivity].
Qed.


(** C5.  Every status the extractor returns has [is_dirty] true exactly
    when the five working-tree counters sum to more than zero. *)
Theorem is_dirty_iff_counters (l : Log) :
  exists st l',
    get_repo_status w p l = (Some st, l')
    /\ (is_dirty st = true
        <-> staged_count st + modified_count st + untracked_count st
            + deleted_count st + conflict_count st > 0).
Proof.
  pose proof (get_repo_status_run l) as H.
  destruct (snd (run_git_result w p ["rev-parse"; "--git-dir"]) =? 0).
  - destruct H as (cb & d & cmds & dc & hr & url & b & a & date & msg & age
                   & tc & bc & tg & sc & E & _ & Hdc & _).
    do 2 eexists. split; [exact E|].
    change (is_dirty (extracted p cb d dc hr url b a date msg age tc bc tg sc))
      with ((c_staged dc >? 0) || (c_modified dc >? 0) || (c_untracked dc >? 0)
            || (c_deleted dc >? 0) || (c_conflict dc >? 0)).
    change (staged_count (extracted p cb d dc hr url b a date msg age tc bc tg sc))
      with (c_staged dc).
    change (modified_count (extracted p cb d dc hr url b a date msg age tc bc tg sc))
      with (c_modified dc).
    change (untracked_count (extracted p cb d dc hr url b a date msg age tc bc tg sc))
      with (c_untracked dc).
    change (deleted_count (extracted p cb d dc hr url b a date msg age tc bc tg sc))
      with (c_deleted dc).
    change (conflict_count (extracted p cb d dc hr url b a date msg age tc bc tg sc))
      with (c_conflict dc).
    destruct Hdc as (H1 & H2 & H3 & H4 & H5).
    rewrite !orb_true_iff, !Z.gtb_ltb, !Z.ltb_lt. lia.
  - do 2 eexists. split; [exact H|]. simpl. split; [discriminate | lia].
Qed.

(** C8.  When the validity check fails the extractor returns at once: the
    record is the freshly constructed one but for a non-empty [error], score
    0 and grade F, and the validity query is the only command run.
    Conversely a returned status has a non-empty [error] only when that
    check failed. *)
Theorem invalid_repo_spec (l : Log) :
  (snd (run_git_result w p ["rev-parse"; "--git-dir"]) <> 0 ->
   get_repo_status w p l
   = (Some (set_health_grade "F"
              (set_health_score 0
                 (set_error
                    ("Not a valid git repo: "
                     ++ snd (fst (run_git_result w p ["rev-parse"; "--git-dir"])))
                    (new_RepoStatus (path_name p) (path_str p))))),
      (l ++ [git_cmd p ["rev-parse"; "--git-dir"]])%list)
   /\ "Not a valid git repo: "
        ++ snd (fst (run_git_result w p ["rev-parse"; "--git-dir"])) <> "")
  /\ (forall st l',
        get_repo_status w p l = (Some st, l') ->
        error st <> "" ->
        snd (run_git_result w p ["rev-parse"; "--git-dir"]) <> 0).
Proof.
  pose proof (get_repo_status_run l) as H.
  destruct (Z.eqb_spec (snd (run_git_result w p ["rev-parse"; "--git-dir"])) 0)
    as [Hrc|Hrc].
  - split; [intros Hn; contradiction|].
    destruct H as (cb & d & cmds & dc & hr & url & b & a & date & msg & age
                   & tc & bc & tg & sc & E & _).
    intros st l' E' Herr. rewrite E in E'. injection E' as <- _.
    exfalso. apply Herr. reflexivity.
  - split; [|intros; exact Hrc].
    intros _. split; [exact H | discriminate].
Qed.

(** C3, amended.  On every status the extractor returns, the scorer gives
    100 with no issue exactly when there is a remote, the commit count is
    not zero, the last commit is at most 30 days old, the five working-tree
    counters are zero (the tree is not dirty and has no conflict), HEAD is
    not detached, nothing is stashed, and moreover the branch is not behind
    its upstream and at most five commits ahead of it. *)
Theorem perfect_health_iff (l : Log) :
  exists st l',
    get_repo_status w p l = (Some st, l')
    /\ (fst (fst (calculate_health st)) = 100 /\ snd (calculate_health st) = []
        <-> has_remote st = true
            /\ total_commits st <> 0
            /\ last_commit_age_days st <= 30
            /\ staged_count st = 0 /\ modified_count st = 0
            /\ untracked_count st = 0 /\ deleted_count st = 0
            /\ conflict_count st = 0
            /\ is_dirty st = false
            /\ is_detached st = false
            /\ stash_count st = 0
            /\ behind st <= 0
            /\ ahead st <= 5).
Proof.
  pose proof (get_repo_status_run l) as H.
  destruct (snd (run_git_result w p ["rev-parse"; "--git-dir"]) =? 0).
  - destruct H as (cb & d & cmds & dc & hr & url & b & a & date & msg & age
                   & tc & bc & tg & sc & E & _ & Hdc & Hsc & _).
    do 2 eexists. split; [exact E|].
    rewrite perfect_score_iff.
    set (st := extracted p cb d dc hr url b a date msg age tc bc tg sc).
    change (has_remote st) with hr. change (total_commits st) with tc.
    change (last_commit_age_days st) with age.
    change (is_detached st) with d. change (stash_count st) with sc.
    change (behind st) with b. change (ahead st) with a.
    change (staged_count st) with (c_staged dc).
    change (modified_count st) with (c_modified dc).
    change (untracked_count st) with (c_untracked dc).
    change (deleted_count st) with (c_deleted dc).
    change (conflict_count st) with (c_conflict dc).
    change (is_dirty st)
      with ((c_staged dc >? 0) || (c_modified dc >? 0) || (c_untracked dc >? 0)
            || (c_deleted dc >? 0) || (c_conflict dc >? 0)).
    rewrite !orb_false_iff, !Z.gtb_ltb, !Z.ltb_ge.
    destruct Hdc as (H1 & H2 & H3 & H4 & H5).
    intuition lia.
  - do 2 eexists. split; [exact H|].
    rewrite perfect_score_iff. simpl. intuition discriminate.
Qed.

(** The recorded health is what the scorer says of the returned record. *)
Lemma extracted_health cb d dc hr url b a date msg age tc bc tg sc :
  let st := extracted p cb d dc hr url b a date msg age tc bc tg sc in
  (health_score st, health_grade st, issues st) = calculate_health st.
Proof.
  unfold extracted. cbv zeta.
  match goal with |- context [set_health_score _ ?s] => set (s0 := s) end.
  change (calculate_health
            (set_issues (snd (calculate_health s0))
               (set_health_grade (snd (fst (calculate_health s0)))
                  (set_health_score (fst (fst (calculate_health s0))) s0))))
    with (calculate_health s0).
  destruct (calculate_health s0) as [[x y] z]. reflexivity.
Qed.

(** X18.  The ahead/behind query is run exactly when a remote was found and
    HEAD is not detached, and then the first field of its output goes to
    [behind] and the second to [ahead]; when it is not run, or when its
    output has not two fields or a first field that is no integer, both
    counters stay 0. *)
Lemma ahead_behind_spec (l : Log) :
  exists st trace,
    get_repo_status w p l = (Some st, (l ++ trace)%list)
    /\ filter is_ahead_behind_query trace
       = (if has_remote st && negb (is_detached st)
          then [git_cmd p (ahead_behind_args (current_branch st))] else [])
    /\ (if has_remote st && negb (is_detached st) then
          ahead_behind_rel
            (fst (fst (run_git_result w p (ahead_behind_args (current_branch st)))))
            (snd (run_git_result w p (ahead_behind_args (current_branch st))))
            0 0 (behind st) (ahead st)
        else behind st = 0 /\ ahead st = 0).
Proof.
  pose proof (get_repo_status_run l) as H.
  destruct (snd (run_git_result w p ["rev-parse"; "--git-dir"]) =? 0).
  - destruct H as (cb & d & cmds & dc & hr & url & b & a & date & msg & age
                   & tc & bc & tg & sc & E & Hcmds & _ & _ & Hab & _).
    do 2 eexists. split; [exact E|].
    set (st := extracted p cb d dc hr url b a date msg age tc bc tg sc).
    change (has_remote st) with hr. change (is_detached st) with d.
    change (current_branch st) with cb.
    change (behind st) with b. change (ahead st) with a.
    split; [|exact Hab].
    destruct Hcmds as [-> | ->]; destruct (hr && negb d); reflexivity.
  - exists (invalid_repo p (snd (fst (run_git_result w p ["rev-parse"; "--git-dir"])))).
    eexists. split; [exact H|]. simpl. split; [reflexivity | now split].
Qed.

(** The age recorded for the last commit of a status. *)
Lemma status_age_recorded (l : Log) :
  exists st l',
    get_repo_status w p l = (Some st, l')
    /\ age_recorded w (last_commit_date st) (last_commit_age_days st).
Proof.
  pose proof (get_repo_status_run l) as H.
  destruct (snd (run_git_result w p ["rev-parse"; "--git-dir"]) =? 0).
  - destruct H as (cb & d & cmds & dc & hr & url & b & a & date & msg & age
                   & tc & bc & tg & sc & E & _ & _ & _ & _ & Hage).
    do 2 eexists. split; [exact E|].
    set (st := extracted p cb d dc hr url b a date msg age tc bc tg sc).
    change (last_commit_date st) with date.
    change (last_commit_age_days st) with age.
    destruct Hage as [Hd|[Hn|(dt & l1 & Hdt & ->)]];
      [left; exact Hd | right; left; exact Hn |].
    right; right. exists dt, l1.
    split; [exact Hdt | split; [reflexivity | apply elapsed_days_sign]].
  - do 2 eexists. split; [exact H|]. left. now split.
Qed.

End WholeExtractor.

(** ** Loops *)

(** A loop whose body always returns and keeps an invariant returns and
    keeps it. *)
Lemma for_each_inv {A S} (I : S -> Prop) (body : A -> S -> Run S)
    (xs : list A) :
  (forall x s l, I s -> exists s' l', body x s l = (Some s', l') /\ I s') ->
  forall s l, I s -> exists s' l', for_each xs body s l = (Some s', l') /\ I s'.
Proof.
  intros Hbody. induction xs as [|x xs IH]; intros s l Hs; simpl.
  - exists s, l. now split.
  - destruct (Hbody x s l Hs) as (s1 & l1 & E & Hs1).
    rewrite (bind_run _ _ _ _ _ E). apply IH, Hs1.
Qed.

(** ** White space at the ends of a text *)

Lemma rstrip_idem (s : string) : Py.rstrip (Py.rstrip s) = Py.rstrip s.
Proof.
  induction s as [|c r IH]; [reflexivity|]. simpl.
  destruct (Py.rstrip r) as [|c' r'] eqn:E.
  - destruct (Py.isspace c) eqn:Ec; [reflexivity|]. simpl. now rewrite Ec.
  - simpl in IH |- *. rewrite IH. reflexivity.
Qed.

Lemma lstrip_head (s : string) :
  Py.lstrip s = "" \/ exists c r, Py.lstrip s = String c r /\ Py.isspace c = false.
Proof.
  induction s as [|c r IH]; [now left|]. simpl.
  destruct (Py.isspace c) eqn:E; [exact IH|]. right. now exists c, r.
Qed.

Lemma rstrip_head (c : ascii) (r : string) :
  Py.isspace c = false -> exists r', Py.rstrip (String c r) = String c r'.
Proof.
  intros E. simpl. destruct (Py.rstrip r); [rewrite E|]; eexists; reflexivity.
Qed.

(** Stripping twice is stripping once. *)
Lemma strip_idem (s : string) : Py.strip (Py.strip s) = Py.strip s.
Proof.
  unfold Py.strip.
  destruct (lstrip_head s) as [E|(c & r & E & Hc)]; rewrite E.
  - reflexivity.
  - destruct (rstrip_head c r Hc) as (r' & E'). rewrite E'.
    simpl Py.lstrip. rewrite Hc, <- E'. apply rstrip_idem.
Qed.

(** ** Branch analyzer *)

Lemma digit_not_space (c : ascii) (d : Z) :
  Py.digit_val c = Some d -> Py.isspace c = false.
Proof.
  destruct c as [[] [] [] [] [] [] [] []]; vm_compute; intros; congruence.
Qed.

Lemma digit_not_sign (c : ascii) (d : Z) :
  Py.digit_val c = Some d -> c <> "-"%char /\ c <> "+"%char.
Proof.
  intros H; split; intros ->; vm_compute in H; discriminate.
Qed.

Lemma take_digits_head (s : string) (c : ascii) (r : string) :
  take_digits s = String c r -> exists d, Py.digit_val c = Some d.
Proof.
  destruct s as [|a s]; simpl; [discriminate|].
  destruct (Py.digit_val a) as [d|] eqn:E; [|discriminate].
  intros H; injection H as <- _. now exists d.
Qed.

Lemma take_digits_lstrip (s : string) :
  Py.lstrip (take_digits s) = take_digits s.
Proof.
  destruct (take_digits s) as [|c r] eqn:E; [reflexivity|].
  destruct (take_digits_head _ _ _ E) as (d & Hd).
  simpl. now rewrite (digit_not_space _ _ Hd).
Qed.

Lemma take_digits_rstrip (s : string) :
  Py.rstrip (take_digits s) = take_digits s.
Proof.
  induction s as [|a s IH]; simpl; [reflexivity|].
  destruct (Py.digit_val a) as [d|] eqn:E; [|reflexivity].
  simpl. rewrite IH, (digit_not_space _ _ E).
  destruct (take_digits s); reflexivity.
Qed.

Lemma int_digits_take (s : string) (acc : Z) (prev : bool) :
  prev = true \/ take_digits s <> "" ->
  exists n, Py.int_digits acc prev (take_digits s) = Some n.
Proof.
  revert acc prev. induction s as [|a s IH]; intros acc prev H; simpl in *.
  - destruct H as [-> | H]; [now exists acc | contradiction].
  - destruct (Py.digit_val a) as [d|] eqn:E; simpl.
    + rewrite E. apply IH. now left.
    + destruct H as [-> | H]; [now exists acc | contradiction].
Qed.

Lemma digit_val_range (c : ascii) (d : Z) :
  Py.digit_val c = Some d -> 0 <= d <= 9.
Proof.
  destruct c as [[] [] [] [] [] [] [] []]; vm_compute; intros H;
    try discriminate H; injection H as <-; split; discriminate.
Qed.

Lemma int_digits_nonneg (s : string) :
  forall acc prev n,
    0 <= acc -> Py.int_digits acc prev s = Some n -> 0 <= n.
Proof.
  induction s as [|c r IH]; intros acc prev n Hacc; cbn -[Z.mul Z.add].
  - destruct prev; [|discriminate]. intros H; injection H as <-. exact Hacc.
  - destruct (Py.digit_val c) as [d|] eqn:E.
    + apply digit_val_range in E. apply IH. lia.
    + destruct (Ascii.eqb c "_" && prev)%bool; [|discriminate].
      destruct r as [|c' r']; [discriminate|].
      destruct (Py.digit_val c'); [|discriminate].
      apply IH. exact Hacc.
Qed.

(** What [(\d+)] captures is all digits. *)
Lemma count_digits_take (s : string) :
  Py.count_digits (take_digits s) = Z.of_nat (String.length (take_digits s)).
Proof.
  induction s as [|a s IH]; [reflexivity|]. cbn [take_digits].
  destruct (Py.digit_val a) as [d|] eqn:E; [|reflexivity].
  cbn [Py.count_digits String.length]. rewrite E, IH. lia.
Qed.

(** What [(\d+)] captures carries no sign and no white space. *)
Lemma int_unsigned (s : string) :
  take_digits s <> "" -> Py.int (take_digits s) = Py.int_literal (take_digits s).
Proof.
  intros H. unfold Py.int, Py.strip.
  rewrite take_digits_lstrip, take_digits_rstrip.
  destruct (take_digits s) as [|c r] eqn:E; [contradiction|].
  destruct (take_digits_head _ _ _ E) as (d & Hd). clear E H.
  destruct c as [[] [] [] [] [] [] [] []]; try reflexivity;
    vm_compute in Hd; discriminate.
Qed.

(** What [(\d+)] captures converts, to a number that is not negative,
    exactly when it has at most 4300 digits. *)
Lemma int_take_digits (s : string) :
  take_digits s <> "" ->
  exists n,
    0 <= n
    /\ Py.int (take_digits s)
       = if Z.of_nat (String.length (take_digits s)) <=? 4300
         then Some n else None.
Proof.
  intros H. rewrite (int_unsigned s H). unfold Py.int_literal.
  destruct (int_digits_take s 0 false (or_intror H)) as (n & Hn).
  exists n. split; [apply (int_digits_nonneg _ _ _ _ (Z.le_refl 0) Hn)|].
  rewrite Hn, count_digits_take. unfold Py.max_str_digits.
  destruct (Z.gtb_spec (Z.of_nat (String.length (take_digits s))) 4300),
           (Z.leb_spec (Z.of_nat (String.length (take_digits s))) 4300);
    try reflexivity; lia.
Qed.

Lemma re_search_number_eq (kw s : string) :
  re_search_number kw s
  = match
      (if String.prefix kw s then
         match take_digits (String.substring (String.length kw)
                              (String.length s - String.length kw) s) with
         | EmptyString => None
         | d => Some d
         end
       else None)
    with
    | Some d => Some d
    | None =>
        match s with
        | EmptyString => None
        | String _ r => re_search_number kw r
        end
    end.
Proof. destruct s; reflexivity. Qed.

Lemma re_search_number_digits (kw s g : string) :
  re_search_number kw s = Some g -> exists t, g = take_digits t /\ g <> "".
Proof.
  induction s as [|a s IH]; rewrite re_search_number_eq;
    destruct (String.prefix kw _);
    try destruct (take_digits _) as [|c r] eqn:E;
    intros H; try discriminate H; try (apply IH; exact H);
    injection H as <-;
    eexists; (split; [symmetry; exact E | discriminate]).
Qed.

Section Branches.

Variable w : World.

Lemma bind_raise {A B} (c : Run A) (k : A -> Run B) (l l' : Log) :
  c l = (None, l') -> bind c k l = (None, l').
Proof. unfold bind. now intros ->. Qed.

Lemma part_or_empty_run (parts : list string) (i : nat) (l : Log) :
  part_or_empty parts i l
  = (Some match nth_error parts i with
          | Some t => Py.strip t
          | None => ""
          end, l).
Proof.
  unfold part_or_empty.
  destruct (Z.gtb_spec (Z.of_nat (List.length parts)) (Z.of_nat i)) as [H|H].
  - destruct (nth_error parts i) as [t|] eqn:E; [reflexivity|].
    apply nth_error_None in E. lia.
  - destruct (nth_error parts i) as [t|] eqn:E; [|reflexivity].
    assert (nth_error parts i <> None) as Hn by congruence.
    apply nth_error_Some in Hn. lia.
Qed.

(** The conversion of a count raises exactly when the count has more than
    4300 digits. *)
Lemma search_count_run (kw t : string) (l : Log) :
  exists n,
    match re_search_number kw t with
    | Some g => lift (Py.int g)
    | None => ret 0
    end l = ((if count_fits kw t then Some n else None), l)
    /\ 0 <= n.
Proof.
  unfold count_fits.
  destruct (re_search_number kw t) as [g|] eqn:E;
    [|exists 0; split; [reflexivity | lia]].
  destruct (re_search_number_digits _ _ _ E) as (u & -> & Hne).
  destruct (int_take_digits u Hne) as (n & Hn0 & Hn).
  exists n. unfold lift. rewrite Hn. split; [reflexivity | exact Hn0].
Qed.

Lemma track_counts_run (track_info : string) (l : Log) :
  exists a b,
    (if Py.truthy track_info then
       ahead <-
         match re_search_number "ahead " track_info with
         | Some g => lift (Py.int g)
         | None => ret 0
         end ;;
       behind <-
         match re_search_number "behind " track_info with
         | Some g => lift (Py.int g)
         | None => ret 0
         end ;;
       ret (ahead, behind)
     else ret (0, 0)) l
    = ((if count_fits "ahead " track_info && count_fits "behind " track_info
        then Some (a, b) else None), l)
    /\ 0 <= a /\ 0 <= b.
Proof.
  destruct (Py.truthy track_info) eqn:T.
  - destruct (search_count_run "ahead " track_info l) as (a & Ea & Ha).
    destruct (search_count_run "behind " track_info l) as (b & Eb & Hb).
    exists a, b. split; [|now split].
    destruct (count_fits "ahead " track_info); cbn [andb].
    + rewrite (bind_run _ _ _ _ _ Ea).
      destruct (count_fits "behind " track_info).
      * rewrite (bind_run _ _ _ _ _ Eb). reflexivity.
      * rewrite (bind_raise _ _ _ _ Eb). reflexivity.
    + rewrite (bind_raise _ _ _ _ Ea). reflexivity.
  - destruct track_info; [|discriminate T].
    exists 0, 0. split; [reflexivity | lia].
Qed.

(** One turn of the loop of [get_branches].  It raises, before any command,
    when a count of the line does not convert; otherwise it skips the line,
    or appends one sound branch for which it has run one [git log] query. *)
Lemma branch_of_line_run (path : Path) (line : string)
    (bs : list BranchInfo.t) (l : Log) :
  if counts_convert line then
    branch_of_line w path line bs l = (Some bs, l)
    \/ exists br,
         branch_of_line w path line bs l
         = (Some (bs ++ [br])%list, (l ++ [branch_log_cmd path br])%list)
         /\ sound_branch w br
  else branch_of_line w path line bs l = (None, l).
Proof.
  remember (branch_of_line w path line bs l) as R eqn:ER.
  unfold branch_of_line in ER. unfold counts_convert.
  destruct (Py.split_str "|||" line) as [|p0 [|p1 rest]];
    try (left; exact ER).
  rewrite length_geb_2 in ER.
  change (nth_error (p0 :: p1 :: rest) 0) with (Some p0) in ER.
  change (nth_error (p0 :: p1 :: rest) 1) with (Some p1) in ER.
  change (nth_error (p0 :: p1 :: rest) 3) with (nth_error rest 1).
  unfold bind at 1, lift at 1 in ER; cbv beta iota in ER.
  unfold bind at 1, lift at 1 in ER; cbv beta iota in ER.
  rewrite (bind_run _ _ _ _ _ (part_or_empty_run (p0 :: p1 :: rest) 2 l)) in ER.
  rewrite (bind_run _ _ _ _ _ (part_or_empty_run (p0 :: p1 :: rest) 3 l)) in ER.
  change (nth_error (p0 :: p1 :: rest) 3) with (nth_error rest 1) in ER.
  set (track_info := match nth_error rest 1 with
                     | Some t => Py.strip t
                     | None => ""
                     end) in ER.
  destruct (track_counts_run track_info l) as (a & b & Hab & Ha & Hb).
  assert (Hfit : match nth_error rest 1 with
                 | Some t => count_fits "ahead " (Py.strip t)
                             && count_fits "behind " (Py.strip t)
                 | None => true
                 end
                 = count_fits "ahead " track_info
                   && count_fits "behind " track_info).
  { unfold track_info. destruct (nth_error rest 1); reflexivity. }
  rewrite Hfit.
  destruct (count_fits "ahead " track_info && count_fits "behind " track_info).
  2:{ now rewrite (bind_raise _ _ _ _ Hab) in ER. }
  rewrite (bind_run _ _ _ _ _ Hab) in ER. right.
  unfold bind at 1, run_git at 1 in ER.
  destruct (run_git_result w path ["log"; "-1"; "--format=%aI"; Py.strip p1])
    as [[out2 err2] rc2].
  destruct ((rc2 =? 0) && Py.truthy out2).
  - unfold bind in ER. rewrite commit_age_days_run in ER. unfold ret in ER.
    eexists (BranchInfo.mk (Py.strip p1) _ _ _ a b _).
    split; [exact ER|].
    unfold sound_branch.
    cbn [BranchInfo.ahead BranchInfo.behind BranchInfo.name
         BranchInfo.last_commit_date BranchInfo.last_commit_age_days].
    split; [exact Ha|]. split; [exact Hb|]. split; [apply strip_idem|].
    destruct (fromisoformat w out2) as [dt|] eqn:Ep; cbn [option_map].
    + right; right. exists dt. eexists.
      split; [exact Ep | split; [reflexivity | apply elapsed_days_sign]].
    + right; left. now split.
  - unfold bind, ret in ER.
    eexists (BranchInfo.mk (Py.strip p1) _ _ _ a b _).
    split; [exact ER|].
    unfold sound_branch.
    cbn [BranchInfo.ahead BranchInfo.behind BranchInfo.name
         BranchInfo.last_commit_date BranchInfo.last_commit_age_days].
    split; [exact Ha|]. split; [exact Hb|]. split; [apply strip_idem|].
    left. now split.
Qed.

(** The loop of [get_branches]: it raises when a count of some line does
    not convert, and otherwise appends sound branches, at most one per
    line, having run one [git log] query for each, in their order. *)
Lemma branch_loop (path : Path) (lines : list string) :
  forall (bs : list BranchInfo.t) (l : Log),
    if forallb counts_convert lines then
      exists new,
        for_each lines (branch_of_line w path) bs l
        = (Some (bs ++ new)%list, (l ++ map (branch_log_cmd path) new)%list)
        /\ Forall (sound_branch w) new
        /\ (List.length new <= List.length lines)%nat
    else
      exists l', for_each lines (branch_of_line w path) bs l = (None, l').
Proof.
  induction lines as [|line lines IH]; intros bs l; cbn [for_each forallb].
  - exists []. rewrite !app_nil_r. split; [reflexivity|].
    split; [constructor | apply Nat.le_refl].
  - pose proof (branch_of_line_run path line bs l) as H.
    destruct (counts_convert line); cbn [andb].
    2:{ exists l. now rewrite (bind_raise _ _ _ _ H). }
    destruct H as [E|(br & E & Hbr)]; rewrite (bind_run _ _ _ _ _ E).
    + specialize (IH bs l). destruct (forallb counts_convert lines).
      * destruct IH as (new & E' & Hnew & Hlen).
        exists new. split; [exact E'|]. split; [exact Hnew|].
        cbn [List.length]. lia.
      * exact IH.
    + specialize (IH (bs ++ [br])%list (l ++ [branch_log_cmd path br])%list).
      destruct (forallb counts_convert lines).
      * destruct IH as (new & E' & Hnew & Hlen).
        exists (br :: new). rewrite E'. cbn [map List.length].
        rewrite <- !app_assoc. cbn [app].
        split; [reflexivity|]. split; [constructor; assumption | lia].
      * exact IH.
Qed.

(** [get_branches] on an existing path: it raises when a count of the
    listing does not convert, and otherwise returns sound branches after the
    listing query and one [git log] query per branch. *)
Lemma get_branches_run (path : Path) (l : Log) :
  if forallb counts_convert (branch_listing w path) then
    exists bs,
      get_branches w path true l
      = (Some bs,
         (l ++ git_cmd path branch_listing_args
            :: map (branch_log_cmd path) bs)%list)
      /\ Forall (sound_branch w) bs
      /\ (List.length bs <= List.length (branch_listing w path))%nat
  else exists l', get_branches w path true l = (None, l').
Proof.
  remember (get_branches w path true l) as R eqn:ER.
  unfold get_branches in ER. unfold branch_listing.
  unfold bind at 1, lift at 1 in ER. cbn beta iota in ER.
  unfold bind at 1, run_git at 1 in ER.
  fold branch_listing_args in ER.
  destruct (run_git_result w path branch_listing_args) as [[out err] rc].
  cbn [fst snd].
  destruct (negb (rc =? 0) || negb (Py.truthy out)).
  - exists []. split; [exact ER|]. split; [constructor | apply Nat.le_0_l].
  - pose proof (branch_loop path (Py.split_char LF out) []
                  (l ++ [git_cmd path branch_listing_args])%list) as H.
    rewrite <- ER in H.
    destruct (forallb counts_convert (Py.split_char LF out)).
    + destruct H as (new & E & Hnew & Hlen).
      exists new. rewrite E. cbn [app]. rewrite <- app_assoc. cbn [app].
      split; [reflexivity|]. now split.
    + exact H.
Qed.

End Branches.

(** ** Scan orchestrator *)

Lemma for_each_inv_n {A St} (I : nat -> St -> Prop)
    (body : A -> St -> Run St) (xs : list A) :
  (forall x s l n,
      I n s -> exists s' l', body x s l = (Some s', l') /\ I (S n) s') ->
  forall s l n,
    I n s ->
    exists s' l',
      for_each xs body s l = (Some s', l') /\ I (n + List.length xs)%nat s'.
Proof.
  intros Hbody. induction xs as [|x xs IH]; intros s l n Hs; simpl.
  - exists s, l. rewrite Nat.add_0_r. now split.
  - destruct (Hbody x s l n Hs) as (s1 & l1 & E & Hs1).
    rewrite (bind_run _ _ _ _ _ E).
    replace (n + S (List.length xs))%nat with (S n + List.length xs)%nat by lia.
    apply IH, Hs1.
Qed.

(** Every record falls into exactly one bucket. *)
Lemma one_bucket (r : RepoStatus) :
  b2z (is_healthy r) + b2z (is_warning r) + b2z (is_critical r)
  + b2z (errored r) = 1.
Proof.
  unfold is_healthy, is_warning, is_critical.
  destruct (errored r); simpl; [reflexivity|].
  destruct (Z.leb_spec 80 (health_score r)), (Z.leb_spec 60 (health_score r)),
    (Z.ltb_spec (health_score r) 80), (Z.ltb_spec (health_score r) 60);
    simpl; lia.
Qed.

Lemma count_app {A} (f : A -> bool) (l : list A) (x : A) :
  count f (l ++ [x]) = count f l + b2z (f x).
Proof.
  unfold count. rewrite filter_app, length_app. simpl.
  destruct (f x); simpl; lia.
Qed.

Lemma insert_repo_perm (r : RepoStatus) (l : list RepoStatus) :
  Permutation (insert_repo r l) (r :: l).
Proof.
  induction l as [|h t IH]; simpl; [reflexivity|].
  destruct (key_leb r h); [reflexivity|].
  rewrite IH. apply perm_swap.
Qed.

(** The final sort only reorders the records. *)
Lemma sort_repos_perm (l : list RepoStatus) : Permutation (sort_repos l) l.
Proof.
  induction l as [|r l IH]; simpl; [constructor|].
  rewrite insert_repo_perm. now constructor.
Qed.

Lemma count_perm {A} (f : A -> bool) (l l' : list A) :
  Permutation l l' -> count f l = count f l'.
Proof.
  intros H. unfold count. f_equal.
  induction H; simpl; try destruct (f x); try destruct (f y); simpl; lia.
Qed.

Lemma count_bucket_counted (total : Z) (n : nat) (r : RepoStatus)
    (result : ScanResult) :
  counted total n result ->
  counted total (S n) (count_bucket r (append_repo r result)).
Proof.
  intros (Ht & Hn & Hh & Hw & Hc & He).
  unfold counted, count_bucket, append_repo.
  fold (errored r).
  assert (L : List.length (repos result ++ [r]) = S n)
    by (rewrite length_app; simpl; lia).
  unfold is_healthy, is_warning, is_critical in *.
  destruct (errored r) eqn:Er; cbn [repos total_repos healthy_count
    warning_count critical_count error_count];
    [|destruct (Z.geb_spec (health_score r) 80);
      [|destruct (Z.geb_spec (health_score r) 60)]];
    cbn [repos total_repos healthy_count warning_count critical_count
         error_count];
    rewrite !count_app, Er; cbn [negb andb b2z];
    repeat split; try assumption; try lia;
    repeat match goal with
           | |- context [?a <=? ?b] => destruct (Z.leb_spec a b)
           | |- context [?a <? ?b] => destruct (Z.ltb_spec a b)
           end; cbn [andb b2z]; lia.
Qed.

Lemma get_repo_status_total (w : World) (p : Path) (l : Log) :
  exists st l', get_repo_status w p l = (Some st, l').
Proof.
  pose proof (get_repo_status_run w p l) as H.
  destruct (snd (run_git_result w p ["rev-parse"; "--git-dir"]) =? 0).
  - destruct H as (cb & d & cmds & dc & hr & url & b & a & date & msg & age
                   & tc & bc & tg & sc & E & _).
    do 2 eexists; exact E.
  - do 2 eexists; exact H.
Qed.

Lemma counts_sum (total : Z) (n : nat) (result : ScanResult) :
  counted total n result ->
  healthy_count result + warning_count result + critical_count result
  + error_count result = Z.of_nat n.
Proof.
  intros (_ & Hn & -> & -> & -> & ->). subst n.
  unfold count. induction (repos result) as [|r rs IH]; [reflexivity|].
  pose proof (one_bucket r) as B. cbn [filter].
  destruct (is_healthy r), (is_warning r), (is_critical r), (errored r);
    cbn [b2z] in B; cbn [List.length]; rewrite ?Nat2Z.inj_succ; lia.
Qed.

(** C4.  Every scan of a directory returns a result in which each of the
    four counters is the number of records of its bucket, every record is
    in exactly one bucket, and the four counters add up to [total_repos],
    which is the number of records and of located repositories, none
    included. *)
Theorem scan_buckets (w : World) (max_depth : nat) (root : Path)
    (listable : bool) (entries : list (string * node)) (l : Log) :
  exists result l',
    scan w max_depth root (Some (Dir listable entries)) l = (Some result, l')
    /\ error_count result = count errored (repos result)
    /\ healthy_count result = count is_healthy (repos result)
    /\ warning_count result = count is_warning (repos result)
    /\ critical_count result = count is_critical (repos result)
    /\ Forall (fun r => b2z (is_healthy r) + b2z (is_warning r)
                        + b2z (is_critical r) + b2z (errored r) = 1)
         (repos result)
    /\ healthy_count result + warning_count result + critical_count result
       + error_count result = total_repos result
    /\ total_repos result = Z.of_nat (List.length (repos result))
    /\ total_repos result
       = Z.of_nat (List.length
                     (find_repos max_depth root (Dir listable entries) 0)).
Proof.
  unfold scan. unfold bind at 1, lift at 1. cbn beta iota.
  unfold bind at 1, lift at 1. cbn [is_dir].
  set (paths := find_repos max_depth root (Dir listable entries) 0).
  set (total := Z.of_nat (List.length paths)).
  match goal with |- context [for_each paths ?body ?r0] =>
    destruct (for_each_inv_n (counted total) body paths) with (s := r0) (l := l)
      (n := 0%nat) as (result & l1 & E & Hres)
  end.
  - intros rp res l0 n Hres.
    destruct (get_repo_status_total w rp l0) as (st & l1 & E).
    rewrite (bind_run _ _ _ _ _ E). unfold ret.
    do 2 eexists. split; [reflexivity|]. apply count_bucket_counted, Hres.
  - unfold counted, count; simpl. repeat split; reflexivity.
  - rewrite (bind_run _ _ _ _ _ E). unfold ret.
    do 2 eexists. split; [reflexivity|].
    cbn [repos total_repos healthy_count warning_count critical_count
         error_count].
    pose proof (counts_sum _ _ _ Hres) as Hsum.
    destruct Hres as (Ht & Hn & Hh & Hw & Hc & He).
    pose proof (sort_repos_perm (repos result)) as P.
    rewrite !(count_perm _ _ _ P).
    rewrite (Permutation_length P), Hn. simpl Nat.add in *.
    repeat split; try assumption; try lia.
    apply Forall_forall. intros r _. apply one_bucket.
Qed.

(** ** Repository locator *)

(** The body of [_find_repos], as one equation. *)
Lemma find_repos_eq (max_depth : nat) (root : Path) (n : node) (depth : nat) :
  find_repos max_depth root n depth =
  if (max_depth <? depth)%nat then []
  else
    match n with
    | Dir listable entries =>
        if git_stat_fails entries then []
        else if has_git_dir entries then [root]
        else if negb listable then []
        else
          flat_map
            (fun entry =>
               if is_dir (snd entry) && descends (fst entry)
               then find_repos max_depth (path_join root (fst entry))
                      (snd entry) (S depth)
               else [])
            (reached (sorted_entries entries))
    | File | NoSearch _ | StatError => []
    end.
Proof.
  rewrite find_repos_equation_1.
  destruct (le_gt_dec depth max_depth) as [H|H]; simpl.
  - replace (max_depth <? depth)%nat with false
      by (symmetry; apply Nat.ltb_ge; lia).
    destruct n as [|listable entries|entries|]; try reflexivity. simpl.
    destruct (git_stat_fails entries); [reflexivity|].
    destruct (has_git_dir entries); [reflexivity|].
    destruct listable; [|reflexivity]. simpl.
    apply flat_map_ext. intros [nm child].
    unfold descends, in_skip_names, skip_names, skip_list. cbn [fst snd].
    match goal with
    | |- context [existsb ?f ?l] => destruct (existsb f l)
    end;
      destruct (is_dir child), (Py.startswith "." nm); reflexivity.
  - replace (max_depth <? depth)%nat with true
      by (symmetry; apply Nat.ltb_lt; lia).
    reflexivity.
Qed.

Lemma insert_entry_perm (e : string * node) (l : list (string * node)) :
  Permutation (insert_entry e l) (e :: l).
Proof.
  induction l as [|h t IH]; simpl; [reflexivity|].
  destruct (String.leb (fst e) (fst h)); [reflexivity|].
  rewrite IH. apply perm_swap.
Qed.

(** Sorting the entries only reorders them. *)
Lemma sorted_entries_perm (l : list (string * node)) :
  Permutation (sorted_entries l) l.
Proof.
  induction l as [|e l IH]; simpl; [constructor|].
  rewrite insert_entry_perm. now constructor.
Qed.

Lemma sorted_entries_In (l : list (string * node)) (e : string * node) :
  In e (sorted_entries l) <-> In e l.
Proof.
  split; apply Permutation_in;
    [apply sorted_entries_perm | symmetry; apply sorted_entries_perm].
Qed.

(** *** The marker directory *)

Lemma named_git (f : node -> bool) (entries : list (string * node)) :
  existsb (fun e => (fst e =? ".git")%string && f (snd e)) entries = true
  <-> exists g, In (".git", g) entries /\ f g = true.
Proof.
  rewrite existsb_exists. split.
  - intros ([nm g] & Hin & H). cbn [fst snd] in H.
    apply andb_true_iff in H as [Hn Hf]. apply String.eqb_eq in Hn. subst nm.
    now exists g.
  - intros (g & Hin & Hf). exists (".git", g). split; [exact Hin|].
    cbn [fst snd]. now rewrite Hf.
Qed.

Lemma named_git_false (f : node -> bool) (entries : list (string * node)) :
  existsb (fun e => (fst e =? ".git")%string && f (snd e)) entries = false
  <-> forall g, In (".git", g) entries -> f g = false.
Proof.
  split.
  - intros H g Hin. destruct (f g) eqn:E; [|reflexivity].
    assert (H' : existsb (fun e => (fst e =? ".git")%string && f (snd e))
                   entries = true)
      by (apply named_git; now exists g).
    congruence.
  - intros H.
    destruct (existsb (fun e => (fst e =? ".git")%string && f (snd e)) entries)
      eqn:E; [|reflexivity].
    apply named_git in E as (g & Hin & Hf). rewrite (H g Hin) in Hf.
    discriminate Hf.
Qed.

(** *** Where the loop gets to *)

Lemma reached_In (s : list (string * node)) (e : string * node) :
  In e (reached s) -> In e s /\ stat_fails (snd e) = false.
Proof.
  induction s as [|h t IH]; simpl; [intros []|].
  destruct (stat_fails (snd h)) eqn:E; [intros []|].
  intros [<-|H]; [split; [now left | exact E]|].
  destruct (IH H). split; [now right | assumption].
Qed.

Lemma reached_sorted (R : string * node -> string * node -> Prop)
    (s : list (string * node)) :
  StronglySorted R s -> StronglySorted R (reached s).
Proof.
  induction 1 as [|h t Ht IH Hh]; simpl; [constructor|].
  destruct (stat_fails (snd h)); [constructor|].
  constructor; [exact IH|].
  apply Forall_forall. intros x Hx. apply reached_In in Hx as [Hx _].
  rewrite Forall_forall in Hh. now apply Hh.
Qed.

(** What the loop gets to comes before every entry whose [stat] fails. *)
Lemma reached_rel (R : string * node -> string * node -> Prop)
    (s : list (string * node)) (x : string * node) :
  StronglySorted R s ->
  In x (reached s) ->
  forall e, In e s -> stat_fails (snd e) = true -> R x e.
Proof.
  induction 1 as [|h t Ht IH Hh]; simpl; [intros []|].
  destruct (stat_fails (snd h)) eqn:E; [intros []|].
  intros [<-|Hx] e [<-|He] Hf.
  - congruence.
  - rewrite Forall_forall in Hh. now apply Hh.
  - congruence.
  - now apply IH.
Qed.

(** The locator returns exactly the paths the walk leads to within
    [max_depth] levels. *)
Lemma find_repos_In (max_depth : nat) (k : nat) :
  forall (root : Path) (n : node) (depth : nat) (q : Path),
    (S max_depth - depth <= k)%nat ->
    (In q (find_repos max_depth root n depth)
     <-> exists names,
           q = (root ++ names)%list /\ walked n names
           /\ (depth + List.length names <= max_depth)%nat).
Proof.
  induction k as [|k IH]; intros root n depth q Hk; rewrite find_repos_eq.
  - replace (max_depth <? depth)%nat with true
      by (symmetry; apply Nat.ltb_lt; lia).
    split; [intros []|]. intros (names & _ & _ & H). lia.
  - destruct (Nat.ltb_spec max_depth depth) as [Hd|Hd].
    { split; [intros []|]. intros (names & _ & _ & H). lia. }
    destruct n as [|listable entries|entries|];
      try (split; [intros []|]; intros (names & _ & H & _); inversion H).
    destruct (git_stat_fails entries) eqn:Hstat.
    { split; [intros []|]. intros (names & _ & H & _).
      inversion H; congruence. }
    destruct (has_git_dir entries) eqn:Hgit.
    { split.
      - intros [<-|[]]. exists []. rewrite app_nil_r.
        repeat split; [now constructor | simpl; lia].
      - intros (names & -> & H & _). inversion H; subst; [|congruence].
        rewrite app_nil_r. now left. }
    destruct listable; cbn [negb].
    2:{ split; [intros []|]. intros (names & _ & H & _).
        inversion H; congruence. }
    rewrite in_flat_map. split.
    + intros ([nm child] & Hin & Hq). cbn [fst snd] in Hq.
      destruct (is_dir child) eqn:Hdir; [|destruct Hq].
      destruct (descends nm) eqn:Hdesc; [|destruct Hq].
      cbn [andb] in Hq.
      apply IH in Hq; [|lia].
      destruct Hq as (names & -> & Hloc & Hlen).
      exists (nm :: names). unfold path_join. rewrite <- app_assoc.
      split; [reflexivity|].
      split; [econstructor; eassumption | simpl; lia].
    + intros (names & -> & Hloc & Hlen).
      inversion Hloc; subst; [congruence|].
      exists (nm, child). split; [assumption|].
      cbn [fst snd].
      repeat match goal with
             | H : is_dir _ = true |- _ => rewrite H; clear H
             | H : descends _ = true |- _ => rewrite H; clear H
             end.
      cbn [andb].
      apply IH; [lia|]. exists rest. unfold path_join.
      rewrite <- app_assoc.
      split; [reflexivity|]. split; [assumption | simpl in Hlen; lia].
Qed.

Lemma descends_spec (nm : string) :
  descends nm = true ->
  Py.startswith "." nm = false /\ ~ In nm skip_list.
Proof.
  unfold descends.
  rewrite andb_true_iff, !negb_true_iff. intros [H1 H2].
  split; [exact H1|]. intros Hin.
  assert (E : existsb (String.eqb nm) skip_list = true)
    by (apply existsb_exists; exists nm; split; [exact Hin | apply String.eqb_refl]).
  congruence.
Qed.

(** Every name on the way to a returned repository is one the walk descends
    into. *)
Lemma walked_descends (n : node) (names : list string) :
  walked n names -> Forall (fun nm => descends nm = true) names.
Proof. induction 1; constructor; assumption. Qed.

Lemma find_repos_prefix (max_depth : nat) (root : Path) (n : node)
    (depth : nat) (q : Path) :
  In q (find_repos max_depth root n depth) ->
  exists names, q = (root ++ names)%list /\ walked n names.
Proof.
  intros H.
  apply (proj1 (find_repos_In max_depth _ root n depth q (Nat.le_refl _))) in H.
  destruct H as (names & Hq & Hloc & _). now exists names.
Qed.

(** *** Order of strings and of paths *)

Lemma ltb_lts (a b : string) : String.ltb a b = true <-> String_as_OT.lt a b.
Proof.
  unfold String.ltb. rewrite <- String_as_OT.cmp_lt. unfold String_as_OT.cmp.
  destruct (String.compare a b); split; intros; congruence.
Qed.

Lemma ltb_trans (a b c : string) :
  String.ltb a b = true -> String.ltb b c = true -> String.ltb a c = true.
Proof. rewrite !ltb_lts. apply String_as_OT.lt_trans. Qed.

Lemma leb_ltb (a b : string) :
  String.leb a b = true <-> String.ltb a b = true \/ a = b.
Proof.
  unfold String.leb, String.ltb.
  destruct (String.compare a b) eqn:E.
  - apply String.compare_eq_iff in E. tauto.
  - tauto.
  - split; [discriminate|]. intros [H| ->]; [discriminate|].
    assert (String.compare b b = Eq) by (apply String_as_OT.cmp_eq; reflexivity).
    congruence.
Qed.

Lemma leb_trans (a b c : string) :
  String.leb a b = true -> String.leb b c = true -> String.leb a c = true.
Proof.
  rewrite !leb_ltb. intros [H1| ->] [H2| ->]; auto.
  left. eapply ltb_trans; eassumption.
Qed.

Lemma path_lt_app (root a b : Path) :
  path_lt a b -> path_lt (root ++ a)%list (root ++ b)%list.
Proof.
  intros H. induction root as [|x root IH]; simpl; [exact H|].
  right. split; [reflexivity | exact IH].
Qed.

(** *** The entries as the walk visits them *)

Lemma insert_entry_sorted (e : string * node) (l : list (string * node)) :
  StronglySorted (fun a b => String.leb (fst a) (fst b) = true) l ->
  StronglySorted (fun a b => String.leb (fst a) (fst b) = true)
    (insert_entry e l).
Proof.
  induction 1 as [|h t Ht IH Hh]; simpl.
  - repeat constructor.
  - destruct (String.leb (fst e) (fst h)) eqn:E.
    + constructor; [now constructor|].
      constructor; [exact E|].
      eapply Forall_impl; [|exact Hh]. intros x Hx.
      eapply leb_trans; eassumption.
    + constructor; [exact IH|].
      apply Forall_forall. intros x Hx.
      apply (Permutation_in _ (insert_entry_perm e t)) in Hx.
      destruct Hx as [<-|Hx].
      * destruct (String.leb_total (fst e) (fst h)); congruence.
      * rewrite Forall_forall in Hh. now apply Hh.
Qed.

(** Siblings are visited in the order of their names. *)
Lemma sorted_entries_sorted (l : list (string * node)) :
  StronglySorted (fun a b => String.leb (fst a) (fst b) = true)
    (sorted_entries l).
Proof.
  induction l as [|e l IH]; simpl; [constructor|].
  now apply insert_entry_sorted.
Qed.

Lemma nodupb_NoDup (l : list string) : nodupb l = true -> NoDup l.
Proof.
  induction l as [|x r IH]; simpl; [constructor|].
  rewrite andb_true_iff, negb_true_iff. intros [Hx Hr].
  constructor; [|now apply IH].
  intros Hin.
  assert (E : existsb (String.eqb x) r = true)
    by (apply existsb_exists; exists x; split; [exact Hin | apply String.eqb_refl]).
  congruence.
Qed.

Lemma strictly_sorted (l : list (string * node)) :
  StronglySorted (fun a b => String.leb (fst a) (fst b) = true) l ->
  NoDup (map fst l) ->
  StronglySorted (fun a b => String.ltb (fst a) (fst b) = true) l.
Proof.
  induction 1 as [|h t Ht IH Hh]; simpl; intros Hnd; [constructor|].
  inversion Hnd as [|? ? Hnotin Hnd']; subst.
  constructor; [now apply IH|].
  apply Forall_forall. intros x Hx.
  rewrite Forall_forall in Hh. specialize (Hh x Hx).
  apply leb_ltb in Hh as [Hlt|Heq]; [exact Hlt|].
  exfalso. apply Hnotin. rewrite Heq. now apply in_map.
Qed.

Lemma unique_names_dir (listable : bool) (entries : list (string * node)) :
  unique_names (Dir listable entries) = true ->
  NoDup (map fst entries)
  /\ forall e, In e entries -> unique_names (snd e) = true.
Proof.
  simpl. rewrite andb_true_iff, forallb_forall. intros [H1 H2].
  split; [now apply nodupb_NoDup | exact H2].
Qed.

Lemma NoDup_fst_inj (entries : list (string * node)) (nm : string)
    (c c' : node) :
  NoDup (map fst entries) ->
  In (nm, c) entries -> In (nm, c') entries -> c = c'.
Proof.
  induction entries as [|[x y] es IH]; simpl; intros Hnd H1 H2; [destruct H1|].
  inversion Hnd as [|? ? Hnotin Hnd']; subst.
  destruct H1 as [E1|H1], H2 as [E2|H2].
  - congruence.
  - injection E1 as -> ->. exfalso. apply Hnotin.
    change nm with (fst (nm, c')). now apply in_map.
  - injection E2 as -> ->. exfalso. apply Hnotin.
    change nm with (fst (nm, c)). now apply in_map.
  - now apply IH.
Qed.

Lemma StronglySorted_app {A} (R : A -> A -> Prop) (l1 l2 : list A) :
  StronglySorted R l1 -> StronglySorted R l2 ->
  (forall a b, In a l1 -> In b l2 -> R a b) ->
  StronglySorted R (l1 ++ l2).
Proof.
  induction 1 as [|x l1 H1 IH Hx]; simpl; intros H2 Hc; [exact H2|].
  constructor.
  - apply IH; [exact H2|]. intros a b Ha Hb. apply Hc; [now right | exact Hb].
  - apply Forall_app. split; [exact Hx|].
    apply Forall_forall. intros b Hb. apply Hc; [now left | exact Hb].
Qed.

Lemma ltb_not_leb (a b : string) :
  String.ltb a b = true -> String.leb b a = true -> False.
Proof.
  unfold String.ltb, String.leb. rewrite (String.compare_antisym b a).
  destruct (String.compare a b); simpl; discriminate.
Qed.

(** *** The walk and the located repositories *)

Lemma located_walked (n : node) (names : list string) :
  located n names -> walked n names.
Proof.
  induction 1 as [listable entries g Hin Hdir Hst
                 |entries nm child rest Hgit Hin Hdir Hdesc Hbefore Hloc IH].
  - constructor.
    + apply named_git_false. exact Hst.
    + apply named_git. now exists g.
  - apply (walked_below entries nm child rest); try assumption.
    + apply named_git_false. intros g Hg. apply (Hgit g Hg).
    + apply named_git_false. intros g Hg. apply (Hgit g Hg).
    + assert (Hok : stat_fails child = false) by (destruct child; easy).
      assert (Hin' : In (nm, child) (sorted_entries entries))
        by (apply (proj2 (sorted_entries_In _ _)); exact Hin).
      assert (Hall : forall e, In e (sorted_entries entries) ->
                               stat_fails (snd e) = true ->
                               String.ltb nm (fst e) = true).
      { intros e He. apply Hbefore.
        apply (proj1 (sorted_entries_In _ _)). exact He. }
      pose proof (sorted_entries_sorted entries) as Hsorted.
      clear - Hok Hin' Hall Hsorted.
      induction Hsorted as [|h t Ht IHt Hh]; [destruct Hin'|]. simpl.
      destruct (stat_fails (snd h)) eqn:E.
      * exfalso. pose proof (Hall h (or_introl eq_refl) E) as Hlt.
        destruct Hin' as [->|Hin']; [cbn [snd] in E; congruence|].
        rewrite Forall_forall in Hh. specialize (Hh _ Hin').
        cbn [fst] in Hh. exact (ltb_not_leb _ _ Hlt Hh).
      * destruct Hin' as [->|Hin']; [now left|]. right.
        apply IHt; [exact Hin'|]. intros e He. apply Hall. now right.
Qed.

Lemma walked_located (n : node) (names : list string) :
  walked n names -> unique_names n = true -> located n names.
Proof.
  induction 1 as [listable entries Hst Hgit
                 |entries nm child rest Hst Hgit Hin Hdir Hdesc Hw IH];
    intros Hu.
  - apply named_git in Hgit as (g & Hin & Hd).
    apply (located_here listable entries g Hin Hd).
    apply named_git_false. exact Hst.
  - apply unique_names_dir in Hu as [Hnd Hch].
    pose proof (reached_In _ _ Hin) as [Hin' _].
    apply (proj1 (sorted_entries_In _ _)) in Hin'.
    apply (located_below entries nm child rest); try assumption.
    + intros g Hg. split.
      * apply (proj1 (named_git_false _ _) Hgit g Hg).
      * apply (proj1 (named_git_false _ _) Hst g Hg).
    + intros e He Hf.
      apply (reached_rel (fun a b => String.ltb (fst a) (fst b) = true)
               (sorted_entries entries) (nm, child)); try assumption.
      * apply strictly_sorted; [apply sorted_entries_sorted|].
        eapply Permutation_NoDup; [|exact Hnd].
        symmetry. apply Permutation_map, sorted_entries_perm.
      * apply (proj2 (sorted_entries_In _ _)). exact He.
    + apply IH. apply (Hch _ Hin').
Qed.

(** *** Depth-first order, siblings in the order of their names *)

Lemma find_repos_sorted (max_depth : nat) (k : nat) :
  forall (root : Path) (n : node) (depth : nat),
    (S max_depth - depth <= k)%nat ->
    unique_names n = true ->
    StronglySorted path_lt (find_repos max_depth root n depth).
Proof.
  induction k as [|k IH]; intros root n depth Hk Hu; rewrite find_repos_eq.
  - replace (max_depth <? depth)%nat with true
      by (symmetry; apply Nat.ltb_lt; lia).
    constructor.
  - destruct (max_depth <? depth)%nat eqn:Hd; [constructor|].
    apply Nat.ltb_ge in Hd.
    destruct n as [|listable entries|entries|]; try constructor.
    destruct (git_stat_fails entries); [constructor|].
    destruct (has_git_dir entries); [repeat constructor|].
    destruct listable; cbn [negb]; [|constructor].
    apply unique_names_dir in Hu as [Hnd Hch].
    assert (Hs : StronglySorted
                   (fun a b => String.ltb (fst a) (fst b) = true)
                   (reached (sorted_entries entries))).
    { apply reached_sorted.
      apply strictly_sorted; [apply sorted_entries_sorted|].
      eapply Permutation_NoDup; [|exact Hnd].
      symmetry. apply Permutation_map, sorted_entries_perm. }
    assert (Hch' : forall e, In e (reached (sorted_entries entries)) ->
                             unique_names (snd e) = true).
    { intros e He. apply Hch. apply reached_In in He as [He _].
      now apply (proj1 (sorted_entries_In _ _)). }
    clear Hnd Hch.
    induction Hs as [|e es Hes IHes He]; simpl; [constructor|].
    apply StronglySorted_app.
    + destruct (is_dir (snd e) && descends (fst e)); [|constructor].
      apply IH; [lia|]. apply Hch'. now left.
    + apply IHes. intros e' He'. apply Hch'. now right.
    + intros a b Ha Hb.
      destruct (is_dir (snd e) && descends (fst e)); [|destruct Ha].
      apply find_repos_prefix in Ha as (na & -> & _).
      apply in_flat_map in Hb as (e' & He' & Hb).
      destruct (is_dir (snd e') && descends (fst e')); [|destruct Hb].
      apply find_repos_prefix in Hb as (nb & -> & _).
      unfold path_join. rewrite <- !app_assoc.
      apply path_lt_app. simpl. left.
      rewrite Forall_forall in He. now apply He.
Qed.

(** *** No root below a root *)

Lemma walked_not_below (n : node) (names : list string) :
  walked n names ->
  unique_names n = true ->
  forall x more, ~ walked n (names ++ x :: more).
Proof.
  induction 1 as [listable entries Hst Hgit
                 |entries nm child rest Hst Hgit Hin Hdir Hdesc Hw IH];
    intros Hu x more H'.
  - simpl in H'. inversion H'; congruence.
  - apply unique_names_dir in Hu as [Hnd Hch].
    simpl in H'. inversion H' as [|? ? child' ? ? ? Hin' ? ? Hw']; subst.
    apply reached_In in Hin as [Hin _]. apply reached_In in Hin' as [Hin' _].
    apply (proj1 (sorted_entries_In _ _)) in Hin.
    apply (proj1 (sorted_entries_In _ _)) in Hin'.
    assert (child' = child) by (eapply NoDup_fst_inj; eassumption). subst.
    apply (IH (Hch _ Hin) x more Hw').
Qed.

(** *** After a failure *)

(** Nothing is returned from under an entry that comes, in the order of
    names, after an entry whose [stat] fails. *)
Lemma after_failure_lost (max_depth : nat) (r : Path)
    (entries : list (string * node)) (depth : nat) (e : string * node)
    (nm : string) (rest : list string) :
  In e entries -> stat_fails (snd e) = true ->
  String.ltb (fst e) nm = true ->
  ~ In (r ++ nm :: rest)%list
       (find_repos max_depth r (Dir true entries) depth).
Proof.
  intros He Hf Hlt Hin.
  apply find_repos_prefix in Hin as (names & E & Hw).
  apply app_inv_head in E. subst names.
  inversion Hw as [|? ? child ? ? ? Hreached]; subst.
  pose proof (reached_rel (fun a b => String.leb (fst a) (fst b) = true)
                (sorted_entries entries) (nm, child)
                (sorted_entries_sorted entries) Hreached e
                (proj2 (sorted_entries_In _ _) He) Hf) as Hle.
  exact (ltb_not_leb _ _ Hlt Hle).
Qed.

(** C6, amended.  For every directory tree, root path and maximum depth.
    When names are unique within each directory, the locator returns
    exactly the paths that lead, within [max_depth] levels, to a directory
    in which the marker directory is seen, through listable directories in
    which it is seen not to be, by names that neither start with a dot nor
    are on the skip-list and that come, in the order of names, before every
    entry of their directory whose [stat] fails; such paths are returned
    whether names are unique or not, a root at depth exactly [max_depth]
    included.  A directory in which the marker is seen yields itself and
    nothing below it; no name on a returned path starts with a dot or is on
    the skip-list; nothing is returned from beyond [max_depth].  A
    directory that cannot be listed, a directory without search permission,
    even one that holds the marker, and a directory where [stat] on the
    marker fails yield nothing; an entry whose [stat] fails ends the visit
    of its directory, so that nothing is returned from under the entries
    that come after it; what was found before is kept and the walk goes on
    with the siblings of the directory.  When names are unique within each
    directory, the result is in depth-first order with siblings in the
    order of their names, and no returned root lies below another. *)
Theorem find_repos_spec (max_depth : nat) (root : Path) (n : node) :
  (unique_names n = true ->
   forall q,
     In q (find_repos max_depth root n 0)
     <-> exists names,
           q = (root ++ names)%list /\ located n names
           /\ (List.length names <= max_depth)%nat)
  /\ (forall names,
        located n names -> (List.length names <= max_depth)%nat ->
        In (root ++ names)%list (find_repos max_depth root n 0))
  /\ (forall r listable entries g depth,
        In (".git", g) entries -> is_dir g = true ->
        (forall g', In (".git", g') entries -> stat_fails g' = false) ->
        (depth <= max_depth)%nat ->
        find_repos max_depth r (Dir listable entries) depth = [r])
  /\ (forall names,
        In (root ++ names)%list (find_repos max_depth root n 0) ->
        Forall (fun nm => Py.startswith "." nm = false /\ ~ In nm skip_list)
          names)
  /\ (forall r m depth,
        (max_depth < depth)%nat -> find_repos max_depth r m depth = [])
  /\ (forall r entries depth,
        (forall g, In (".git", g) entries -> is_dir g = false) ->
        find_repos max_depth r (Dir false entries) depth = [])
  /\ (forall r entries depth,
        find_repos max_depth r (NoSearch entries) depth = [])
  /\ (forall r listable entries g depth,
        In (".git", g) entries -> stat_fails g = true ->
        find_repos max_depth r (Dir listable entries) depth = [])
  /\ (forall r entries depth e nm rest,
        In e entries -> stat_fails (snd e) = true ->
        String.ltb (fst e) nm = true ->
        ~ In (r ++ nm :: rest)%list
             (find_repos max_depth r (Dir true entries) depth))
  /\ (unique_names n = true ->
      StronglySorted path_lt (find_repos max_depth root n 0)
      /\ forall q x more,
           In q (find_repos max_depth root n 0) ->
           ~ In (q ++ x :: more)%list (find_repos max_depth root n 0)).
Proof.
  assert (Hin : forall q,
      In q (find_repos max_depth root n 0)
      <-> exists names,
            q = (root ++ names)%list /\ walked n names
            /\ (List.length names <= max_depth)%nat).
  { intros q.
    apply (find_repos_In max_depth (S max_depth) root n 0 q (Nat.le_refl _)). }
  split.
  { intros Hu q. rewrite Hin. split; intros (names & Hq & Hw & Hlen);
      exists names; (split; [exact Hq|]); (split; [|exact Hlen]).
    - now apply walked_located.
    - now apply located_walked. }
  split.
  { intros names Hloc Hlen. apply Hin. exists names.
    split; [reflexivity|]. split; [now apply located_walked | exact Hlen]. }
  split.
  { intros r listable entries g depth Hg Hd Hst Hdepth. rewrite find_repos_eq.
    replace (max_depth <? depth)%nat with false
      by (symmetry; apply Nat.ltb_ge; lia).
    replace (git_stat_fails entries) with false
      by (symmetry; apply named_git_false; exact Hst).
    replace (has_git_dir entries) with true
      by (symmetry; apply named_git; now exists g).
    reflexivity. }
  split.
  { intros names H. apply Hin in H as (names' & E & Hw & _).
    apply app_inv_head in E. subst names'.
    eapply Forall_impl; [|apply (walked_descends n); exact Hw].
    intros nm. apply descends_spec. }
  split.
  { intros r m depth Hd. rewrite find_repos_eq.
    replace (max_depth <? depth)%nat with true
      by (symmetry; apply Nat.ltb_lt; lia).
    reflexivity. }
  split.
  { intros r entries depth Hgit. rewrite find_repos_eq.
    replace (has_git_dir entries) with false
      by (symmetry; apply named_git_false; exact Hgit).
    destruct (max_depth <? depth)%nat, (git_stat_fails entries); reflexivity. }
  split.
  { intros r entries depth. rewrite find_repos_eq.
    destruct (max_depth <? depth)%nat; reflexivity. }
  split.
  { intros r listable entries g depth Hg Hf. rewrite find_repos_eq.
    replace (git_stat_fails entries) with true
      by (symmetry; apply named_git; now exists g).
    destruct (max_depth <? depth)%nat; reflexivity. }
  split.
  { intros r entries depth e nm rest. apply after_failure_lost. }
  intros Hu. split.
  - apply (find_repos_sorted max_depth (S max_depth)); [lia | exact Hu].
  - intros q x more Hq Hq'.
    apply Hin in Hq as (names & -> & Hw & _).
    apply Hin in Hq' as (names' & E & Hw' & _).
    rewrite <- app_assoc in E. apply app_inv_head in E. subst names'.
    exact (walked_not_below n names Hw Hu x more Hw').
Qed.

(** ** The model on concrete inputs *)

(** The two scenarios the specification works out. *)
Example scenario_no_remote :
  calculate_health
    (set_last_commit_age_days 1
       (set_total_commits 10 (new_RepoStatus "r" "/r")))
  = (85, "B", ["No remote configured"]).
Proof. reflexivity. Qed.

Example scenario_compound :
  calculate_health
    (set_stash_count 2
       (set_last_commit_age_days 50
          (set_untracked_count 5
             (set_modified_count 3
                (set_total_commits 10 (new_RepoStatus "r" "/r"))))))
  = (57, "F",
     ["No remote configured"; "3 uncommitted change(s)"; "5 untracked file(s)";
      "Stale: 50 days since last commit"; "2 stash(es) pending"]).
Proof. reflexivity. Qed.

(** Every penalty at once: the sum is 128 and the score stops at 0. *)
Lemma calculate_health_spec_witness :
  every_penalty worst_status = true
  /\ fst (fst (calculate_health worst_status)) = 0
  /\ snd (fst (calculate_health worst_status)) = "F".
Proof.
  split; [reflexivity|].
  pose proof (calculate_health_spec worst_status) as H.
  destruct (calculate_health worst_status) as [[score grade] iss].
  destruct H as (_ & _ & _ & _ & Hall & _).
  exact (Hall eq_refl).
Defined.

(** A path staged and then modified again counts in both. *)
Lemma classify_line_spec_witness :
  exists s',
    classify_line "MM a.txt" (new_RepoStatus "r" "/r") [] = (Some s', [])
    /\ staged_count s' = 1 /\ modified_count s' = 1.
Proof.
  destruct (classify_line_spec "M" "M" " a.txt" (new_RepoStatus "r" "/r") [])
    as (s' & E & _ & _ & _ & H).
  exists s'. split; [exact E|].
  destruct H as ((Hs & _) & (Hm & _) & _).
  - intros [H _]; discriminate H.
  - intros [H|[H|[[H _]|[H _]]]]; discriminate H.
  - split; [apply Hs; simpl; auto | apply Hm; reflexivity].
Defined.

(** C2, on a working tree whose only change is a modified [a.txt]: git
    lists [ M a.txt], and the step counts one staged and no modified
    path. *)
Lemma porcelain_first_line_shift_witness :
  Py.isspace "M" = false /\ Py.isspace "a" = false
  /\ subprocess_run
       (sample_world
          (repo_answers " M a.txt
" "0	0" "2025-12-25T10:00:00+00:00|||Init"))
       (git_cmd sample_path ["status"; "--porcelain=v1"])
     = Completed " M a.txt
" "" 0
  /\ option_map (fun st => (staged_count st, modified_count st))
       (fst (step_porcelain
               (sample_world
                  (repo_answers " M a.txt
" "0	0" "2025-12-25T10:00:00+00:00|||Init"))
               sample_path (new_RepoStatus "proj" "/home/u/proj") []))
     = Some (1, 0).
Proof.
  split; [reflexivity|]. split; [reflexivity|]. split; [reflexivity|].
  destruct (porcelain_first_line_shift
              (sample_world
                 (repo_answers " M a.txt
" "0	0" "2025-12-25T10:00:00+00:00|||Init"))
              sample_path "M" "a" ".txt
" "" (new_RepoStatus "proj" "/home/u/proj") [] eq_refl eq_refl eq_refl)
    as (_ & E & _).
  rewrite E. reflexivity.
Defined.

(** The same through the whole extractor: the parser reads [M] and a blank
    where git wrote a blank and [M]; in second place the same line counts
    as a modified path. *)
Example first_line_after_strip :
  option_map (fun st => (staged_count st, modified_count st))
    (fst (get_repo_status
            (sample_world
               (repo_answers " M a.txt
" "0	0" "2025-12-25T10:00:00+00:00|||Init"))
            sample_path []))
  = Some (1, 0)
  /\ option_map (fun st => (staged_count st, modified_count st))
       (fst (get_repo_status
               (sample_world
                  (repo_answers "?? b.txt
 M a.txt
" "0	0" "2025-12-25T10:00:00+00:00|||Init"))
               sample_path []))
     = Some (0, 1).
Proof. vm_compute. split; reflexivity. Qed.

(** C3, counterexample.  A clean repository with a remote, ten commits, a
    six-day-old last commit, no stash and an attached HEAD, but two commits
    behind its upstream: everything the claim asks for holds, and the score
    is 90 with one issue. *)
Lemma perfect_health_counterexample :
  exists st l',
    get_repo_status
      (sample_world
         (repo_answers "" "2	0" "2025-12-25T10:00:00+00:00|||Init"))
      sample_path [] = (Some st, l')
    /\ (has_remote st = true /\ total_commits st > 0
        /\ last_commit_age_days st <= 30
        /\ staged_count st = 0 /\ modified_count st = 0
        /\ untracked_count st = 0 /\ deleted_count st = 0
        /\ is_dirty st = false /\ conflict_count st = 0
        /\ is_detached st = false /\ stash_count st = 0)
    /\ ~ (fst (fst (calculate_health st)) = 100
          /\ snd (calculate_health st) = []).
Proof.
  do 2 eexists. split; [vm_compute; reflexivity|].
  split; [vm_compute; intuition congruence|].
  vm_compute. intros [H _]. discriminate H.
Qed.

(** C7.  The ahead/behind query answers [3 x]: two fields, the first an
    integer, the second not.  The conversion of the second field fails after
    the first was stored, and [behind] is left at 3 instead of 0. *)
Lemma ahead_behind_partial_update :
  Py.split_ws "3 x" = ["3"; "x"]
  /\ Py.int "3" = Some 3 /\ Py.int "x" = None
  /\ option_map (fun st => (behind st, ahead st, issues st))
       (fst (get_repo_status
               (sample_world
                  (repo_answers "" "3 x" "2025-12-25T10:00:00+00:00|||Init"))
               sample_path []))
     = Some (3, 0, ["3 commit(s) behind remote"]).
Proof. vm_compute. repeat split; reflexivity. Qed.

(** C8, on a path where git answers that there is no repository. *)
Lemma invalid_repo_spec_witness :
  snd (run_git_result (sample_world []) sample_path ["rev-parse"; "--git-dir"])
  <> 0
  /\ get_repo_status (sample_world []) sample_path []
     = (Some (invalid_repo sample_path "fatal: not a git repository"),
        [["git"; "-C"; "/home/u/proj"; "rev-parse"; "--git-dir"]]).
Proof.
  assert (H : snd (run_git_result (sample_world []) sample_path
                     ["rev-parse"; "--git-dir"]) <> 0)
    by (vm_compute; discriminate).
  split; [exact H|].
  destruct (invalid_repo_spec (sample_world []) sample_path []) as [Hfail _].
  destruct (Hfail H) as [E _]. rewrite E. reflexivity.
Defined.

(** C9, counterexample.  The clock stands at 2026-01-01 and the last commit
    is dated 2030-01-01: the date parses and the age is -1461 days, in the
    status as in the branch record. *)
Lemma commit_age_counterexample :
  StrictIso.parse "2030-01-01T00:00:00+00:00"
  = Some {| year := 2030; month := 1; day := 1; hour := 0; minute := 0;
            second := 0; microsecond := 0; tzinfo := Some utc |}
  /\ option_map last_commit_age_days
       (fst (get_repo_status
               (sample_world
                  (repo_answers "" "0	0" "2030-01-01T00:00:00+00:00|||Later"))
               sample_path []))
     = Some (-1461)
  /\ option_map (map BranchInfo.last_commit_age_days)
       (fst (get_branches
               (sample_world
                  [(["branch"; "-vv"; "--format";
                     "%(HEAD)|||%(refname:short)|||%(upstream:short)|||%(upstream:track)"],
                    "*|||main|||origin/main|||[ahead 2]");
                   (["log"; "-1"; "--format=%aI"; "main"],
                    "2030-01-01T00:00:00+00:00")])
               sample_path true []))
     = Some [-1461]
  /\ ~ 0 <= -1461.
Proof. vm_compute. repeat split; try reflexivity. intros H; apply H; reflexivity. Qed.

(** C9, amended.  Every status and every branch record carries as age
    either 0, when there was no date to parse or the date did not parse, or
    the floor of the days elapsed from the commit (read as UTC when it has
    no offset) to the clock's UTC reading; that age is non-negative exactly
    when the commit is not later than the reading, and negative otherwise.
    The extractor always returns its record; the branch analyzer returns
    its records unless a count of the listing has more than 4300 digits, in
    which case [int] raises and there is no record. *)
Theorem commit_age_floor (w : World) (p path : Path) (l : Log) :
  (exists st l',
      get_repo_status w p l = (Some st, l')
      /\ age_recorded w (last_commit_date st) (last_commit_age_days st))
  /\ (forallb counts_convert (branch_listing w path) = true ->
      exists bs l',
        get_branches w path true l = (Some bs, l')
        /\ Forall (fun br => age_recorded w (BranchInfo.last_commit_date br)
                               (BranchInfo.last_commit_age_days br)) bs)
  /\ (forallb counts_convert (branch_listing w path) = false ->
      exists l', get_branches w path true l = (None, l')).
Proof.
  split; [apply status_age_recorded|].
  pose proof (get_branches_run w path l) as H.
  split; intros Hc; rewrite Hc in H.
  - destruct H as (bs & E & Hbs & _). do 2 eexists. split; [exact E|].
    eapply Forall_impl; [|exact Hbs]. intros br (_ & _ & _ & Hage). exact Hage.
  - exact H.
Qed.

(** C9, on a listing with one branch, two ahead, last committed a week
    before the clock's reading. *)
Lemma commit_age_floor_witness :
  forallb counts_convert
    (branch_listing
       (sample_world
          [(branch_listing_args, "*|||main|||origin/main|||[ahead 2]");
           (["log"; "-1"; "--format=%aI"; "main"],
            "2025-12-25T00:00:00+00:00")])
       sample_path) = true
  /\ exists bs l',
       get_branches
         (sample_world
            [(branch_listing_args, "*|||main|||origin/main|||[ahead 2]");
             (["log"; "-1"; "--format=%aI"; "main"],
              "2025-12-25T00:00:00+00:00")])
         sample_path true [] = (Some bs, l')
       /\ map BranchInfo.last_commit_age_days bs = [7].
Proof.
  split; [reflexivity|].
  destruct (commit_age_floor
              (sample_world
                 [(branch_listing_args, "*|||main|||origin/main|||[ahead 2]");
                  (["log"; "-1"; "--format=%aI"; "main"],
                   "2025-12-25T00:00:00+00:00")])
              sample_path sample_path []) as (_ & H & _).
  destruct (H eq_refl) as (bs & l' & E & _).
  exists bs, l'. split; [exact E|].
  vm_compute in E. injection E as <- _. reflexivity.
Defined.

(** C6, counterexample.  In the tree with failures, [work/c] and
    [alpha/sealed] hold the marker directory and are reached by names the
    walk descends into, through listable directories without the marker,
    within three levels; neither is returned: the first comes after an entry
    whose [stat] fails, the second cannot be searched.  And the directory
    [work], in which the enumeration fails, still contributes [work/a]. *)
Lemma find_repos_counterexample :
  find_repos 3 ["r"] faulty_tree 0
  = [["r"; "alpha"; "app"]; ["r"; "work"; "a"]; ["r"; "zeta"]]
  /\ claimed faulty_tree ["work"; "c"]
  /\ ~ In ["r"; "work"; "c"] (find_repos 3 ["r"] faulty_tree 0)
  /\ claimed faulty_tree ["alpha"; "sealed"]
  /\ ~ In ["r"; "alpha"; "sealed"] (find_repos 3 ["r"] faulty_tree 0).
Proof.
  assert (E : find_repos 3 ["r"] faulty_tree 0
              = [["r"; "alpha"; "app"]; ["r"; "work"; "a"]; ["r"; "zeta"]])
    by reflexivity.
  assert (Hno : forall (entries : list (string * node)),
             forallb (fun e => negb (fst e =? ".git")%string) entries = true ->
             forall g, In (".git", g) entries -> is_dir g = false).
  { intros entries Hall g Hin. rewrite forallb_forall in Hall.
    specialize (Hall _ Hin). discriminate Hall. }
  split; [exact E|]. rewrite E.
  split; [|split; [|split]].
  - apply (claimed_below _ "work"
             (Dir true [("c", repo_dir []); ("b", StatError);
                        ("a", repo_dir [])]));
      [apply Hno; reflexivity | simpl; tauto | reflexivity | reflexivity|].
    apply (claimed_below _ "c" (repo_dir []));
      [apply Hno; reflexivity | simpl; tauto | reflexivity | reflexivity|].
    apply (claimed_here _ (Dir true [])); [simpl; tauto | reflexivity].
  - intros [H|[H|[H|[]]]]; discriminate H.
  - apply (claimed_below _ "alpha"
             (Dir true
                [("sealed", NoSearch [(".git", Dir true [])]);
                 ("node_modules", Dir true [("dep", repo_dir [])]);
                 ("locked", Dir false [("x", repo_dir [])]);
                 ("app", repo_dir [])]));
      [apply Hno; reflexivity | simpl; tauto | reflexivity | reflexivity|].
    apply (claimed_below _ "sealed" (NoSearch [(".git", Dir true [])]));
      [apply Hno; reflexivity | simpl; tauto | reflexivity | reflexivity|].
    apply (claimed_here _ (Dir true [])); [simpl; tauto | reflexivity].
  - intros [H|[H|[H|[]]]]; discriminate H.
Qed.

(** C6, amended, on the tree with failures and [max_depth = 3]: names are
    unique, the result is in order, and it holds the roots before the
    failure and outside the skipped, hidden, unlistable and unsearchable
    directories; [work/a] is located and [work/c] is not. *)
Lemma find_repos_spec_witness :
  unique_names faulty_tree = true
  /\ StronglySorted path_lt (find_repos 3 ["r"] faulty_tree 0)
  /\ find_repos 3 ["r"] faulty_tree 0
     = [["r"; "alpha"; "app"]; ["r"; "work"; "a"]; ["r"; "zeta"]]
  /\ located faulty_tree ["work"; "a"]
  /\ ~ located faulty_tree ["work"; "c"].
Proof.
  split; [reflexivity|].
  assert (E : find_repos 3 ["r"] faulty_tree 0
              = [["r"; "alpha"; "app"]; ["r"; "work"; "a"]; ["r"; "zeta"]])
    by reflexivity.
  destruct (find_repos_spec 3 ["r"] faulty_tree)
    as (Hiff & _ & _ & _ & _ & _ & _ & _ & _ & H).
  destruct (H eq_refl) as [Hsorted _].
  split; [exact Hsorted|]. split; [exact E|].
  split.
  - destruct (proj1 (Hiff eq_refl ["r"; "work"; "a"]))
      as (names & En & Hloc & _).
    + rewrite E. right; left; reflexivity.
    + injection En as <-. exact Hloc.
  - intros Hloc.
    assert (Hin : In ["r"; "work"; "c"] (find_repos 3 ["r"] faulty_tree 0)).
    { apply (proj2 (Hiff eq_refl ["r"; "work"; "c"])).
      exists ["work"; "c"]. split; [reflexivity|].
      split; [exact Hloc | simpl; lia]. }
    rewrite E in Hin.
    destruct Hin as [Hin|[Hin|[Hin|[]]]]; discriminate Hin.
Defined.

(** * Further properties *)

(** ** Command runner *)

(** X1.  [_run_git] always returns, having run exactly one command.  The
    output it returns carries no white space at either end, and the code it
    returns is 0 only when the process completed with code 0: a time-out, a
    missing executable or any other failure to launch never passes for a
    success. *)
Theorem run_git_spec (w : World) (p : Path) (args : list string) (l : Log) :
  exists out err rc,
    run_git w p args l = (Some (out, err, rc), (l ++ [git_cmd p args])%list)
    /\ Py.strip out = out
    /\ (rc = 0 ->
        exists o e,
          subprocess_run w (git_cmd p args) = Completed o e 0
          /\ out = Py.strip o /\ err = Py.strip e)
    /\ (subprocess_run w (git_cmd p args) = FileNotFoundError -> rc = 127).
Proof.
  unfold run_git, run_git_result.
  destruct (subprocess_run w (git_cmd p args)) as [o e rc| | |m];
    do 3 eexists; (split; [reflexivity|]); (split; [|split]);
    try apply strip_idem; try reflexivity; try discriminate.
  intros ->. now exists o, e.
Qed.

(** ** Status extractor: what every returned record satisfies *)

Lemma slice_to_length (n : nat) (s : string) :
  (String.length (Py.slice_to n s) <= n)%nat.
Proof.
  unfold Py.slice_to. revert s.
  induction n as [|n IH]; intros [|c r]; simpl; try lia.
  specialize (IH r). lia.
Qed.

Section Fields.

Variable w : World.
Variable p : Path.

Tactic Notation "query" constr(args) "as" ident(out) ident(err) ident(rc) :=
  unfold bind at 1, run_git at 1;
  destruct (run_git_result w p args) as [[out err] rc];
  cbn beta iota.

Lemma step_branch_named (s : RepoStatus) (l : Log) :
  is_detached s = false ->
  exists cb d l',
    step_branch w p s l
    = (Some (set_is_detached d (set_current_branch cb s)), l')
    /\ cb <> ""
    /\ (d = true -> exists x, cb = "(detached at " ++ x ++ ")").
Proof.
  intros Hs. unfold step_branch.
  query ["branch"; "--show-current"] as out err rc.
  destruct ((rc =? 0) && Py.truthy out) eqn:E.
  - exists out, false. eexists.
    split; [destruct s; cbn in Hs; subst; reflexivity|].
    apply andb_true_iff in E as [_ E].
    split; [intros ->; discriminate E | discriminate].
  - query ["rev-parse"; "--short"; "HEAD"] as out0 err0 rc0.
    destruct (rc0 =? 0).
    + exists ("(detached at " ++ out0 ++ ")"), true. eexists.
      split; [reflexivity|]. split; [discriminate|].
      intros _; now exists out0.
    + exists "(unknown)", false. eexists.
      split; [destruct s; cbn in Hs; subst; reflexivity|].
      split; discriminate.
Qed.

Lemma step_remote_url (s : RepoStatus) (l : Log) :
  exists hr url l',
    step_remote w p s l
    = (Some (set_remote_url url (set_has_remote hr s)), l')
    /\ (hr = false -> url = remote_url s).
Proof.
  unfold step_remote.
  query ["remote"; "-v"] as out err rc.
  destruct ((rc =? 0) && Py.truthy out);
    [|exists false, (remote_url s); eexists;
      split; [destruct s; reflexivity | reflexivity]].
  destruct (Py.split_char LF out) as [|line0 rest];
    [exists true, (remote_url s); eexists;
     split; [destruct s; reflexivity | discriminate]|].
  destruct (Py.split_ws line0) as [|a [|b parts]];
    [exists true, (remote_url s); eexists;
     split; [destruct s; reflexivity | discriminate] ..|].
  exists true, b. eexists. rewrite length_geb_2.
  split; [reflexivity | discriminate].
Qed.

Lemma step_last_commit_short (s : RepoStatus) (l : Log) :
  exists date msg age l',
    step_last_commit w p s l
    = (Some (set_last_commit_age_days age
               (set_last_commit_message msg (set_last_commit_date date s))),
       l')
    /\ (msg = last_commit_message s \/ (String.length msg <= 120)%nat).
Proof.
  unfold step_last_commit.
  query ["log"; "-1"; "--format=%aI|||%s"] as out err rc.
  assert (Hsame : exists date msg age l',
    (Some s, (l ++ [git_cmd p ["log"; "-1"; "--format=%aI|||%s"]])%list)
    = (Some (set_last_commit_age_days age
               (set_last_commit_message msg (set_last_commit_date date s))),
       l')
    /\ (msg = last_commit_message s \/ (String.length msg <= 120)%nat)).
  { exists (last_commit_date s), (last_commit_message s),
      (last_commit_age_days s). eexists.
    split; [destruct s; reflexivity | now left]. }
  destruct ((rc =? 0) && Py.truthy out); [|exact Hsame].
  destruct (Py.split_once "|||" out) as [|p0 [|p1 [|p2 rest]]];
    try exact Hsame; [|rewrite length_eqb_2; exact Hsame].
  unfold bind, lift; cbn [nth_error List.length Z.of_nat Z.eqb Pos.eqb
                          Pos.of_succ_nat Pos.succ].
  rewrite commit_age_days_run.
  destruct (fromisoformat w p0) as [dt|]; cbn [option_map].
  - do 4 eexists. split; [reflexivity|]. right. apply slice_to_length.
  - exists p0, (Py.slice_to 120 p1), (last_commit_age_days s). eexists.
    split; [destruct s; reflexivity|]. right. apply slice_to_length.
Qed.

Lemma step_branch_count_nonneg (s : RepoStatus) (l : Log) :
  exists n l',
    step_branch_count w p s l = (Some (set_branch_count n s), l')
    /\ (n = branch_count s \/ 0 <= n).
Proof.
  unfold step_branch_count.
  query ["branch"; "--list"] as out err rc.
  destruct ((rc =? 0) && Py.truthy out).
  - do 2 eexists. split; [reflexivity|]. right. apply count_lines_nonneg.
  - exists (branch_count s). eexists.
    split; [destruct s; reflexivity | now left].
Qed.

Lemma step_tag_count_nonneg (s : RepoStatus) (l : Log) :
  exists n l',
    step_tag_count w p s l = (Some (set_tag_count n s), l')
    /\ (n = tag_count s \/ 0 <= n).
Proof.
  unfold step_tag_count.
  query ["tag"; "--list"] as out err rc.
  destruct ((rc =? 0) && Py.truthy out).
  - do 2 eexists. split; [reflexivity|]. right. apply count_lines_nonneg.
  - exists (tag_count s). eexists.
    split; [destruct s; reflexivity | now left].
Qed.

End Fields.

Section Records.

Variable w : World.
Variable p : Path.

(** What a successful extraction puts in the fields besides what the
    queries answered. *)
Lemma get_repo_status_fields (l : Log) :
  snd (run_git_result w p ["rev-parse"; "--git-dir"]) = 0 ->
  exists cb d dc hr url b a date msg age tc bc tg sc l',
    get_repo_status w p l
    = (Some (extracted p cb d dc hr url b a date msg age tc bc tg sc), l')
    /\ counts_nonneg dc /\ 0 <= sc /\ 0 <= bc /\ 0 <= tg
    /\ cb <> ""
    /\ (d = true -> exists x, cb = "(detached at " ++ x ++ ")")
    /\ (hr = false -> url = "")
    /\ (hr && negb d = false -> b = 0 /\ a = 0)
    /\ (String.length msg <= 120)%nat.
Proof.
  intros Hrc.
  assert (Hstart : forall k : string * string * Z -> Run RepoStatus,
             bind (run_git w p ["rev-parse"; "--git-dir"]) k l
             = k (run_git_result w p ["rev-parse"; "--git-dir"])
                 (l ++ [git_cmd p ["rev-parse"; "--git-dir"]])%list)
    by reflexivity.
  unfold get_repo_status. rewrite Hstart. clear Hstart.
  destruct (run_git_result w p ["rev-parse"; "--git-dir"]) as [[o e] rc].
  cbn [snd] in Hrc. subst rc. cbn [Z.eqb negb].
  set (s0 := new_RepoStatus (path_name p) (path_str p)).
  match goal with |- context [bind (step_branch w p s0) _ ?l'] =>
    destruct (step_branch_named w p s0 l' eq_refl)
      as (cb & d & l1 & E1 & Hcb & Hd) end.
  rewrite (bind_run _ _ _ _ _ E1). clear E1.
  set (s1 := set_is_detached d (set_current_branch cb s0)).
  destruct (step_porcelain_run w p s1 l1) as (dc & E2 & Hdc).
  rewrite (bind_run _ _ _ _ _ E2). clear E2.
  unfold bind at 1, step_dirty at 1, ret at 1. cbn beta iota.
  match goal with |- context [bind (step_remote w p ?s) _ ?l'] =>
    set (s3 := s);
    destruct (step_remote_url w p s3 l') as (hr & url & l3 & E3 & Hurl) end.
  rewrite (bind_run _ _ _ _ _ E3). clear E3.
  set (s4 := set_remote_url url (set_has_remote hr s3)).
  assert (E4 : exists b a l4,
    step_ahead_behind w p s4 l3 = (Some (set_ahead a (set_behind b s4)), l4)
    /\ (hr && negb d = false -> b = 0 /\ a = 0)).
  { pose proof (step_ahead_behind_run w p s4 l3) as H.
    change (has_remote s4) with hr in H. change (is_detached s4) with d in H.
    destruct (hr && negb d).
    - destruct H as (b & a & H & _). exists b, a. eexists.
      split; [exact H | discriminate].
    - exists 0, 0, l3. split; [exact H | now split]. }
  destruct E4 as (b & a & l4 & E4 & Hab).
  rewrite (bind_run _ _ _ _ _ E4). clear E4.
  match goal with |- context [bind (step_last_commit w p ?s) _ ?l'] =>
    set (s5 := s);
    destruct (step_last_commit_short w p s5 l')
      as (date & msg & age & l5 & E5 & Hmsg) end.
  rewrite (bind_run _ _ _ _ _ E5). clear E5.
  match goal with |- context [bind (step_total_commits w p ?s) _ ?l'] =>
    set (s6 := s);
    destruct (step_total_commits_run w p s6 l') as (tc & E6) end.
  rewrite (bind_run _ _ _ _ _ E6). clear E6.
  match goal with |- context [bind (step_branch_count w p ?s) _ ?l'] =>
    set (s7 := s);
    destruct (step_branch_count_nonneg w p s7 l') as (bc & l7 & E7 & Hbc) end.
  rewrite (bind_run _ _ _ _ _ E7). clear E7.
  match goal with |- context [bind (step_tag_count w p ?s) _ ?l'] =>
    set (s8 := s);
    destruct (step_tag_count_nonneg w p s8 l') as (tg & l8 & E8 & Htg) end.
  rewrite (bind_run _ _ _ _ _ E8). clear E8.
  match goal with |- context [bind (step_stash_count w p ?s) _ ?l'] =>
    set (s9 := s);
    destruct (step_stash_count_run w p s9 l') as (sc & E9 & Hsc) end.
  rewrite (bind_run _ _ _ _ _ E9). clear E9.
  exists cb, d, dc, hr, url, b, a, date, msg, age, tc, bc, tg, sc.
  eexists. split.
  { unfold step_health, ret.
    match goal with |- context [calculate_health ?s] =>
      change (calculate_health s) with
        (calculate_health
           {| name := path_name p; path := path_str p; current_branch := cb;
              staged_count := c_staged dc; modified_count := c_modified dc;
              untracked_count := c_untracked dc; deleted_count := c_deleted dc;
              conflict_count := c_conflict dc; stash_count := sc;
              ahead := a; behind := b; has_remote := hr; remote_url := url;
              last_commit_date := date; last_commit_age_days := age;
              last_commit_message := msg; total_commits := tc;
              branch_count := bc; tag_count := tg;
              is_dirty := (c_staged dc >? 0) || (c_modified dc >? 0)
                          || (c_untracked dc >? 0) || (c_deleted dc >? 0)
                          || (c_conflict dc >? 0);
              is_detached := d; health_score := 100; health_grade := "A";
              issues := []; error := "" |})
    end.
    unfold extracted.
    match goal with |- context [calculate_health ?s] =>
      destruct (calculate_health s) as [[score grade] iss] end.
    reflexivity. }
  change (stash_count s9) with 0 in Hsc.
  change (branch_count s7) with 0 in Hbc.
  change (tag_count s8) with 0 in Htg.
  change (remote_url s3) with "" in Hurl.
  change (last_commit_message s5) with "" in Hmsg.
  split; [exact Hdc|]. split; [lia|]. split; [lia|]. split; [lia|].
  split; [exact Hcb|]. split; [exact Hd|]. split; [exact Hurl|].
  split; [exact Hab|].
  destruct Hmsg as [-> | H]; [simpl; lia | exact H].
Qed.

Lemma get_repo_status_sound (l : Log) :
  exists st l',
    get_repo_status w p l = (Some st, l')
    /\ sound_status st /\ path st = path_str p /\ name st = path_name p.
Proof.
  destruct (Z.eqb_spec (snd (run_git_result w p ["rev-parse"; "--git-dir"])) 0)
    as [Hrc|Hrc].
  - destruct (get_repo_status_fields l Hrc)
      as (cb & d & dc & hr & url & b & a & date & msg & age & tc & bc & tg
          & sc & l' & E & Hdc & _ & _ & _ & _ & _ & _ & Hab & _).
    do 2 eexists. split; [exact E|].
    split; [|split; reflexivity].
    unfold sound_status.
    set (st := extracted p cb d dc hr url b a date msg age tc bc tg sc).
    change (staged_count st) with (c_staged dc).
    change (modified_count st) with (c_modified dc).
    change (untracked_count st) with (c_untracked dc).
    change (deleted_count st) with (c_deleted dc).
    change (conflict_count st) with (c_conflict dc).
    change (has_remote st) with hr. change (is_detached st) with d.
    change (behind st) with b. change (ahead st) with a.
    change (error st) with "".
    split; [exact Hdc|]. split; [reflexivity|]. split; [exact Hab|].
    split; [intros _; apply extracted_health | intros H; now destruct H].
  - pose proof (get_repo_status_run w p l) as H.
    apply Z.eqb_neq in Hrc. rewrite Hrc in H.
    do 2 eexists. split; [exact H|].
    split; [|split; reflexivity].
    unfold sound_status. cbn.
    repeat split; try lia; try reflexivity. intros H'. discriminate H'.
Qed.

(** X2.  The extractor only ever runs its own read-only queries on the
    repository it was given: the validity query comes first and is the
    last one exactly when an error is set, otherwise eight to ten more
    commands are run, and every one of them is
    [git -C path] followed by one of the ten fixed argument lists or by the
    ahead/behind query of some branch. *)
Theorem extractor_queries (l : Log) :
  exists st trace,
    get_repo_status w p l
    = (Some st, (l ++ git_cmd p ["rev-parse"; "--git-dir"] :: trace)%list)
    /\ Forall (extractor_query p) trace
    /\ (error st <> "" <-> trace = [])
    /\ (error st = "" -> (8 <= List.length trace <= 10)%nat).
Proof.
  pose proof (get_repo_status_run w p l) as H.
  destruct (snd (run_git_result w p ["rev-parse"; "--git-dir"]) =? 0).
  - destruct H as (cb & d & cmds & dc & hr & url & b & a & date & msg & age
                   & tc & bc & tg & sc & E & Hcmds & _).
    do 2 eexists. split; [exact E|].
    assert (Q : forall args, In args fixed_queries ->
                             extractor_query p (git_cmd p args)).
    { intros args Hin. exists args. split; [reflexivity | now left]. }
    assert (Q' : extractor_query p (git_cmd p (ahead_behind_args cb))).
    { eexists. split; [reflexivity|]. right. now exists cb. }
    split; [|split].
    + destruct Hcmds as [-> | ->]; destruct (hr && negb d); cbn [app];
        repeat (constructor; [first [exact Q' | apply Q; cbn; tauto]|]);
        constructor.
    + split; [intros Hn; now destruct Hn|].
      destruct Hcmds as [-> | ->]; discriminate.
    + intros _.
      destruct Hcmds as [-> | ->]; destruct (hr && negb d); cbn; lia.
  - exists (invalid_repo p (snd (fst (run_git_result w p ["rev-parse"; "--git-dir"])))), [].
    split; [exact H|]. split; [constructor|].
    split; [split; [reflexivity | discriminate]|].
    intros H'. discriminate H'.
Qed.

(** X3.  Every returned record is named after the path it was extracted
    from, its score lies between 0 and 100, its grade is the grade of its
    score, and, when no error is set, score, grade and issues are what the
    scorer says of the record itself. *)
Theorem extractor_health_consistent (l : Log) :
  exists st l',
    get_repo_status w p l = (Some st, l')
    /\ path st = path_str p /\ name st = path_name p
    /\ 0 <= health_score st <= 100
    /\ health_grade st = grade_of (health_score st)
    /\ (error st = "" ->
        (health_score st, health_grade st, issues st) = calculate_health st).
Proof.
  destruct (get_repo_status_sound l)
    as (st & l' & E & (_ & _ & _ & Hok & Herr) & Hp & Hn).
  exists st, l'. split; [exact E|]. split; [exact Hp|]. split; [exact Hn|].
  destruct (string_dec (error st) "") as [He|He].
  - specialize (Hok He).
    pose proof (f_equal (fun t => fst (fst t)) Hok) as Hs.
    pose proof (f_equal (fun t => snd (fst t)) Hok) as Hg.
    rewrite calculate_health_table in Hs, Hg. cbn [fst snd] in Hs, Hg.
    pose proof (penalty_sum_range st).
    split; [lia|]. split; [now rewrite Hg, Hs|].
    intros _. exact Hok.
  - pose proof (get_repo_status_run w p l) as H.
    destruct (snd (run_git_result w p ["rev-parse"; "--git-dir"]) =? 0).
    + destruct H as (cb & d & cmds & dc & hr & url & b & a & date & msg & age
                     & tc & bc & tg & sc & E' & _).
      rewrite E in E'. injection E' as -> _. now destruct He.
    + rewrite E in H. injection H as -> _. cbn.
      split; [lia|]. split; [reflexivity|]. intros H'. discriminate H'.
Qed.

(** X4.  A record without error always shows a branch: the branch name git
    printed, [(detached at <commit>)] when HEAD is detached, and then only,
    or [(unknown)]; the record of a path that is no repository shows none. *)
Theorem extractor_branch_display (l : Log) :
  exists st l',
    get_repo_status w p l = (Some st, l')
    /\ (error st = "" <-> current_branch st <> "")
    /\ (is_detached st = true ->
        exists commit, current_branch st = "(detached at " ++ commit ++ ")").
Proof.
  destruct (Z.eqb_spec (snd (run_git_result w p ["rev-parse"; "--git-dir"])) 0)
    as [Hrc|Hrc].
  - destruct (get_repo_status_fields l Hrc)
      as (cb & d & dc & hr & url & b & a & date & msg & age & tc & bc & tg
          & sc & l' & E & _ & _ & _ & _ & Hcb & Hd & _).
    do 2 eexists. split; [exact E|].
    set (st := extracted p cb d dc hr url b a date msg age tc bc tg sc).
    change (current_branch st) with cb. change (is_detached st) with d.
    change (error st) with "".
    split; [split; [intros _; exact Hcb | reflexivity] | exact Hd].
  - pose proof (get_repo_status_run w p l) as H.
    apply Z.eqb_neq in Hrc. rewrite Hrc in H.
    do 2 eexists. split; [exact H|]. cbn.
    split; [split; [discriminate | intros H'; now destruct H']|].
    discriminate.
Qed.

(** X5.  A record with no remote has an empty remote URL, and a record with
    no remote or with a detached HEAD is neither ahead nor behind. *)
Theorem extractor_remote_sync (l : Log) :
  exists st l',
    get_repo_status w p l = (Some st, l')
    /\ (has_remote st = false ->
        remote_url st = "" /\ ahead st = 0 /\ behind st = 0)
    /\ (is_detached st = true -> ahead st = 0 /\ behind st = 0).
Proof.
  destruct (Z.eqb_spec (snd (run_git_result w p ["rev-parse"; "--git-dir"])) 0)
    as [Hrc|Hrc].
  - destruct (get_repo_status_fields l Hrc)
      as (cb & d & dc & hr & url & b & a & date & msg & age & tc & bc & tg
          & sc & l' & E & _ & _ & _ & _ & _ & _ & Hurl & Hab & _).
    do 2 eexists. split; [exact E|].
    set (st := extracted p cb d dc hr url b a date msg age tc bc tg sc).
    change (has_remote st) with hr. change (is_detached st) with d.
    change (remote_url st) with url.
    change (behind st) with b. change (ahead st) with a.
    split.
    + intros ->. destruct (Hab eq_refl) as [-> ->]. now rewrite Hurl.
    + intros ->. rewrite andb_false_r in Hab.
      destruct (Hab eq_refl) as [-> ->]. now split.
  - pose proof (get_repo_status_run w p l) as H.
    apply Z.eqb_neq in Hrc. rewrite Hrc in H.
    do 2 eexists. split; [exact H|]. cbn. split; [now repeat split|].
    discriminate.
Qed.

(** X6.  No counter of a returned record is negative: the five working-tree
    counters, the stash, branch and tag counts; and the commit message kept
    is at most 120 characters long. *)
Theorem extractor_counters (l : Log) :
  exists st l',
    get_repo_status w p l = (Some st, l')
    /\ 0 <= staged_count st /\ 0 <= modified_count st
    /\ 0 <= untracked_count st /\ 0 <= deleted_count st
    /\ 0 <= conflict_count st /\ 0 <= stash_count st
    /\ 0 <= branch_count st /\ 0 <= tag_count st
    /\ (String.length (last_commit_message st) <= 120)%nat.
Proof.
  destruct (Z.eqb_spec (snd (run_git_result w p ["rev-parse"; "--git-dir"])) 0)
    as [Hrc|Hrc].
  - destruct (get_repo_status_fields l Hrc)
      as (cb & d & dc & hr & url & b & a & date & msg & age & tc & bc & tg
          & sc & l' & E & (H1 & H2 & H3 & H4 & H5) & Hsc & Hbc & Htg & _ & _
          & _ & _ & Hmsg).
    do 2 eexists. split; [exact E|].
    set (st := extracted p cb d dc hr url b a date msg age tc bc tg sc).
    change (staged_count st) with (c_staged dc).
    change (modified_count st) with (c_modified dc).
    change (untracked_count st) with (c_untracked dc).
    change (deleted_count st) with (c_deleted dc).
    change (conflict_count st) with (c_conflict dc).
    change (stash_count st) with sc. change (branch_count st) with bc.
    change (tag_count st) with tg. change (last_commit_message st) with msg.
    tauto.
  - pose proof (get_repo_status_run w p l) as H.
    apply Z.eqb_neq in Hrc. rewrite Hrc in H.
    do 2 eexists. split; [exact H|]. cbn. repeat split; lia.
Qed.

End Records.

(** ** Health scorer: issues and score go together *)

Lemma fired_none (rows : list (bool * Z * string)) :
  Forall (fun r => 0 < row_penalty r) rows ->
  (fold_right Z.add 0 (map row_penalty (filter row_fires rows)) = 0
   <-> filter row_fires rows = []).
Proof.
  intros Hpos. split; [|intros ->; reflexivity].
  assert (Hnn : forall l, Forall (fun r => 0 < row_penalty r) l ->
                          0 <= fold_right Z.add 0 (map row_penalty l)).
  { induction 1; simpl; lia. }
  assert (Hf : Forall (fun r => 0 < row_penalty r) (filter row_fires rows)).
  { apply Forall_forall. intros r Hr. apply filter_In in Hr as [Hr _].
    rewrite Forall_forall in Hpos. now apply Hpos. }
  destruct (filter row_fires rows) as [|r rs]; [reflexivity|].
  inversion Hf as [|? ? Hr Hrs]; subst. simpl.
  specialize (Hnn rs Hrs). lia.
Qed.

Lemma scoring_rows_positive (s : RepoStatus) :
  Forall (fun r => 0 < row_penalty r) (scoring_rows s).
Proof. unfold scoring_rows. repeat constructor. Qed.

(** X7.  For every record, with or without sensible field values: the
    score is 100 exactly when the list of issues is empty. *)
Theorem perfect_iff_no_issue (s : RepoStatus) :
  fst (fst (calculate_health s)) = 100 <-> snd (calculate_health s) = [].
Proof.
  rewrite calculate_health_table; cbn [fst snd].
  pose proof (penalty_sum_range s) as R.
  pose proof (fired_none (scoring_rows s) (scoring_rows_positive s)) as F.
  fold (triggered s) in F. fold (penalty_sum s) in F.
  unfold issue_texts. split.
  - intros H. assert (E : penalty_sum s = 0) by lia.
    apply F in E. now rewrite E.
  - intros H. apply map_eq_nil in H. apply F in H. lia.
Qed.

(** X8.  A triggered rule caps the score at 100 minus its penalty, whatever
    else holds of the record. *)
Theorem score_caps (s : RepoStatus) :
  let score := fst (fst (calculate_health s)) in
  (has_remote s = false -> score <= 85)
  /\ (staged_count s > 0 \/ modified_count s > 0 -> score <= 90)
  /\ (untracked_count s > 0 -> score <= 95)
  /\ (deleted_count s > 0 -> score <= 95)
  /\ (behind s > 0 -> score <= 90)
  /\ (ahead s > 5 -> score <= 95)
  /\ (last_commit_age_days s > 30 -> score <= 90)
  /\ (last_commit_age_days s > 90 -> score <= 80)
  /\ (is_detached s = true -> score <= 95)
  /\ (conflict_count s > 0 -> score <= 80)
  /\ (total_commits s = 0 -> score <= 70)
  /\ (stash_count s > 0 -> score <= 97).
Proof.
  cbv zeta. rewrite calculate_health_table; cbn [fst snd].
  rewrite penalty_sum_rules.
  pose proof (pen_bounds (negb (has_remote s)) 15 ltac:(lia)) as B1.
  pose proof (pen_bounds ((staged_count s >? 0) || (modified_count s >? 0)) 10
                ltac:(lia)) as B2.
  pose proof (pen_bounds (untracked_count s >? 0) 5 ltac:(lia)) as B3.
  pose proof (pen_bounds (deleted_count s >? 0) 5 ltac:(lia)) as B4.
  pose proof (pen_bounds (behind s >? 0) 10 ltac:(lia)) as B5.
  pose proof (pen_bounds (ahead s >? 5) 5 ltac:(lia)) as B6.
  pose proof (pen_bounds (is_detached s) 5 ltac:(lia)) as B7.
  pose proof (pen_bounds (conflict_count s >? 0) 20 ltac:(lia)) as B8.
  pose proof (pen_bounds (total_commits s =? 0) 30 ltac:(lia)) as B9.
  pose proof (pen_bounds (stash_count s >? 0) 3 ltac:(lia)) as B10.
  assert (A : 0 <= (if last_commit_age_days s >? 90 then 20
                    else if last_commit_age_days s >? 30 then 10 else 0))
    by (destruct (last_commit_age_days s >? 90),
                 (last_commit_age_days s >? 30); lia).
  assert (G : forall x k, x > k -> (x >? k) = true)
    by (intros; rewrite Z.gtb_ltb; apply Z.ltb_lt; lia).
  repeat split; intros H.
  - rewrite H in *. cbn [negb pen] in *. lia.
  - assert (E : (staged_count s >? 0) || (modified_count s >? 0) = true)
      by (destruct H as [H|H]; rewrite (G _ _ H); [reflexivity | apply orb_true_r]).
    rewrite E in *. cbn [pen] in *. lia.
  - rewrite (G _ _ H) in *. cbn [pen] in *. lia.
  - rewrite (G _ _ H) in *. cbn [pen] in *. lia.
  - rewrite (G _ _ H) in *. cbn [pen] in *. lia.
  - rewrite (G _ _ H) in *. cbn [pen] in *. lia.
  - rewrite (G _ _ H) in *.
    destruct (last_commit_age_days s >? 90); lia.
  - rewrite (G _ _ H) in *. lia.
  - rewrite H in *. cbn [pen] in *. lia.
  - rewrite (G _ _ H) in *. cbn [pen] in *. lia.
  - rewrite H in *. cbn [Z.eqb pen] in *. lia.
  - rewrite (G _ _ H) in *. cbn [pen] in *. lia.
Qed.

(** A repository without a single commit cannot be graded above C. *)
Lemma score_caps_witness :
  total_commits (new_RepoStatus "r" "/r") = 0
  /\ fst (fst (calculate_health (new_RepoStatus "r" "/r"))) <= 70.
Proof.
  split; [reflexivity|].
  destruct (score_caps (new_RepoStatus "r" "/r"))
    as (_ & _ & _ & _ & _ & _ & _ & _ & _ & _ & H & _).
  apply H. reflexivity.
Defined.

(** The ahead/behind query on a repository two behind and seven ahead. *)
Lemma ahead_behind_spec_witness :
  exists st trace,
    get_repo_status
      (sample_world (repo_answers "" "2	7" "2025-12-25T10:00:00+00:00|||Init"))
      sample_path [] = (Some st, trace)
    /\ has_remote st && negb (is_detached st) = true
    /\ behind st = 2 /\ ahead st = 7.
Proof.
  destruct (ahead_behind_spec
              (sample_world
                 (repo_answers "" "2	7" "2025-12-25T10:00:00+00:00|||Init"))
              sample_path []) as (st & trace & E & _ & Hrel).
  exists st, trace. split; [exact E|].
  assert (Hst : has_remote st = true /\ is_detached st = false
                /\ current_branch st = "main").
  { vm_compute in E. injection E as <- _. now repeat split. }
  destruct Hst as (Hr & Hd & Hb). rewrite Hr, Hd, Hb in *.
  split; [reflexivity|]. cbn [andb negb] in Hrel.
  destruct Hrel as (H & _).
  apply (H "2" "7"); reflexivity.
Defined.

(** ** Scan orchestrator: order and completeness of the records *)

Lemma key_leb_le (a b : RepoStatus) : key_leb a b = true <-> key_le a b.
Proof.
  unfold key_leb, key_le.
  rewrite orb_true_iff, andb_true_iff, Z.ltb_lt, Z.eqb_eq. tauto.
Qed.

Lemma key_le_trans (a b c : RepoStatus) : key_le a b -> key_le b c -> key_le a c.
Proof.
  unfold key_le. intros [H1|[E1 L1]] [H2|[E2 L2]]; try (left; lia).
  right. split; [lia|]. eapply leb_trans; eassumption.
Qed.

Lemma key_le_total (a b : RepoStatus) : key_leb a b = false -> key_le b a.
Proof.
  unfold key_leb, key_le.
  rewrite orb_false_iff, andb_false_iff, Z.ltb_ge, Z.eqb_neq.
  intros [H1 [H2|H2]]; [left; lia|].
  destruct (Z.eq_dec (health_score a) (health_score b)) as [E|E]; [|left; lia].
  right. split; [lia|].
  destruct (String.leb_total (name a) (name b)); congruence.
Qed.

Lemma insert_repo_sorted (r : RepoStatus) (l : list RepoStatus) :
  StronglySorted key_le l -> StronglySorted key_le (insert_repo r l).
Proof.
  induction 1 as [|h t Ht IH Hh]; simpl.
  - repeat constructor.
  - destruct (key_leb r h) eqn:E.
    + apply key_leb_le in E.
      constructor; [now constructor|].
      constructor; [exact E|].
      eapply Forall_impl; [|exact Hh]. intros x Hx.
      eapply key_le_trans; eassumption.
    + constructor; [exact IH|].
      apply Forall_forall. intros x Hx.
      apply (Permutation_in _ (insert_repo_perm r t)) in Hx.
      destruct Hx as [<-|Hx]; [now apply key_le_total|].
      rewrite Forall_forall in Hh. now apply Hh.
Qed.

Lemma sort_repos_sorted (l : list RepoStatus) :
  StronglySorted key_le (sort_repos l).
Proof.
  induction l as [|r l IH]; simpl; [constructor|].
  now apply insert_repo_sorted.
Qed.

Lemma repos_count_bucket (r : RepoStatus) (result : ScanResult) :
  repos (count_bucket r (append_repo r result)) = (repos result ++ [r])%list
  /\ root_dir (count_bucket r (append_repo r result)) = root_dir result.
Proof.
  unfold count_bucket, append_repo.
  destruct (Py.truthy (error r)); [now split|].
  destruct (health_score r >=? 80); [now split|].
  destruct (health_score r >=? 60); now split.
Qed.

Lemma map_pair_eq {A B C D} (f : A -> C) (g : A -> D) (f' : B -> C)
    (g' : B -> D) (l1 : list A) (l2 : list B) :
  map f l1 = map f' l2 -> map g l1 = map g' l2 ->
  map (fun x => (f x, g x)) l1 = map (fun y => (f' y, g' y)) l2.
Proof.
  revert l2. induction l1 as [|x l1 IH]; intros [|y l2]; cbn [map];
    intros Hf Hg; try discriminate; [reflexivity|].
  injection Hf as Hf1 Hf2. injection Hg as Hg1 Hg2.
  rewrite Hf1, Hg1, (IH l2 Hf2 Hg2). reflexivity.
Qed.

Section ScanRecords.

Variable w : World.
Variable max_depth : nat.

(** The loop of [scan] appends one sound record per located path, in the
    order of the paths, and runs no command when there is no path. *)
Lemma scan_loop (paths : list Path) :
  forall (result : ScanResult) (l : Log),
  exists rs result' l',
    for_each paths
      (fun rp result =>
         repo_status <- get_repo_status w rp ;;
         ret (count_bucket repo_status (append_repo repo_status result)))
      result l = (Some result', l')
    /\ repos result' = (repos result ++ rs)%list
    /\ map path rs = map path_str paths
    /\ map name rs = map path_name paths
    /\ Forall sound_status rs
    /\ (paths = [] -> result' = result /\ l' = l).
Proof.
  induction paths as [|rp paths IH]; intros result l.
  - exists [], result, l. rewrite app_nil_r.
    repeat split; try reflexivity. constructor.
  - cbn [for_each].
    destruct (get_repo_status_sound w rp l) as (st & l1 & E & Hst & Hp & Hn).
    unfold bind at 1. unfold bind at 1. rewrite E. unfold ret at 1.
    destruct (IH (count_bucket st (append_repo st result)) l1)
      as (rs & result' & l' & E' & Hr & Hps & Hns & Hs & _).
    exists (st :: rs), result', l'.
    split; [exact E'|].
    destruct (repos_count_bucket st result) as [Hrep _].
    rewrite Hr, Hrep, <- app_assoc.
    split; [reflexivity|]. cbn [map]. rewrite Hp, Hn, Hps, Hns.
    repeat split; try reflexivity; [now constructor | discriminate ..].
Qed.

(** [scan] on a directory: the records are the sorted list of one sound
    record per located path. *)
Lemma scan_run (root : Path) (listable : bool)
    (entries : list (string * node)) (l : Log) :
  exists rs result l',
    scan w max_depth root (Some (Dir listable entries)) l = (Some result, l')
    /\ repos result = sort_repos rs
    /\ map path rs
       = map path_str (find_repos max_depth root (Dir listable entries) 0)
    /\ map name rs
       = map path_name (find_repos max_depth root (Dir listable entries) 0)
    /\ Forall sound_status rs
    /\ (find_repos max_depth root (Dir listable entries) 0 = [] ->
        l' = l /\ rs = []).
Proof.
  unfold scan. unfold bind at 1, lift at 1. cbn beta iota.
  unfold bind at 1, lift at 1. cbn [is_dir].
  set (paths := find_repos max_depth root (Dir listable entries) 0).
  match goal with |- context [for_each paths _ ?r0] =>
    destruct (scan_loop paths r0 l)
      as (rs & result & l' & E & Hr & Hp & Hn & Hs & Hnil)
  end.
  rewrite (bind_run _ _ _ _ _ E). unfold ret.
  exists rs. do 2 eexists. split; [reflexivity|].
  cbn [repos] in *. rewrite Hr. cbn [app].
  repeat split; try assumption.
  - now destruct (Hnil H).
  - destruct rs as [|r rs']; [reflexivity|].
    rewrite H in Hp. discriminate Hp.
Qed.

(** X9.  The records of a scan come sorted by score, then by name: each
    record's key [(health_score, name)] is at most the key of every record
    after it. *)
Theorem scan_sorted (root : Path) (listable : bool)
    (entries : list (string * node)) (l : Log) :
  exists result l',
    scan w max_depth root (Some (Dir listable entries)) l = (Some result, l')
    /\ StronglySorted key_le (repos result).
Proof.
  destruct (scan_run root listable entries l)
    as (rs & result & l' & E & Hr & _).
  exists result, l'. split; [exact E|].
  rewrite Hr. apply sort_repos_sorted.
Qed.

(** X10.  A scan reports each located repository exactly once: the paths of
    its records are, up to order, the located paths, every record being
    named after the last component of its path. *)
Theorem scan_each_repo_once (root : Path) (listable : bool)
    (entries : list (string * node)) (l : Log) :
  exists result l',
    scan w max_depth root (Some (Dir listable entries)) l = (Some result, l')
    /\ Permutation (map path (repos result))
         (map path_str (find_repos max_depth root (Dir listable entries) 0))
    /\ Permutation (map (fun r => (path r, name r)) (repos result))
         (map (fun q => (path_str q, path_name q))
            (find_repos max_depth root (Dir listable entries) 0)).
Proof.
  destruct (scan_run root listable entries l)
    as (rs & result & l' & E & Hr & Hp & Hn & _).
  exists result, l'. split; [exact E|].
  rewrite Hr. split.
  - rewrite <- Hp. apply Permutation_map, sort_repos_perm.
  - rewrite (Permutation_map _ (sort_repos_perm rs)).
    assert (Hpn : map (fun r => (path r, name r)) rs
                  = map (fun q => (path_str q, path_name q))
                      (find_repos max_depth root (Dir listable entries) 0))
      by (apply map_pair_eq; assumption).
    now rewrite Hpn.
Qed.

(** X11.  A scan fails, before any command is run, when its root does not
    exist or is a file; and on a directory that is no repository and holds
    nothing the walk descends into, it returns the empty result, all
    counters 0, again without running a command. *)
Theorem scan_edges (root : Path) (entries : list (string * node)) (l : Log) :
  scan w max_depth root None l = (None, l)
  /\ scan w max_depth root (Some File) l = (None, l)
  /\ (has_git_dir entries = false ->
      Forall (fun e => is_dir (snd e) && descends (fst e) = false) entries ->
      scan w max_depth root (Some (Dir true entries)) l
      = (Some {| root_dir := path_str root; total_repos := 0;
                 healthy_count := 0; warning_count := 0; critical_count := 0;
                 error_count := 0; repos := [] |}, l)).
Proof.
  split; [reflexivity|]. split; [reflexivity|].
  intros Hgit Hall.
  assert (Hnone : find_repos max_depth root (Dir true entries) 0 = []).
  { rewrite find_repos_eq, Hgit. cbn [Nat.ltb Nat.leb negb].
    destruct (git_stat_fails entries); [reflexivity|].
    assert (Hs : forall e, In e (reached (sorted_entries entries)) ->
                           is_dir (snd e) && descends (fst e) = false).
    { intros e He. apply reached_In in He as [He _].
      apply (proj1 (sorted_entries_In _ _)) in He.
      rewrite Forall_forall in Hall. now apply Hall. }
    induction (reached (sorted_entries entries)) as [|e es IH]; [reflexivity|].
    cbn [flat_map]. rewrite (Hs e (or_introl eq_refl)).
    apply IH. intros e' He'. apply Hs. now right. }
  unfold scan. unfold bind at 1, lift at 1. cbn beta iota.
  unfold bind at 1, lift at 1. cbn [is_dir].
  rewrite Hnone. reflexivity.
Qed.

End ScanRecords.

(** ** The public queries built on the scan *)

(** A record with a working-tree counter above 0 loses points and carries
    an issue. *)
Lemma dirty_penalised (s : RepoStatus) :
  staged_count s > 0 \/ modified_count s > 0 \/ untracked_count s > 0
  \/ deleted_count s > 0 \/ conflict_count s > 0 ->
  fst (fst (calculate_health s)) <= 95 /\ snd (calculate_health s) <> [].
Proof.
  intros H. rewrite calculate_health_table; cbn [fst snd].
  pose proof (penalty_sum_range s) as R.
  assert (Hsum : 5 <= penalty_sum s).
  { rewrite penalty_sum_rules.
    pose proof (pen_bounds (negb (has_remote s)) 15 ltac:(lia)).
    pose proof (pen_bounds ((staged_count s >? 0) || (modified_count s >? 0)) 10
                  ltac:(lia)).
    pose proof (pen_bounds (untracked_count s >? 0) 5 ltac:(lia)).
    pose proof (pen_bounds (deleted_count s >? 0) 5 ltac:(lia)).
    pose proof (pen_bounds (behind s >? 0) 10 ltac:(lia)).
    pose proof (pen_bounds (ahead s >? 5) 5 ltac:(lia)).
    pose proof (pen_bounds (is_detached s) 5 ltac:(lia)).
    pose proof (pen_bounds (conflict_count s >? 0) 20 ltac:(lia)).
    pose proof (pen_bounds (total_commits s =? 0) 30 ltac:(lia)).
    pose proof (pen_bounds (stash_count s >? 0) 3 ltac:(lia)).
    assert (A : 0 <= (if last_commit_age_days s >? 90 then 20
                      else if last_commit_age_days s >? 30 then 10 else 0))
      by (destruct (last_commit_age_days s >? 90),
                   (last_commit_age_days s >? 30); lia).
    assert (G : forall x k, x > k -> (x >? k) = true)
      by (intros; rewrite Z.gtb_ltb; apply Z.ltb_lt; lia).
    destruct H as [H|[H|[H|[H|H]]]]; rewrite (G _ _ H) in *;
      rewrite ?orb_true_r in *; cbn [orb pen] in *; lia. }
  split; [lia|].
  intros Hnil. unfold issue_texts in Hnil. apply map_eq_nil in Hnil.
  apply (fired_none (scoring_rows s) (scoring_rows_positive s)) in Hnil.
  fold (triggered s) in Hnil. fold (penalty_sum s) in Hnil. lia.
Qed.

Section Finders.

Variable w : World.
Variable max_depth : nat.

(** The records a query on a directory filters: the sorted records of the
    scan, all sound. *)
Lemma scanned (root : Path) (listable : bool) (entries : list (string * node))
    (l : Log) :
  exists result l',
    scan w max_depth root (Some (Dir listable entries)) l = (Some result, l')
    /\ Forall sound_status (repos result).
Proof.
  destruct (scan_run w max_depth root listable entries l)
    as (rs & result & l' & E & Hr & _ & _ & Hs & _).
  exists result, l'. split; [exact E|]. rewrite Hr.
  eapply Permutation_Forall; [|exact Hs].
  symmetry. apply sort_repos_perm.
Qed.

(** X12.  A repository reported as out of sync always has a remote, an
    attached HEAD and no error, so that no repository is reported both as
    out of sync and as having no remote. *)
Theorem unsynced_have_remote (root : Path) (listable : bool)
    (entries : list (string * node)) (l : Log) :
  exists unsynced no_remote l',
    find_unsynced w max_depth root (Some (Dir listable entries)) l
    = (Some unsynced, l')
    /\ find_no_remote w max_depth root (Some (Dir listable entries)) l
       = (Some no_remote, l')
    /\ forall r,
         In r unsynced ->
         has_remote r = true /\ is_detached r = false /\ error r = ""
         /\ ~ In r no_remote.
Proof.
  destruct (scanned root listable entries l) as (result & l' & E & Hs).
  unfold find_unsynced, find_no_remote.
  rewrite !(bind_run _ _ _ _ _ E). unfold ret.
  do 3 eexists. split; [reflexivity|]. split; [reflexivity|].
  intros r Hr. apply filter_In in Hr as [Hin Hr].
  rewrite Forall_forall in Hs.
  destruct (Hs r Hin) as (_ & _ & Hsync & _ & Herr).
  assert (Hrd : has_remote r && negb (is_detached r) = true).
  { destruct (has_remote r && negb (is_detached r)); [reflexivity|].
    destruct (Hsync eq_refl) as [Hb Ha]. rewrite Ha, Hb in Hr. discriminate Hr. }
  apply andb_true_iff in Hrd as [Hrem Hdet]. apply negb_true_iff in Hdet.
  split; [exact Hrem|]. split; [exact Hdet|]. split.
  - destruct (string_dec (error r) "") as [He|He]; [exact He|].
    destruct (Herr He) as (Hno & _). congruence.
  - intros Hn. apply filter_In in Hn as [_ Hn]. rewrite Hrem in Hn.
    discriminate Hn.
Qed.

(** X13.  A path on which the validity check failed is always listed among
    the repositories without remote, and never among the dirty or the stale
    ones. *)
Theorem errored_repos_listed (root : Path) (listable : bool)
    (entries : list (string * node)) (days : Z) (l : Log) :
  exists result no_remote dirty l',
    scan w max_depth root (Some (Dir listable entries)) l = (Some result, l')
    /\ find_no_remote w max_depth root (Some (Dir listable entries)) l
       = (Some no_remote, l')
    /\ find_dirty w max_depth root (Some (Dir listable entries)) l
       = (Some dirty, l')
    /\ forall r,
         In r (repos result) -> error r <> "" ->
         In r no_remote /\ ~ In r dirty
         /\ forall stale l'',
              find_stale w max_depth root (Some (Dir listable entries)) days l
              = (Some stale, l'') -> ~ In r stale.
Proof.
  destruct (scanned root listable entries l) as (result & l' & E & Hs).
  unfold find_no_remote, find_dirty, find_stale.
  rewrite !(bind_run _ _ _ _ _ E). unfold ret.
  exists result. do 2 eexists. exists l'.
  split; [exact E|]. split; [reflexivity|]. split; [reflexivity|].
  intros r Hin He. rewrite Forall_forall in Hs.
  destruct (Hs r Hin) as (_ & _ & _ & _ & Herr).
  destruct (Herr He) as (Hrem & Hdirty & _ & Hage).
  split; [apply filter_In; split; [exact Hin | now rewrite Hrem]|].
  split.
  - intros Hd. apply filter_In in Hd as [_ Hd]. congruence.
  - intros stale l''. unfold bind at 1, lift at 1.
    destruct (days <? 1) eqn:Ed; [discriminate|].
    rewrite (bind_run _ _ _ _ _ E). intros H. injection H as <- _.
    intros Hst. apply filter_In in Hst as [_ Hst].
    rewrite Hage in Hst. apply Z.ltb_ge in Ed.
    rewrite Z.gtb_ltb in Hst. apply Z.ltb_lt in Hst. lia.
Qed.

(** X14.  Every repository reported as dirty has a working-tree counter
    above 0, no error, a score of at most 95 and at least one issue. *)
Theorem dirty_repos_penalised (root : Path) (listable : bool)
    (entries : list (string * node)) (l : Log) :
  exists dirty l',
    find_dirty w max_depth root (Some (Dir listable entries)) l
    = (Some dirty, l')
    /\ Forall (fun r =>
                 staged_count r + modified_count r + untracked_count r
                 + deleted_count r + conflict_count r > 0
                 /\ error r = ""
                 /\ health_score r <= 95 /\ issues r <> []) dirty.
Proof.
  destruct (scanned root listable entries l) as (result & l' & E & Hs).
  unfold find_dirty. rewrite (bind_run _ _ _ _ _ E). unfold ret.
  do 2 eexists. split; [reflexivity|].
  apply Forall_forall. intros r Hr. apply filter_In in Hr as [Hin Hr].
  rewrite Forall_forall in Hs.
  destruct (Hs r Hin) as ((H1 & H2 & H3 & H4 & H5) & Hd & _ & Hok & Herr).
  rewrite Hr in Hd. symmetry in Hd.
  rewrite !orb_true_iff, !Z.gtb_ltb, !Z.ltb_lt in Hd.
  assert (He : error r = "").
  { destruct (string_dec (error r) "") as [He|He]; [exact He|].
    destruct (Herr He) as (_ & Hnd & _). congruence. }
  split; [lia|]. split; [exact He|].
  destruct (dirty_penalised r) as [Hscore Hiss]; [lia|].
  specialize (Hok He).
  pose proof (f_equal (fun t => fst (fst t)) Hok) as Hs1.
  pose proof (f_equal snd Hok) as Hs2. cbn [fst snd] in Hs1, Hs2.
  rewrite Hs1, Hs2. now split.
Qed.

(** X15.  [find_stale] refuses a threshold below 1 before any command is
    run; with a threshold of at least 1 it returns records without error
    that are older than the threshold, and raising the threshold can only
    remove records. *)
Theorem find_stale_spec (root : Path) (at_root : option node)
    (listable : bool) (entries : list (string * node)) (days days' : Z)
    (l : Log) :
  (days < 1 -> find_stale w max_depth root at_root days l = (None, l))
  /\ (1 <= days <= days' ->
      exists stale stale' l',
        find_stale w max_depth root (Some (Dir listable entries)) days l
        = (Some stale, l')
        /\ find_stale w max_depth root (Some (Dir listable entries)) days' l
           = (Some stale', l')
        /\ incl stale' stale
        /\ Forall (fun r => error r = "" /\ last_commit_age_days r > days)
             stale).
Proof.
  split.
  - intros H. unfold find_stale, bind, lift.
    apply Z.ltb_lt in H. now rewrite H.
  - intros [H1 H2].
    destruct (scanned root listable entries l) as (result & l' & E & Hs).
    unfold find_stale, bind at 1, lift at 1.
    replace (days <? 1) with false by (symmetry; apply Z.ltb_ge; lia).
    unfold bind at 2, lift at 1.
    replace (days' <? 1) with false by (symmetry; apply Z.ltb_ge; lia).
    rewrite !(bind_run _ _ _ _ _ E). unfold ret.
    do 3 eexists. split; [reflexivity|]. split; [reflexivity|]. split.
    + intros r Hr. apply filter_In in Hr as [Hin Hr]. apply filter_In.
      split; [exact Hin|].
      rewrite Z.gtb_ltb in *. apply Z.ltb_lt in Hr. apply Z.ltb_lt. lia.
    + apply Forall_forall. intros r Hr. apply filter_In in Hr as [Hin Hr].
      rewrite Z.gtb_ltb in Hr. apply Z.ltb_lt in Hr.
      split; [|lia].
      rewrite Forall_forall in Hs.
      destruct (Hs r Hin) as (_ & _ & _ & _ & Herr).
      destruct (string_dec (error r) "") as [He|He]; [exact He|].
      destruct (Herr He) as (_ & _ & _ & Hage). lia.
Qed.

End Finders.

(** ** Branch analyzer: counts, names and queries *)

(** X16.  [get_branches] raises before running any command when the path
    does not exist.  On an existing path it raises, too, when a count of the
    listing has more than 4300 digits, which [int] refuses; otherwise it
    returns, after one listing query followed by exactly one
    [git log -1 --format=%aI <name>] query per branch returned, in the order
    of the result; every branch has counts ahead and behind that are not
    negative and a name without surrounding white space; and there are at
    most as many branches as lines in the listing. *)
Theorem get_branches_spec (w : World) (path : Path) (l : Log) :
  get_branches w path false l = (None, l)
  /\ (forallb counts_convert (branch_listing w path) = true ->
      exists bs,
        get_branches w path true l
        = (Some bs,
           (l ++ git_cmd path
                   ["branch"; "-vv"; "--format";
                    "%(HEAD)|||%(refname:short)|||%(upstream:short)|||%(upstream:track)"]
              :: map (fun br => git_cmd path ["log"; "-1"; "--format=%aI";
                                              BranchInfo.name br]) bs)%list)
        /\ Forall (fun br => 0 <= BranchInfo.ahead br
                             /\ 0 <= BranchInfo.behind br
                             /\ Py.strip (BranchInfo.name br)
                                = BranchInfo.name br) bs
        /\ (List.length bs <= List.length (branch_listing w path))%nat)
  /\ (forallb counts_convert (branch_listing w path) = false ->
      exists l', get_branches w path true l = (None, l')).
Proof.
  split; [reflexivity|].
  pose proof (get_branches_run w path l) as H.
  split; intros Hc; rewrite Hc in H; [|exact H].
  destruct H as (bs & E & Hbs & Hlen).
  exists bs. split; [exact E|]. split; [|exact Hlen].
  eapply Forall_impl; [|exact Hbs].
  intros br (Ha & Hb & Hn & _). now repeat split.
Qed.


(** ** Locator: the depth limit *)

(** X17.  Raising the depth limit never loses a repository: whatever the
    walk finds within [max_depth] levels it also finds within any larger
    number of levels. *)
Theorem find_repos_depth_mono (max_depth max_depth' : nat) (root : Path)
    (n : node) :
  (max_depth <= max_depth')%nat ->
  incl (find_repos max_depth root n 0) (find_repos max_depth' root n 0).
Proof.
  intros H q Hq.
  apply (proj1 (find_repos_In max_depth _ root n 0 q (Nat.le_refl _))) in Hq.
  apply (proj2 (find_repos_In max_depth' _ root n 0 q (Nat.le_refl _))).
  destruct Hq as (names & Hq & Hloc & Hlen).
  exists names. split; [exact Hq|]. split; [exact Hloc | simpl in *; lia].
Qed.

(** ** The further properties on concrete inputs *)

(** One level finds [zeta] only; two levels find it again, with two more. *)
Lemma find_repos_depth_mono_witness :
  (1 <= 2)%nat
  /\ incl (find_repos 1 ["r"] sample_tree 0) (find_repos 2 ["r"] sample_tree 0).
Proof.
  split; [lia|]. apply find_repos_depth_mono. lia.
Defined.

(** A directory holding a file and a dot directory only. *)
Lemma scan_edges_witness :
  has_git_dir [("notes.txt", File); (".cache", Dir true [("tmp", repo_dir [])])]
  = false
  /\ scan (sample_world []) 3 ["r"]
       (Some (Dir true [("notes.txt", File);
                        (".cache", Dir true [("tmp", repo_dir [])])])) []
     = (Some {| root_dir := path_str ["r"]; total_repos := 0;
                healthy_count := 0; warning_count := 0; critical_count := 0;
                error_count := 0; repos := [] |}, []).
Proof.
  split; [reflexivity|].
  destruct (scan_edges (sample_world []) 3 ["r"]
              [("notes.txt", File); (".cache", Dir true [("tmp", repo_dir [])])]
              []) as (_ & _ & H).
  apply H; [reflexivity|].
  repeat constructor.
Defined.

(** Thresholds of 30 and 90 days on a directory with one repository. *)
Lemma find_stale_spec_witness :
  1 <= 30 <= 90
  /\ exists stale stale' l',
       find_stale (sample_world (repo_answers "" "" "2025-06-01T10:00:00+00:00|||Init"))
         3 ["r"] (Some (Dir true [("zeta", repo_dir [])])) 30 []
       = (Some stale, l')
       /\ find_stale (sample_world (repo_answers "" "" "2025-06-01T10:00:00+00:00|||Init"))
            3 ["r"] (Some (Dir true [("zeta", repo_dir [])])) 90 []
          = (Some stale', l')
       /\ incl stale' stale.
Proof.
  split; [lia|].
  destruct (find_stale_spec
              (sample_world (repo_answers "" "" "2025-06-01T10:00:00+00:00|||Init"))
              3 ["r"] None true [("zeta", repo_dir [])] 30 90 []) as [_ H].
  destruct (H ltac:(lia)) as (stale & stale' & l' & E1 & E2 & Hincl & _).
  exists stale, stale', l'. split; [exact E1|]. split; [exact E2 | exact Hincl].
Defined.

(** A listing with two branches, one of them two ahead and one behind. *)
Lemma get_branches_spec_witness :
  forallb counts_convert
    (branch_listing
       (sample_world
          [(branch_listing_args,
            "*|||main|||origin/main|||[ahead 2, behind 1]
 |||dev||||||")])
       sample_path) = true
  /\ option_map
       (map (fun br => (BranchInfo.name br, BranchInfo.ahead br,
                        BranchInfo.behind br)))
       (fst (get_branches
               (sample_world
                  [(branch_listing_args,
                    "*|||main|||origin/main|||[ahead 2, behind 1]
 |||dev||||||")])
               sample_path true []))
     = Some [("main", 2, 1); ("dev", 0, 0)].
Proof.
  split; [reflexivity|].
  destruct (get_branches_spec
              (sample_world
                 [(branch_listing_args,
                   "*|||main|||origin/main|||[ahead 2, behind 1]
 |||dev||||||")])
              sample_path []) as (_ & H & _).
  destruct (H eq_refl) as (bs & E & _).
  rewrite E. cbn [fst option_map]. f_equal.
  vm_compute in E. injection E as <- _. reflexivity.
Defined.

(** [int] at its limit: 4300 digits convert, 4301 do not, and neither do
    they in the branch listing, where the conversion is outside any [try]:
    the analyzer raises after the listing query. *)
Example int_digit_limit :
  Py.int (String.concat "" (List.repeat "0" 4299) ++ "7") = Some 7
  /\ Py.int (String.concat "" (List.repeat "0" 4300) ++ "7") = None
  /\ get_branches
       (sample_world
          [(branch_listing_args,
            "*|||main|||origin/main|||[ahead "
            ++ String.concat "" (List.repeat "1" 4301) ++ "]")])
       sample_path true []
     = (None, [git_cmd sample_path branch_listing_args]).
Proof. vm_compute. repeat split; reflexivity. Qed.
